(** * RFM95 over CH341: a shallow embedding of the driver stack

  The development follows the layering of the repository:

  - [CH341SPI]: the USB bridge transport ([src/CH341SPI.cpp]), run against
    a scripted USB host;
  - [SPIInterface]: the transport contract ([include/SPIInterface.hpp]),
    a type class with one instance per backend;
  - [RFM95]: the radio driver ([src/RFM95.cpp]), written once over any
    [SPIInterface] in a small state monad.

  Bytes are integers of [Z] with the 8-bit wrap-around written out
  ([u8]); single precision numbers are dyadic rationals ([float]). *)

From Stdlib Require Import ZArith QArith Qabs Qround Lia Lqa Bool List.
From stdpp Require Import base option list gmap.

Local Open Scope Z_scope.

(** ** Machine integers *)

(** Conversion to [uint8_t]. *)
Definition u8 (z : Z) : Z := z mod 256.

(** Conversion to [uint16_t]. *)
Definition u16 (z : Z) : Z := z mod 65536.

(** [x & mask] used as a condition. *)
Definition tst (x mask : Z) : bool := negb (Z.land x mask =? 0).

(** Conversion to [int8_t]. *)
Definition i8 (z : Z) : Z := if u8 z <? 128 then u8 z else u8 z - 256.

(** ** The CH341 bridge *)

Module CH341Config.
Definition VENDOR_ID : Z := 0x1A86.
Definition PRODUCT_ID : Z := 0x5512.
Definition BULK_WRITE_EP : Z := 0x02.
Definition BULK_READ_EP : Z := 0x82.
Definition CMD_SPI_STREAM : Z := 0xA8.
Definition CMD_UIO_STREAM : Z := 0xAB.
Definition CMD_UIO_STM_OUT : Z := 0x80.
Definition CMD_UIO_STM_DIR : Z := 0x40.
Definition CMD_UIO_STM_END : Z := 0x20.
Definition CMD_I2C_STREAM : Z := 0xAA.
Definition CMD_I2C_STM_SET : Z := 0x60.
Definition CMD_I2C_STM_END : Z := 0x00.
Definition USB_TIMEOUT : Z := 1000.
End CH341Config.

Module CH341SPI.
Import CH341Config.

(** *** The USB host the driver talks to

    libusb is not part of the repository: every call into it is answered
    by the host below.  A bulk transfer is answered by the next scripted
    [bulk_reply]; once the script is used up nothing answers any more and
    the transfer times out. *)

Record bulk_reply := BulkReply {
  ret : Z;              (* return code, 0 on success *)
  transferred : Z;      (* bytes moved *)
  rx : Z                (* the byte delivered on an IN endpoint *)
}.

Definition LIBUSB_ERROR_TIMEOUT : Z := -7.

Definition bulk_ok (byte : Z) : bulk_reply := BulkReply 0 1 byte.
Definition bulk_sent (n : Z) : bulk_reply := BulkReply 0 n 0.
Definition bulk_fail (code : Z) : bulk_reply := BulkReply code 0 0.

Record UsbHost := {
  init_ret : Z;                                  (* libusb_init *)
  device_list : option (list (option (Z * Z)));  (* None: enumeration failed;
                                                    per device: its (idVendor, idProduct),
                                                    None when the descriptor cannot be read *)
  open_ret : Z;                                  (* libusb_open *)
  set_configuration_ret : Z;                     (* libusb_set_configuration *)
  claim_interface_ret : Z;                       (* libusb_claim_interface *)
  replies : list bulk_reply;                     (* answers to bulk transfers, in order *)
  wire : list (Z * list Z)                       (* bulk transfers issued so far: endpoint, bytes *)
}.

Definition with_bulk (h : UsbHost) (rs : list bulk_reply) (w : list (Z * list Z)) : UsbHost :=
  {| init_ret := init_ret h; device_list := device_list h; open_ret := open_ret h;
     set_configuration_ret := set_configuration_ret h;
     claim_interface_ret := claim_interface_ret h;
     replies := rs; wire := w |}.

Definition libusb_bulk_transfer (endpoint : Z) (data : list Z) (h : UsbHost)
  : bulk_reply * UsbHost :=
  match replies h with
  | [] => (bulk_fail LIBUSB_ERROR_TIMEOUT, with_bulk h [] (wire h ++ [(endpoint, data)]))
  | r :: rs => (r, with_bulk h rs (wire h ++ [(endpoint, data)]))
  end.

(** *** The session object *)

Definition handle := nat.

Record state := {
  device : option handle;       (* libusb_device_handle*, nullptr is None *)
  context : bool;               (* libusb_context* is non-null *)
  device_index : Z;
  lsb_first : bool;
  is_open : bool;
  _gpio_direction : Z;
  _gpio_output : Z;
  interruptEnabled : bool;
  threadRunning : bool;
  usb : UsbHost
}.

Definition set_device (d : option handle) (s : state) : state :=
  {| device := d; context := context s; device_index := device_index s;
     lsb_first := lsb_first s; is_open := is_open s;
     _gpio_direction := _gpio_direction s; _gpio_output := _gpio_output s;
     interruptEnabled := interruptEnabled s; threadRunning := threadRunning s;
     usb := usb s |}.

Definition set_usb (h : UsbHost) (s : state) : state :=
  {| device := device s; context := context s; device_index := device_index s;
     lsb_first := lsb_first s; is_open := is_open s;
     _gpio_direction := _gpio_direction s; _gpio_output := _gpio_output s;
     interruptEnabled := interruptEnabled s; threadRunning := threadRunning s;
     usb := h |}.

(** The members the constructor's initialiser list leaves out start with
    whatever the memory holds. *)
Record indeterminate := {
  ind_is_open : bool;
  ind_gpio_direction : Z;
  ind_gpio_output : Z
}.

(** [CH341SPI::CH341SPI] *)
Definition new (device_index : Z) (lsb_first : bool)
    (mem : indeterminate) (h : UsbHost) : state :=
  {| device := None;
     context := (init_ret h =? 0);
     device_index := device_index;
     lsb_first := lsb_first;
     is_open := ind_is_open mem;
     _gpio_direction := ind_gpio_direction mem;
     _gpio_output := ind_gpio_output mem;
     interruptEnabled := false;
     threadRunning := false;
     usb := h |}.

(** One bulk transfer on the session's host. *)
Definition bulk (endpoint : Z) (data : list Z) (s : state) : bulk_reply * state :=
  let (r, h) := libusb_bulk_transfer endpoint data (usb s) in (r, set_usb h s).

(** [CH341SPI::configStream] *)
Definition configStream (s : state) : bool * state :=
  match device s with
  | None => (false, s)
  | Some _ =>
      let cmd := [CMD_I2C_STREAM; Z.lor CMD_I2C_STM_SET 0x01; CMD_I2C_STM_END] in
      let (r, s1) := bulk BULK_WRITE_EP cmd s in
      if negb (ret r =? 0) || negb (transferred r =? 3) then (false, s1)
      else (true, s1)
  end.

(** [CH341SPI::enablePins] *)
Definition enablePins (enable : bool) (s : state) : bool * state :=
  match device s with
  | None => (false, s)
  | Some _ =>
      let cmd := [CMD_UIO_STREAM;
                  Z.lor CMD_UIO_STM_OUT 0x37;
                  Z.lor CMD_UIO_STM_OUT 0x37;
                  Z.lor CMD_UIO_STM_OUT 0x37;
                  u8 (Z.lor CMD_UIO_STM_DIR (if enable then 0x3F else 0x00));
                  CMD_UIO_STM_END] in
      let (r, s1) := bulk BULK_WRITE_EP cmd s in
      if negb (ret r =? 0) || negb (transferred r =? 6) then (false, s1)
      else (true, s1)
  end.

(** [CH341SPI::close] *)
Definition close (s : state) : state :=
  match device s with
  | None => s
  | Some _ => set_device None (snd (enablePins false s))
  end.

Definition is_ch341 (d : option (Z * Z)) : bool :=
  match d with
  | Some (idVendor, idProduct) => (idVendor =? VENDOR_ID) && (idProduct =? PRODUCT_ID)
  | None => false
  end.

(** The positions, in enumeration order, of the devices that match. *)
Fixpoint find_ch341 (i : nat) (devs : list (option (Z * Z))) : list handle :=
  match devs with
  | [] => []
  | d :: rest => if is_ch341 d then i :: find_ch341 (S i) rest else find_ch341 (S i) rest
  end.

(** [CH341SPI::open].  An index below zero reads outside the vector in the
    source; here it selects nothing and the open fails. *)
Definition open (s : state) : bool * state :=
  if negb (context s) then (false, s) else
  match device_list (usb s) with
  | None => (false, s)
  | Some devs =>
      let ch341_devices := find_ch341 0 devs in
      match ch341_devices with
      | [] => (false, s)
      | _ =>
        if device_index s >=? Z.of_nat (length ch341_devices) then (false, s) else
        if device_index s <? 0 then (false, s) else
        match ch341_devices !! Z.to_nat (device_index s) with
        | None => (false, s)
        | Some dev =>
          if negb (open_ret (usb s) =? 0) then (false, s) else
          let s1 := set_device (Some dev) s in
          if negb (set_configuration_ret (usb s1) =? 0) then (false, set_device None s1) else
          if negb (claim_interface_ret (usb s1) =? 0) then (false, set_device None s1) else
          let (ok, s2) := configStream s1 in
          if negb ok then (false, close s2) else
          let (ok, s3) := enablePins true s2 in
          if negb ok then (false, close s3) else
          (true, s3)
        end
      end
  end.

(** [CH341SPI::isActive] *)
Definition isActive (s : state) : bool := is_open s.

(** [CH341SPI::swapBits] *)
Definition swapBits (byte : Z) : Z :=
  fold_left
    (fun result i =>
       if tst byte (Z.shiftl 1 i) then Z.lor result (Z.shiftl 1 (7 - i)) else result)
    [0; 1; 2; 3; 4; 5; 6; 7] 0.

(** The first loop of [transfer]: one SPI stream command per byte, the
    echoed byte read and dropped.  [false] is the early [return result]. *)
Fixpoint write_phase (write_data : list Z) (s : state) : bool * state :=
  match write_data with
  | [] => (true, s)
  | b :: rest =>
      let cmd := [CMD_SPI_STREAM; if lsb_first s then swapBits b else b] in
      let (r, s1) := bulk BULK_WRITE_EP cmd s in
      if negb (ret r =? 0) then (false, s1) else
      let (r, s2) := bulk BULK_READ_EP [] s1 in
      if negb (ret r =? 0) then (false, s2) else
      write_phase rest s2
  end.

(** The second loop of [transfer]: [result] grows by one byte per round. *)
Fixpoint read_phase (read_length : nat) (result : list Z) (s : state)
  : bool * list Z * state :=
  match read_length with
  | O => (true, result, s)
  | S n =>
      let cmd := [CMD_SPI_STREAM; 0xFF] in
      let (r, s1) := bulk BULK_WRITE_EP cmd s in
      if negb (ret r =? 0) then (false, result, s1) else
      let (r, s2) := bulk BULK_READ_EP [] s1 in
      if negb (ret r =? 0) then (false, result, s2) else
      let response_byte := u8 (rx r) in
      read_phase n (result ++ [if lsb_first s then swapBits response_byte else response_byte]) s2
  end.

(** [CH341SPI::transfer] *)
Definition transfer (write_data : list Z) (read_length : nat) (s : state)
  : list Z * state :=
  let result : list Z := [] in
  match device s with
  | None => (result, s)
  | Some _ =>
      let cs_low := [CMD_UIO_STREAM; Z.lor CMD_UIO_STM_OUT 0x36; CMD_UIO_STM_END] in
      let (r, s1) := bulk BULK_WRITE_EP cs_low s in
      if negb (ret r =? 0) then (result, s1) else
      let (ok, s2) := write_phase write_data s1 in
      if negb ok then (result, s2) else
      let '(ok, result, s3) := read_phase read_length result s2 in
      if negb ok then (result, s3) else
      let cs_high := [CMD_UIO_STREAM; Z.lor CMD_UIO_STM_OUT 0x37; CMD_UIO_STM_END] in
      let (r, s4) := bulk BULK_WRITE_EP cs_high s3 in
      (result, s4)
  end.

(** [SPIInterface::OUTPUT] *)
Definition OUTPUT : Z := 1.

Definition set_gpio (direction output : Z) (s : state) : state :=
  {| device := device s; context := context s; device_index := device_index s;
     lsb_first := lsb_first s; is_open := is_open s;
     _gpio_direction := direction; _gpio_output := output;
     interruptEnabled := interruptEnabled s; threadRunning := threadRunning s;
     usb := usb s |}.

(** [CH341SPI::digitalWrite] *)
Definition digitalWrite (pin : Z) (value : bool) (s : state) : bool * state :=
  match device s with
  | None => (false, s)
  | Some _ =>
      let direction := u8 (Z.lor (_gpio_direction s) (u8 pin)) in
      let output :=
        if value then u8 (Z.lor (_gpio_output s) (u8 pin))
        else u8 (Z.land (_gpio_output s) (Z.lnot (u8 pin))) in
      let s1 := set_gpio direction output s in
      let cmd := [CMD_UIO_STREAM;
                  u8 (Z.lor CMD_UIO_STM_OUT output);
                  u8 (Z.lor CMD_UIO_STM_DIR direction);
                  CMD_UIO_STM_END] in
      let (r, s2) := bulk BULK_WRITE_EP cmd s1 in
      (ret r =? 0, s2)
  end.

(** [CH341SPI::digitalRead] *)
Definition digitalRead (pin : Z) (s : state) : bool * state :=
  match device s with
  | None => (false, s)
  | Some _ =>
      let direction := u8 (Z.land (_gpio_direction s) (Z.lnot (u8 pin))) in
      let s1 := set_gpio direction (_gpio_output s) s in
      let dir_cmd := [CMD_UIO_STREAM; u8 (Z.lor CMD_UIO_STM_DIR direction); CMD_UIO_STM_END] in
      let (r, s2) := bulk BULK_WRITE_EP dir_cmd s1 in
      if negb (ret r =? 0) then (false, s2) else
      let read_cmd := [u8 (Z.lor CMD_UIO_STREAM 0x80); CMD_UIO_STM_END] in
      let (r, s3) := bulk BULK_WRITE_EP read_cmd s2 in
      if negb (ret r =? 0) then (false, s3) else
      let (r, s4) := bulk BULK_READ_EP [] s3 in
      if negb (ret r =? 0) || negb (transferred r =? 1) then (false, s4) else
      let gpio_value := u8 (rx r) in
      (tst gpio_value (u8 pin), s4)
  end.

(** [CH341SPI::pinMode] *)
Definition pinMode (pin mode : Z) (s : state) : bool * state :=
  match device s with
  | None => (false, s)
  | Some _ =>
      let direction :=
        if u8 mode =? OUTPUT then u8 (Z.lor (_gpio_direction s) (u8 pin))
        else u8 (Z.land (_gpio_direction s) (Z.lnot (u8 pin))) in
      let s1 := set_gpio direction (_gpio_output s) s in
      let cmd := [u8 CMD_UIO_STREAM; u8 (Z.lor CMD_UIO_STM_DIR direction); CMD_UIO_STM_END] in
      let (r, s2) := bulk BULK_WRITE_EP cmd s1 in
      (ret r =? 0, s2)
  end.

End CH341SPI.

(** ** Binary floating point

    A finite number is a dyadic rational [m * 2^e].  [float] and [double]
    differ only in the precision results are rounded to (24 and 53 bits,
    round to nearest, ties to even).  Exponents are unbounded: the driver
    multiplies and divides by 1000, 32 and 2^19 only, which never leaves
    the exponent range for the magnitudes a radio is given.  The sign of
    zero is not kept; no operation below depends on it. *)

Inductive float :=
| FNaN
| FInf (negative : bool)
| FFin (m e : Z).

(** [m / 2^k] rounded to the nearest integer, ties to even ([0 < k]). *)
Definition rne (m k : Z) : Z :=
  let q := m / 2 ^ k in
  let r := m mod 2 ^ k in
  let half := 2 ^ (k - 1) in
  if r <? half then q
  else if half <? r then q + 1
  else if Z.even q then q else q + 1.

(** Rounding of [m * 2^e] to [p] bits of precision. *)
Definition round_to (p : Z) (m e : Z) : float :=
  if Z.abs m <? 2 ^ p then FFin m e
  else let k := Z.log2 (Z.abs m) - (p - 1) in FFin (rne m k) (e + k).

(** Conversion of an integer to [float]. *)
Definition float_of_Z (z : Z) : float := round_to 24 z 0.

(** Order of two finite numbers. *)
Definition dyadic_leb (m1 e1 m2 e2 : Z) : bool :=
  let e := Z.min e1 e2 in m1 * 2 ^ (e1 - e) <=? m2 * 2 ^ (e2 - e).

Definition dyadic_ltb (m1 e1 m2 e2 : Z) : bool :=
  let e := Z.min e1 e2 in m1 * 2 ^ (e1 - e) <? m2 * 2 ^ (e2 - e).

(** [a <= b] *)
Definition fle (a b : float) : bool :=
  match a, b with
  | FNaN, _ | _, FNaN => false
  | FInf true, _ => true
  | _, FInf false => true
  | FInf false, _ => false
  | _, FInf true => false
  | FFin m1 e1, FFin m2 e2 => dyadic_leb m1 e1 m2 e2
  end.

(** [a > b] *)
Definition fgt (a b : float) : bool :=
  match a, b with
  | FNaN, _ | _, FNaN => false
  | FInf false, FInf false => false
  | FInf false, _ => true
  | FInf true, _ => false
  | FFin _ _, FInf negative => negative
  | FFin m1 e1, FFin m2 e2 => dyadic_ltb m2 e2 m1 e1
  end.

(** Product rounded to [p] bits. *)
Definition fmul (p : Z) (a b : float) : float :=
  match a, b with
  | FNaN, _ | _, FNaN => FNaN
  | FInf s, FInf s' => FInf (xorb s s')
  | FInf s, FFin m _ | FFin m _, FInf s =>
      if m =? 0 then FNaN else FInf (xorb s (m <? 0))
  | FFin m1 e1, FFin m2 e2 => round_to p (m1 * m2) (e1 + e2)
  end.

(** Quotient by a power of two [2^k], which is exact. *)
Definition fdiv_pow2 (a : float) (k : Z) : float :=
  match a with
  | FFin m e => FFin m (e - k)
  | _ => a
  end.

(** [static_cast<uint32_t>] of a floating point number: the fraction is
    dropped; the conversion is undefined ([None]) when the result does not
    fit, and for infinities and NaN. *)
Definition to_uint32 (a : float) : option Z :=
  match a with
  | FFin m e =>
      let t := if 0 <=? e then m * 2 ^ e else Z.quot m (2 ^ (- e)) in
      if (0 <=? t) && (t <? 2 ^ 32) then Some t else None
  | _ => None
  end.

(** [static_cast<uint8_t>] of a floating point number, likewise. *)
Definition to_uint8 (a : float) : option Z :=
  match a with
  | FFin m e =>
      let t := if 0 <=? e then m * 2 ^ e else Z.quot m (2 ^ (- e)) in
      if (0 <=? t) && (t <? 2 ^ 8) then Some t else None
  | _ => None
  end.

(** The rational a finite number stands for. *)
Definition F2Q (m e : Z) : Q :=
  if 0 <=? e then inject_Z (m * 2 ^ e) else Qmake m (Z.to_pos (2 ^ (- e))).

(** A finite number that a [float] variable can hold. *)
Definition binary32 (a : float) : Prop :=
  match a with
  | FFin m e => Z.abs m < 2 ^ 24 /\ -149 <= e <= 104
  | _ => False
  end.

(** ** The transport contract ([SPIInterface.hpp])

    Every method takes the session and returns it with the result.  The
    GPIO and interrupt methods are not used by the radio driver and are
    left out. *)

Class SPIInterface (T : Type) := {
  open : T -> bool * T;
  close : T -> T;
  transfer : list Z -> nat -> T -> list Z * T;
  isActive : T -> bool
}.

#[export] Instance CH341SPI_interface : SPIInterface CH341SPI.state := {|
  open := CH341SPI.open;
  close := CH341SPI.close;
  transfer := CH341SPI.transfer;
  isActive := CH341SPI.isActive
|}.

(** *** A scripted transport

    A test double: the [n]-th transfer is answered by the [n]-th scripted
    reply, whatever was asked; when the script is used up every transfer
    comes back empty.  What the driver sent is kept in [sent]. *)

Record Mock := {
  opens : bool;
  script : list (list Z);
  sent : list (list Z * nat)
}.

Definition mock_transfer (write_data : list Z) (read_length : nat) (t : Mock)
  : list Z * Mock :=
  match script t with
  | [] => ([], {| opens := opens t; script := [];
                  sent := sent t ++ [(write_data, read_length)] |})
  | r :: rest => (r, {| opens := opens t; script := rest;
                       sent := sent t ++ [(write_data, read_length)] |})
  end.

#[export] Instance Mock_interface : SPIInterface Mock := {|
  open := fun t => (opens t, t);
  close := fun t => t;
  transfer := mock_transfer;
  isActive := opens
|}.

(** *** A simulated radio chip

    The chip keeps what is written to a register and gives it back when
    the register is read, except for the IRQ flags register, whose reads
    are taken from [irq_script] (the events the chip reports) as long as
    there are any.  The first byte of a transfer is the address, with
    bit 7 set for a write. *)

Record Chip := {
  cells : gmap Z Z;
  irq_script : list Z
}.

Definition chip_reg (t : Chip) (a : Z) : Z := default 0 (cells t !! a).

Definition chip_transfer (write_data : list Z) (read_length : nat) (t : Chip)
  : list Z * Chip :=
  match write_data with
  | [] => (replicate read_length 0, t)
  | hdr :: payload =>
      let a := Z.land hdr 0x7F in
      if tst hdr 0x80 then
        match payload with
        | v :: _ => (replicate read_length 0,
                     {| cells := <[a := v]> (cells t); irq_script := irq_script t |})
        | [] => (replicate read_length 0, t)
        end
      else if a =? 0x12 then
        match irq_script t with
        | f :: rest => (replicate read_length f,
                        {| cells := cells t; irq_script := rest |})
        | [] => (replicate read_length (chip_reg t a), t)
        end
      else (replicate read_length (chip_reg t a), t)
  end.

#[export] Instance Chip_interface : SPIInterface Chip := {|
  open := fun t => (true, t);
  close := fun t => t;
  transfer := chip_transfer;
  isActive := fun _ => true
|}.

(** ** The radio driver ([RFM95.cpp]) *)

(** [std::chrono::steady_clock]: the [n]-th call of [now()] yields the
    [n]-th reading, in nanoseconds.  How much time a transfer or a sleep
    takes is up to the readings. *)
Record steady_clock := {
  readings : nat -> Z;
  taken : nat
}.

(** What the driver runs in: its transport and the clock. *)
Record world (T : Type) := World {
  spi : T;
  clock : steady_clock
}.
Arguments World {T} _ _.
Arguments spi {T} _.
Arguments clock {T} _.

(** State passing over the world. *)
Definition M (T A : Type) : Type := world T -> A * world T.

Definition ret {T A} (a : A) : M T A := fun w => (a, w).

Definition bind {T A B} (c : M T A) (k : A -> M T B) : M T B :=
  fun w => let (a, w') := c w in k a w'.

Declare Scope drv_scope.
Delimit Scope drv_scope with drv.
Notation "x <- c ;; k" := (bind c (fun x => k))
  (at level 100, c at next level, right associativity) : drv_scope.
Notation "c ;; k" := (bind c (fun _ => k))
  (at level 100, right associativity) : drv_scope.

Module RFM95.

Definition REG_FIFO : Z := 0x00.
Definition REG_OP_MODE : Z := 0x01.
Definition REG_FRF_MSB : Z := 0x06.
Definition REG_FRF_MID : Z := 0x07.
Definition REG_FRF_LSB : Z := 0x08.
Definition REG_PA_CONFIG : Z := 0x09.
Definition REG_LNA : Z := 0x0C.
Definition REG_FIFO_ADDR_PTR : Z := 0x0D.
Definition REG_FIFO_TX_BASE_ADDR : Z := 0x0E.
Definition REG_FIFO_RX_BASE_ADDR : Z := 0x0F.
Definition REG_FIFO_RX_CURRENT_ADDR : Z := 0x10.
Definition REG_IRQ_FLAGS_MASK : Z := 0x11.
Definition REG_IRQ_FLAGS : Z := 0x12.
Definition REG_RX_NB_BYTES : Z := 0x13.
Definition REG_MODEM_CONFIG_1 : Z := 0x1D.
Definition REG_MODEM_CONFIG_2 : Z := 0x1E.
Definition REG_PAYLOAD_LENGTH : Z := 0x22.
Definition REG_MODEM_CONFIG_3 : Z := 0x26.
Definition REG_INVERTIQ : Z := 0x33.
Definition REG_INVERTIQ2 : Z := 0x3B.
Definition REG_DIO_MAPPING_1 : Z := 0x40.
Definition REG_DIO_MAPPING_2 : Z := 0x41.
Definition REG_VERSION : Z := 0x42.
Definition REG_PA_DAC : Z := 0x4D.

Definition REG_PKT_SNR_VALUE : Z := 0x19.
Definition REG_PKT_RSSI_VALUE : Z := 0x1A.
Definition REG_PREAMBLE_MSB : Z := 0x20.
Definition REG_PREAMBLE_LSB : Z := 0x21.
Definition REG_DETECTION_OPTIMIZE : Z := 0x31.
Definition REG_DETECTION_THRESHOLD : Z := 0x37.
Definition REG_SYNC_WORD : Z := 0x39.
Definition DIO0_RX_DONE : Z := 0x00.

Definition MODE_SLEEP : Z := 0x00.
Definition MODE_STDBY : Z := 0x01.
Definition MODE_TX : Z := 0x03.
Definition MODE_RX_CONTINUOUS : Z := 0x05.

Definition PA_BOOST : Z := 0x80.

Definition IRQ_TX_DONE_MASK : Z := 0x08.
Definition IRQ_PAYLOAD_CRC_ERROR_MASK : Z := 0x20.
Definition IRQ_RX_DONE_MASK : Z := 0x40.

(** The table of [setBandwidth]: the [float] nearest to each of
    7.8, 10.4, 15.6, 20.8, 31.25, 41.7, 62.5, 125, 250, 500. *)
Definition bws : list float :=
  [FFin 16357786 (-21); FFin 10905190 (-20); FFin 16357786 (-20);
   FFin 10905190 (-19); FFin 16384000 (-19); FFin 10931405 (-18);
   FFin 16384000 (-18); FFin 16384000 (-17); FFin 16384000 (-16);
   FFin 16384000 (-15)].

(** The loop of [setBandwidth], from index [i] on: the first entry at or
    above the request sets [bw_value] and breaks. *)
Fixpoint bw_scan (bw_khz : float) (i : Z) (table : list float) (bw_value : Z) : Z :=
  match table with
  | [] => bw_value
  | b :: rest => if fle bw_khz b then u8 i else bw_scan bw_khz (i + 1) rest bw_value
  end.

(** The three register bytes of a frequency word. *)
Definition frf_bytes (frf : Z) : Z * Z * Z :=
  (Z.land (Z.shiftr frf 16) 0xFF, Z.land (Z.shiftr frf 8) 0xFF, Z.land frf 0xFF).

(** The frequency word of [setFrequency]: computed in double precision
    and cut to an integer. *)
Definition frf_word (freq_mhz : float) : option Z :=
  to_uint32 (fdiv_pow2 (fmul 53 freq_mhz (FFin 1 19)) 5).

(** [duration_cast<milliseconds>(now - start).count()] *)
Definition elapsed_ms (start now : Z) : Z := Z.quot (now - start) 1000000.

(** Which [return] of [receive] was taken. *)
Inductive rx_return :=
| ReturnData (data : list Z)      (* [return data;] *)
| ReturnTimeout.                  (* [return std::vector<uint8_t>();] *)

(** The vector [receive] hands to its caller. *)
Definition returned (r : rx_return) : list Z :=
  match r with
  | ReturnData data => data
  | ReturnTimeout => []
  end.

Section Driver.
Context {T : Type} `{SPIInterface T}.
Local Open Scope drv_scope.

(** A call of a transport method on [spi]. *)
Definition on_spi {A} (f : T -> A * T) : M T A :=
  fun w => let (a, t) := f (spi w) in (a, World t (clock w)).

(** [steady_clock::now()] *)
Definition now : M T Z :=
  fun w => (readings (clock w) (taken (clock w)),
            World (spi w) {| readings := readings (clock w); taken := S (taken (clock w)) |}).

(** [std::this_thread::sleep_for]: the time that passes shows in the
    readings of the clock. *)
Definition sleep_for (ms : Z) : M T unit := ret tt.

(** [RFM95::readRegister] *)
Definition readRegister (address : Z) : M T Z :=
  let cmd := [u8 (Z.land (u8 address) 0x7F)] in
  response <- on_spi (transfer cmd 1);;
  match response with
  | r0 :: _ => ret (u8 r0)
  | [] => ret 0
  end.

(** [RFM95::writeRegister] *)
Definition writeRegister (address value : Z) : M T unit :=
  let cmd := [u8 (Z.lor (u8 address) 0x80); u8 value] in
  on_spi (transfer cmd 0);;
  ret tt.

(** [RFM95::readVersionRegister] *)
Definition readVersionRegister : M T Z :=
  response <- on_spi (transfer [0x42] 1);;
  match response with
  | r0 :: _ => ret (u8 r0)
  | [] => ret 0
  end.

(** [RFM95::standbyMode] *)
Definition standbyMode : M T unit := writeRegister REG_OP_MODE MODE_STDBY.

(** [RFM95::sleepMode] *)
Definition sleepMode : M T unit :=
  current <- readRegister REG_OP_MODE;;
  writeRegister REG_OP_MODE (Z.lor (Z.land current 0xF8) MODE_SLEEP);;
  sleep_for 10.

(** [RFM95::begin] *)
Definition begin : M T bool :=
  opened <- on_spi open;;
  if negb opened then ret false else
  sleepMode;;
  sleep_for 10;;
  version <- readVersionRegister;;
  if negb (version =? 0x12) then ret false else
  writeRegister REG_OP_MODE 0x80;;
  sleep_for 10;;
  writeRegister REG_FIFO_TX_BASE_ADDR 0;;
  writeRegister REG_FIFO_RX_BASE_ADDR 0;;
  writeRegister REG_MODEM_CONFIG_1 0x72;;
  writeRegister REG_MODEM_CONFIG_2 0x70;;
  writeRegister REG_MODEM_CONFIG_3 0x04;;
  writeRegister REG_PA_CONFIG 0x8F;;
  writeRegister REG_PA_DAC 0x87;;
  writeRegister REG_LNA 0x23;;
  writeRegister REG_FIFO_ADDR_PTR 0;;
  standbyMode;;
  sleep_for 10;;
  ret true.

(** [RFM95::setFrequency].  [None] when the conversion of the frequency
    word to [uint32_t] is undefined. *)
Definition setFrequency (freq_mhz : float) (w : world T) : option (unit * world T) :=
  match frf_word freq_mhz with
  | None => None
  | Some frf =>
      Some ((writeRegister REG_FRF_MSB (Z.land (Z.shiftr frf 16) 0xFF);;
             writeRegister REG_FRF_MID (Z.land (Z.shiftr frf 8) 0xFF);;
             writeRegister REG_FRF_LSB (Z.land frf 0xFF)) w)
  end.

(** [RFM95::getFrequency] *)
Definition getFrequency : M T float :=
  msb <- readRegister REG_FRF_MSB;;
  mid <- readRegister REG_FRF_MID;;
  lsb <- readRegister REG_FRF_LSB;;
  let frf := Z.lor (Z.lor (Z.shiftl msb 16) (Z.shiftl mid 8)) lsb in
  let freq := fdiv_pow2 (fmul 53 (round_to 53 frf 0) (FFin 1 5)) 19 in
  ret (match freq with FFin m e => round_to 24 m e | _ => freq end).

(** [RFM95::setTxPower] *)
Definition setTxPower (level : Z) (use_pa_boost : bool) : M T unit :=
  if use_pa_boost then
    let level := Z.max 2 (Z.min level 20) in
    writeRegister REG_PA_CONFIG (Z.lor PA_BOOST (level - 2))
  else
    let level := Z.max 0 (Z.min level 15) in
    writeRegister REG_PA_CONFIG level.

(** [RFM95::getTxPower] *)
Definition getTxPower : M T Z :=
  pa <- readRegister REG_PA_CONFIG;;
  if tst pa PA_BOOST then ret (Z.land pa 0x0F + 2)
  else ret (Z.land pa 0x0F).

(** [RFM95::setBandwidth] *)
Definition setBandwidth (bw_khz : float) : M T unit :=
  let bw_value := bw_scan bw_khz 0 bws 9 in
  reg1 <- readRegister REG_MODEM_CONFIG_1;;
  let reg1 := u8 (Z.lor (Z.land reg1 0x0F) (Z.shiftl bw_value 4)) in
  writeRegister REG_MODEM_CONFIG_1 reg1.

(** [RFM95::setInvertIQ] *)
Definition setInvertIQ (invert : bool) : M T unit :=
  if invert then
    writeRegister REG_INVERTIQ 0x66;;
    writeRegister REG_INVERTIQ2 0x19
  else
    writeRegister REG_INVERTIQ 0x27;;
    writeRegister REG_INVERTIQ2 0x1D.

(** [RFM95::setDIOMapping] *)
Definition setDIOMapping (_dio3 _dio4 : Z) : M T unit :=
  dio_map1 <- readRegister REG_DIO_MAPPING_1;;
  let dio_map1 := u8 (Z.lor (Z.land dio_map1 0x3F) (Z.land _dio3 0xC0)) in
  writeRegister REG_DIO_MAPPING_1 dio_map1;;
  dio_map2 <- readRegister REG_DIO_MAPPING_2;;
  let dio_map2 := u8 (Z.lor (Z.land dio_map2 0x3F) (Z.land _dio4 0xC0)) in
  writeRegister REG_DIO_MAPPING_2 dio_map2;;
  writeRegister REG_IRQ_FLAGS_MASK 0x00;;
  writeRegister REG_IRQ_FLAGS 0xFF.

(** The payload loop of [send]. *)
Fixpoint write_fifo (data : list Z) : M T unit :=
  match data with
  | [] => ret tt
  | byte :: rest => writeRegister REG_FIFO byte;; write_fifo rest
  end.

(** The wait loop of [send]; every round takes one unit of [fuel]. *)
Fixpoint send_wait (fuel : nat) (invert_iq : bool) (start : Z) (w : world T)
  : option (bool * world T) :=
  match fuel with
  | O => None
  | S fuel' =>
      let (flags, w1) := readRegister REG_IRQ_FLAGS w in
      if tst flags IRQ_TX_DONE_MASK then
        Some ((writeRegister REG_IRQ_FLAGS 0xFF;;
               standbyMode;;
               (if invert_iq then setInvertIQ false else ret tt);;
               ret true) w1)
      else
        let (t, w2) := now w1 in
        if elapsed_ms start t >? 2000 then
          Some (((if invert_iq then setInvertIQ false else ret tt);;
                 ret false) w2)
        else
          let (_, w3) := sleep_for 1 w2 in
          send_wait fuel' invert_iq start w3
  end.

(** [RFM95::send], from the set-up of the IQ mode to the start of
    the transmission; yields the time the wait started at. *)
Definition send_setup (data : list Z) (invert_iq : bool) : M T Z :=
  setInvertIQ invert_iq;;
  setDIOMapping 0x40 0x40;;
  standbyMode;;
  sleep_for 1;;
  current <- readRegister REG_DIO_MAPPING_1;;
  writeRegister REG_DIO_MAPPING_1 (Z.lor (Z.land current 0x3F) 0x40);;
  writeRegister REG_IRQ_FLAGS 0xFF;;
  writeRegister REG_FIFO_ADDR_PTR 0;;
  write_fifo data;;
  writeRegister REG_PAYLOAD_LENGTH (Z.of_nat (length data));;
  writeRegister REG_OP_MODE MODE_TX;;
  now.

(** [RFM95::send] *)
Definition send (fuel : nat) (data : list Z) (invert_iq : bool) (w : world T)
  : option (bool * world T) :=
  if (255 <? length data)%nat then Some (false, w) else
  let (start, w1) := send_setup data invert_iq w in
  send_wait fuel invert_iq start w1.

(** The packet loop of [receive]. *)
Fixpoint read_fifo (n : nat) (data : list Z) : M T (list Z) :=
  match n with
  | O => ret data
  | S n' => b <- readRegister REG_FIFO;; read_fifo n' (data ++ [b])
  end.

(** The end of a round of [receive] that has nothing to return: the
    time check, then either the timeout return or a short sleep and the
    next round [next]. *)
Definition rx_check_timeout (next : world T -> option (rx_return * world T))
    (timeout : float) (invert_iq : bool) (start_time : Z) (w : world T)
  : option (rx_return * world T) :=
  let (t, w1) := now w in
  if fgt (float_of_Z (elapsed_ms start_time t)) (fmul 24 timeout (float_of_Z 1000)) then
    Some ((writeRegister REG_IRQ_FLAGS 0xFF;;
           (if invert_iq then setInvertIQ false else ret tt);;
           ret ReturnTimeout) w1)
  else
    let (_, w2) := sleep_for 1 w1 in
    next w2.

(** The wait loop of [receive]; every round, also one ended by
    [continue], takes one unit of [fuel]. *)
Fixpoint receive_wait (fuel : nat) (timeout : float) (invert_iq : bool) (start_time : Z)
    (w : world T) : option (rx_return * world T) :=
  match fuel with
  | O => None
  | S fuel' =>
      let next := receive_wait fuel' timeout invert_iq start_time in
      let (irq_flags, w1) := readRegister REG_IRQ_FLAGS w in
      if negb (irq_flags =? 0) && tst irq_flags IRQ_RX_DONE_MASK then
        if tst irq_flags IRQ_PAYLOAD_CRC_ERROR_MASK then
          let (_, w2) := writeRegister REG_IRQ_FLAGS 0xFF w1 in
          next w2
        else
          let (length, w2) := readRegister REG_RX_NB_BYTES w1 in
          if 0 <? length then
            Some ((current_addr <- readRegister REG_FIFO_RX_CURRENT_ADDR;;
                   writeRegister REG_FIFO_ADDR_PTR current_addr;;
                   data <- read_fifo (Z.to_nat length) [];;
                   writeRegister REG_IRQ_FLAGS 0xFF;;
                   (if invert_iq then setInvertIQ false else ret tt);;
                   ret (ReturnData data)) w2)
          else rx_check_timeout next timeout invert_iq start_time w2
      else rx_check_timeout next timeout invert_iq start_time w1
  end.

(** [RFM95::receive], up to the start of the wait; yields the time the
    wait started at. *)
Definition receive_setup (invert_iq : bool) : M T Z :=
  setInvertIQ invert_iq;;
  writeRegister REG_OP_MODE MODE_RX_CONTINUOUS;;
  setDIOMapping 0x40 0xC0;;
  writeRegister REG_IRQ_FLAGS 0xFF;;
  now.

(** [RFM95::receive] with the [return] it took. *)
Definition receive_from (fuel : nat) (timeout : float) (invert_iq : bool) (w : world T)
  : option (rx_return * world T) :=
  let (start_time, w1) := receive_setup invert_iq w in
  receive_wait fuel timeout invert_iq start_time w1.

(** [RFM95::receive] *)
Definition receive (fuel : nat) (timeout : float) (invert_iq : bool) (w : world T)
  : option (list Z * world T) :=
  match receive_from fuel timeout invert_iq w with
  | Some (r, w') => Some (returned r, w')
  | None => None
  end.

(** [RFM95::setSpreadingFactor] *)
Definition setSpreadingFactor (sf : Z) : M T unit :=
  let sf := Z.max 6 (Z.min sf 12) in
  (if sf =? 6 then
     writeRegister REG_DETECTION_OPTIMIZE 0xC5;;
     writeRegister REG_DETECTION_THRESHOLD 0x0C
   else
     writeRegister REG_DETECTION_OPTIMIZE 0xC3;;
     writeRegister REG_DETECTION_THRESHOLD 0x0A);;
  reg2 <- readRegister REG_MODEM_CONFIG_2;;
  let reg2 := u8 (Z.lor (Z.land reg2 0x0F) (Z.land (Z.shiftl sf 4) 0xF0)) in
  writeRegister REG_MODEM_CONFIG_2 reg2.

(** [RFM95::getSpreadingFactor] *)
Definition getSpreadingFactor : M T Z :=
  reg2 <- readRegister REG_MODEM_CONFIG_2;;
  ret (Z.land (Z.shiftr reg2 4) 0x0F).

(** [RFM95::getBandwidth] *)
Definition getBandwidth : M T float :=
  reg1 <- readRegister REG_MODEM_CONFIG_1;;
  let bw_value := u8 (Z.land (Z.shiftr reg1 4) 0x0F) in
  ret (nth (Z.to_nat (if bw_value <? 10 then bw_value else 9)) bws FNaN).

(** [RFM95::setCodingRate] *)
Definition setCodingRate (denominator : Z) : M T unit :=
  let denominator := Z.max 5 (Z.min denominator 8) in
  let cr := u8 (denominator - 4) in
  reg1 <- readRegister REG_MODEM_CONFIG_1;;
  let reg1 := u8 (Z.lor (Z.land reg1 0xF1) (Z.shiftl cr 1)) in
  writeRegister REG_MODEM_CONFIG_1 reg1.

(** [RFM95::getCodingRate] *)
Definition getCodingRate : M T Z :=
  reg1 <- readRegister REG_MODEM_CONFIG_1;;
  let cr := u8 (Z.land (Z.shiftr reg1 1) 0x07) in
  ret (cr + 4).

(** [RFM95::setPreambleLength] *)
Definition setPreambleLength (length : Z) : M T unit :=
  writeRegister REG_PREAMBLE_MSB (Z.land (Z.shiftr length 8) 0xFF);;
  writeRegister REG_PREAMBLE_LSB (Z.land length 0xFF).

(** [RFM95::getPreambleLength] *)
Definition getPreambleLength : M T Z :=
  msb <- readRegister REG_PREAMBLE_MSB;;
  lsb <- readRegister REG_PREAMBLE_LSB;;
  let msb := u16 msb in
  let lsb := u16 lsb in
  ret (Z.lor (Z.shiftl msb 8) lsb).

(** [RFM95::getInvertIQ] *)
Definition getInvertIQ : M T bool :=
  r <- readRegister REG_INVERTIQ;;
  ret (tst r 0x40).

(** [RFM95::setSyncWord] *)
Definition setSyncWord (sync_word : Z) : M T unit :=
  writeRegister REG_SYNC_WORD sync_word.

(** [RFM95::getSyncWord] *)
Definition getSyncWord : M T Z := readRegister REG_SYNC_WORD.

(** [RFM95::setAutoAGC] *)
Definition setAutoAGC (enable : bool) : M T unit :=
  if enable then
    r <- readRegister REG_MODEM_CONFIG_3;;
    writeRegister REG_MODEM_CONFIG_3 (Z.lor r 0x04)
  else
    r <- readRegister REG_MODEM_CONFIG_3;;
    writeRegister REG_MODEM_CONFIG_3 (Z.land r (Z.lnot 0x04)).

(** [RFM95::getAutoAGC] *)
Definition getAutoAGC : M T bool :=
  r <- readRegister REG_MODEM_CONFIG_3;;
  ret (tst r 0x04).

(** [RFM95::setLNA] *)
Definition setLNA (lna_gain : Z) (lna_boost : bool) : M T unit :=
  (if 0 <=? lna_gain then setAutoAGC false else setAutoAGC true);;
  if lna_boost then
    r <- readRegister REG_LNA;;
    writeRegister REG_LNA (Z.lor r 0x03)
  else
    r <- readRegister REG_LNA;;
    writeRegister REG_LNA (Z.land r 0xFC).

(** [RFM95::getLNA] *)
Definition getLNA : M T Z := readRegister REG_LNA.

(** [RFM95::clearIRQFlags] *)
Definition clearIRQFlags : M T unit := writeRegister REG_IRQ_FLAGS 0xFF.


(** [RFM95::setContinuousReceive]; the closing check only prints. *)
Definition setContinuousReceive : M T unit :=
  standbyMode;;
  base <- readRegister REG_FIFO_RX_BASE_ADDR;;
  writeRegister REG_FIFO_ADDR_PTR base;;
  dio_mapping <- readRegister REG_DIO_MAPPING_1;;
  let dio_mapping := u8 (Z.land dio_mapping 0x3F) in
  let dio_mapping := u8 (Z.lor dio_mapping DIO0_RX_DONE) in
  writeRegister REG_DIO_MAPPING_1 dio_mapping;;
  clearIRQFlags;;
  opmode <- readRegister REG_OP_MODE;;
  let opmode := u8 (Z.lor (Z.land opmode 0xF8) MODE_RX_CONTINUOUS) in
  writeRegister REG_OP_MODE opmode;;
  opmode <- readRegister REG_OP_MODE;;
  ret tt.

(** [RFM95::readPayload] *)
Definition readPayload : M T (list Z) :=
  length <- readRegister REG_RX_NB_BYTES;;
  if 0 <? length then
    current_addr <- readRegister REG_FIFO_RX_CURRENT_ADDR;;
    writeRegister REG_FIFO_ADDR_PTR current_addr;;
    data <- read_fifo (Z.to_nat length) [];;
    ret data
  else ret [].

(** [RFM95::getRSSI] *)
Definition getRSSI : M T float :=
  raw <- readRegister REG_PKT_RSSI_VALUE;;
  ret (float_of_Z (-137 + raw)).

(** [RFM95::getSNR] *)
Definition getSNR : M T float :=
  raw <- readRegister REG_PKT_SNR_VALUE;;
  let snr := i8 raw in
  ret (fmul 24 (float_of_Z snr) (FFin 1 (-2))).

(** [RFM95::calibrateTemperature].  [None] when the conversion of the
    temperature to [uint8_t] is undefined. *)
Definition calibrateTemperature (actual_temp : float) (w : world T)
  : option (bool * world T) :=
  let (current_mode, w1) := readRegister REG_OP_MODE w in
  let (_, w2) := (writeRegister REG_OP_MODE 0x00;; sleep_for 100) w1 in
  match to_uint8 actual_temp with
  | None => None
  | Some cal_value =>
      Some ((writeRegister 0x3B cal_value;;
             writeRegister REG_OP_MODE current_mode;;
             sleep_for 100;;
             ret true) w2)
  end.

(** [RFM95::readTemperature] *)
Definition readTemperature : M T float :=
  current_mode <- readRegister REG_OP_MODE;;
  writeRegister REG_OP_MODE 0x00;;
  sleep_for 100;;
  cal_value <- readRegister 0x3B;;
  raw_temp <- readRegister 0x3C;;
  let temp := float_of_Z (raw_temp + cal_value) in
  writeRegister REG_OP_MODE current_mode;;
  sleep_for 100;;
  ret temp.

(** [RFM95::setBeaconMode] *)
Definition setBeaconMode (interval_ms : Z) (payload : list Z) : M T bool :=
  if (255 <? length payload)%nat then ret false else
  setDIOMapping 0x40 0x40;;
  writeRegister REG_FIFO_TX_BASE_ADDR 0;;
  writeRegister REG_FIFO_ADDR_PTR 0;;
  write_fifo payload;;
  writeRegister REG_PAYLOAD_LENGTH (Z.of_nat (length payload));;
  let period := u16 (Z.quot interval_ms 1000) in
  writeRegister 0x24 (Z.land (Z.shiftr period 8) 0xFF);;
  writeRegister 0x25 (Z.land period 0xFF);;
  mode <- readRegister REG_OP_MODE;;
  let mode := u8 (Z.lor (Z.land mode 0x7F) 0x80) in
  let mode := u8 (Z.lor (Z.land mode 0xF8) 0x03) in
  writeRegister REG_OP_MODE mode;;
  ret true.

(** [RFM95::testCommunication] *)
Definition testCommunication : M T bool :=
  let test_value := 0x42 in
  writeRegister REG_SYNC_WORD test_value;;
  read_value <- readRegister REG_SYNC_WORD;;
  ret (test_value =? read_value).

End Driver.
End RFM95.

(** ** Transports that keep registers

    [reg t a] is what register [a] of the chip behind the transport [t]
    holds.  A write transfer (address byte with bit 7 set, one value byte)
    puts the value into the addressed register and into no other; a read
    transfer changes no register. *)

Class RegisterStore (T : Type) `{SPIInterface T} := {
  reg : T -> Z -> Z;
  reg_write : forall (t : T) (a v a' : Z),
    0 <= a < 128 -> 0 <= v < 256 ->
    reg (snd (transfer [Z.lor a 0x80; v] 0 t)) a' = if a' =? a then v else reg t a';
  reg_read_frame : forall (t : T) (a a' : Z),
    0 <= a < 128 ->
    reg (snd (transfer [a] 1 t)) a' = reg t a'
}.

(** Register [a] reads back what it holds. *)
Definition reads_back {T : Type} `{RegisterStore T} (a : Z) : Prop :=
  forall t : T, fst (transfer [a] 1 t) = [reg t a].

(** The IQ registers hold the pair of constants for normal operation. *)
Definition iq_normal {T : Type} `{RegisterStore T} (w : world T) : Prop :=
  reg (spi w) RFM95.REG_INVERTIQ = 0x27 /\ reg (spi w) RFM95.REG_INVERTIQ2 = 0x1D.

(** A computation that leaves register [a'] as it found it. *)
Definition keeps {T A : Type} `{RegisterStore T} (a' : Z) (c : M T A) : Prop :=
  forall w : world T, reg (spi (snd (c w))) a' = reg (spi w) a'.

(** A computation that does not read the clock. *)
Definition timeless {T A : Type} (c : M T A) : Prop :=
  forall w : world T, clock (snd (c w)) = clock w.

(** A computation that yields the reading of the clock it takes as its
    last step, and takes no other. *)
Definition reads_clock_last {T : Type} (c : M T Z) : Prop :=
  forall w : world T,
    fst (c w) = readings (clock w) (taken (clock w))
    /\ clock (snd (c w)) = {| readings := readings (clock w); taken := S (taken (clock w)) |}.

(** A computation that makes [n] transfers on the scripted transport. *)
Definition consumes {A : Type} (n : nat) (c : M Mock A) : Prop :=
  forall w : world Mock, script (spi (snd (c w))) = drop n (script (spi w)).

(** ** Concrete hosts, transports and clocks used in the examples *)

Module Fixtures.
Import CH341SPI.

(** A host with one bridge plugged in; everything but the bulk transfers
    succeeds, and those are answered by [rs]. *)
Definition host_with (rs : list bulk_reply) : UsbHost :=
  {| init_ret := 0;
     device_list := Some [Some (0x1A86, 0x5512)];
     open_ret := 0;
     set_configuration_ret := 0;
     claim_interface_ret := 0;
     replies := rs;
     wire := [] |}.

(** The replies that let [open] succeed: the stream configuration and the
    pin set-up. *)
Definition open_ok : list bulk_reply := [bulk_sent 3; bulk_sent 6].

(** The replies to one successful [transfer] that writes [n] bytes and
    reads the bytes [bs]. *)
Definition transfer_ok (n : nat) (bs : list Z) : list bulk_reply :=
  [bulk_sent 3]
  ++ concat (replicate n [bulk_sent 2; bulk_ok 0])
  ++ concat (map (fun b => [bulk_sent 2; bulk_ok b]) bs)
  ++ [bulk_sent 3].

(** Memory in which the uninitialised members read as zero. *)
Definition zeroed : indeterminate :=
  {| ind_is_open := false; ind_gpio_direction := 0; ind_gpio_output := 0 |}.

(** A bridge that answers the chip-select, the address byte and the first
    data byte of a two byte read, and then stops answering. *)
Definition stalling_bridge : state :=
  new 0 false zeroed
    (host_with (open_ok ++ [bulk_sent 3; bulk_sent 2; bulk_ok 0; bulk_sent 2; bulk_ok 0x12])).

(** A clock that advances by [step] nanoseconds per reading. *)
Definition ticking (step : Z) : steady_clock :=
  {| readings := fun n => Z.of_nat n * step; taken := 0 |}.

(** A session that was never opened. *)
Definition closed_bridge : world state :=
  World (new 0 false zeroed (host_with [])) (ticking 1000000).

(** An opened session whose next transfer reads one byte, [0]. *)
Definition bridge_reading_zero : world state :=
  World (snd (open (new 0 false zeroed (host_with (open_ok ++ transfer_ok 1 [0])))))
        (ticking 1000000).

(** A bridge on which the very first register read of [begin] fails at
    the chip-select command, and every later transfer works; the version
    register reads [0x12]. *)
Definition bridge_first_read_fails : world state :=
  World (new 0 false zeroed
           (host_with (open_ok
                       ++ [bulk_fail LIBUSB_ERROR_TIMEOUT]
                       ++ transfer_ok 2 []
                       ++ transfer_ok 1 [0x12]
                       ++ concat (replicate 11 (transfer_ok 2 [])))))
        (ticking 1000000).

(** A bridge that works up to the read of the version register and then
    stops answering: every register write of the initialisation that
    follows fails. *)
Definition bridge_dies_after_version : world state :=
  World (new 0 false zeroed
           (host_with (open_ok
                       ++ transfer_ok 1 [0]
                       ++ transfer_ok 2 []
                       ++ transfer_ok 1 [0x12])))
        (ticking 1000000).

(** A chip with all registers at zero that reports the IRQ flags [irq],
    one per poll, under a clock that advances by [step] per reading. *)
Definition chip_world (irq : list Z) (step : Z) : world Chip :=
  World {| cells := ∅; irq_script := irq |} (ticking step).

(** The same chip after the application switched to inverted IQ. *)
Definition inverted_chip : world Chip :=
  snd (RFM95.setInvertIQ true (chip_world [] 1000000)).

(** A payload one byte longer than the FIFO. *)
Definition oversized : list Z := replicate 256 0.

(** A scripted transport with the replies [replies], under a clock that
    advances by [step] per reading. *)
Definition mock_world (replies : list (list Z)) (step : Z) : world Mock :=
  World {| opens := true; script := replies; sent := [] |} (ticking step).

(** Replies to the ten transfers [receive] makes before it starts to
    poll; the two register reads among them yield 0. *)
Definition rx_setup_replies : list (list Z) :=
  [[]; []; []; [0]; []; [0]; []; []; []; []].

(** 0.1 as a single precision number. *)
Definition tenth : float := FFin 13421773 (-27).

(** Nothing is received: both polls see no flag. *)
Definition silent_air : world Mock :=
  mock_world (rx_setup_replies ++ [[0]; [0]]) 60000000.

(** A packet of length zero is received: the first poll sees receive-done
    without CRC error, the byte count reads 0; the second poll sees no
    flag. *)
Definition empty_packet_on_air : world Mock :=
  mock_world (rx_setup_replies ++ [[0x40]; [0]; [0]]) 60000000.

(** A garbled reception, a poll that sees only a valid header, then a
    clean reception of the three bytes [0xCA; 0xFE; 0x01] found at FIFO
    address [0x10]. *)
Definition garbled_then_clean : world Mock :=
  mock_world (rx_setup_replies
              ++ [[0x60]; []; [0x10]; [0x40]; [3]; [0x10]; []; [0xCA]; [0xFE]; [0x01]])
             1000000.

(** An open session on a host that answers nothing further. *)
Definition open_bridge : state :=
  snd (open (new 0 false zeroed (host_with open_ok))).

(** An open session in LSB-first mode whose next transfer writes one byte
    and reads the byte [0x80]. *)
Definition lsb_bridge : state :=
  snd (open (new 0 true zeroed (host_with (open_ok ++ transfer_ok 1 [0x80])))).


(** A chip with all registers at zero except the version register. *)
Definition fresh_chip : world Chip :=
  World {| cells := {[0x42 := 0x12]}; irq_script := [] |} (ticking 1000000).

(** A chip that reports no further events and whose flags register
    holds all flags, receive-done and CRC error among them. *)
Definition flags_stuck (t : Chip) : Prop :=
  irq_script t = [] /\ chip_reg t RFM95.REG_IRQ_FLAGS = 0xFF.

End Fixtures.

(** * Properties *)

(** ** Machine integers *)

Lemma u8_range z : 0 <= u8 z < 256.
Proof. unfold u8. apply Z.mod_pos_bound. lia. Qed.

Lemma u8_small z : 0 <= z < 256 -> u8 z = z.
Proof. intros Hz. unfold u8. apply Z.mod_small. exact Hz. Qed.

Lemma u8_idem z : u8 (u8 z) = u8 z.
Proof. apply u8_small, u8_range. Qed.

(** ** The bridge transport *)

Section BridgeFacts.
Import CH341Config CH341SPI.

Lemma bulk_is_open ep data s : is_open (snd (bulk ep data s)) = is_open s.
Proof. unfold bulk. destruct (libusb_bulk_transfer ep data (usb s)). reflexivity. Qed.

Lemma bulk_device ep data s : device (snd (bulk ep data s)) = device s.
Proof. unfold bulk. destruct (libusb_bulk_transfer ep data (usb s)). reflexivity. Qed.

Lemma configStream_is_open s : is_open (snd (configStream s)) = is_open s.
Proof.
  unfold configStream. destruct (device s); [|reflexivity].
  pose proof (bulk_is_open BULK_WRITE_EP
    [CMD_I2C_STREAM; Z.lor CMD_I2C_STM_SET 1; CMD_I2C_STM_END] s) as Hb.
  destruct (bulk _ _ s) as [r s1]. simpl in Hb.
  destruct (_ || _); exact Hb.
Qed.

Lemma enablePins_is_open enable s : is_open (snd (enablePins enable s)) = is_open s.
Proof.
  unfold enablePins. destruct (device s); [|reflexivity].
  match goal with |- context [bulk ?ep ?d s] =>
    pose proof (bulk_is_open ep d s) as Hb; destruct (bulk ep d s) as [r s1] end.
  simpl in Hb. destruct (_ || _); exact Hb.
Qed.

Lemma close_is_open s : is_open (close s) = is_open s.
Proof.
  unfold close. destruct (device s); [|reflexivity].
  simpl. apply enablePins_is_open.
Qed.

Lemma open_is_open s : is_open (snd (open s)) = is_open s.
Proof.
  unfold open.
  destruct (negb (context s)); [reflexivity|].
  destruct (device_list (usb s)) as [devs|]; [|reflexivity].
  destruct (find_ch341 0 devs) as [|d0 ds] eqn:Hfind; [reflexivity|].
  destruct (_ >=? _); [reflexivity|].
  destruct (_ <? 0); [reflexivity|].
  destruct (_ !! _) as [dev|]; [|reflexivity].
  destruct (negb (open_ret (usb s) =? 0)); [reflexivity|].
  destruct (negb (set_configuration_ret _ =? 0)); [reflexivity|].
  destruct (negb (claim_interface_ret _ =? 0)); [reflexivity|].
  pose proof (configStream_is_open (set_device (Some dev) s)) as Hc.
  destruct (configStream _) as [ok s2]. simpl in Hc.
  destruct (negb ok); simpl; [rewrite close_is_open; exact Hc|].
  pose proof (enablePins_is_open true s2) as He.
  destruct (enablePins true s2) as [ok' s3]. simpl in He.
  destruct (negb ok'); simpl; [rewrite close_is_open|]; congruence.
Qed.

(** A transfer on a session without a device handle comes back empty and
    touches nothing. *)
Lemma transfer_without_device write_data read_length s :
  device s = None -> transfer write_data read_length s = ([], s).
Proof. intros Hd. unfold transfer. rewrite Hd. reflexivity. Qed.

(** The read loop never hands back more than it was asked for. *)
Lemma read_phase_length n : forall result s,
  (length (snd (fst (read_phase n result s))) <= length result + n)%nat.
Proof.
  induction n as [|n IH]; intros result s; simpl; [lia|].
  destruct (bulk _ _ s) as [r s1].
  destruct (negb (ret r =? 0)); simpl; [lia|].
  destruct (bulk _ _ s1) as [r' s2].
  destruct (negb (ret r' =? 0)); simpl; [lia|].
  etransitivity; [apply IH|]. rewrite length_app. simpl. lia.
Qed.

(** C1 (the code departs from the claim): when a bulk transfer fails in
    the read loop, [transfer] returns the bytes collected so far.  On a
    bridge that opens, answers the address byte and the first of two
    requested bytes and then times out, the result is the one byte [0x12]:
    not empty, and not the two bytes asked for. *)
Theorem transfer_returns_partial_result_on_failure :
  let (opened, s) := open Fixtures.stalling_bridge in
  let (result, s') := transfer [0x42] 2 s in
  opened = true
  /\ result = [0x12]
  /\ replies (usb s') = []
  /\ last (wire (usb s')) = Some (CH341Config.BULK_WRITE_EP, [CH341Config.CMD_SPI_STREAM; 0xFF]).
Proof. vm_compute. repeat split; reflexivity. Qed.

(** C5 (the code departs from the claim): [isActive] returns the member
    [is_open], which the constructor leaves uninitialised and which
    neither [open] nor [close] assigns.  Its value is the same before
    [open], after a successful [open] and after [close]; with that memory
    reading as zero, a session that has just been opened reports that it
    is not active. *)
Theorem isActive_ignores_open_and_close :
  (forall s, isActive (snd (open s)) = isActive s)
  /\ (forall s, isActive (close s) = isActive s)
  /\ (forall idx lsb mem h, isActive (new idx lsb mem h) = ind_is_open mem)
  /\ (fst (open Fixtures.stalling_bridge) = true
      /\ device (snd (open Fixtures.stalling_bridge)) <> None
      /\ isActive (snd (open Fixtures.stalling_bridge)) = false).
Proof.
  split; [exact open_is_open|].
  split; [exact close_is_open|].
  split; [reflexivity|].
  vm_compute. repeat split; congruence.
Qed.

End BridgeFacts.

(** ** The driver's register primitives *)

Section DriverFacts.
Context {T : Type} `{SPIInterface T}.
Import RFM95.

Lemma bind_eq {A B} (c : M T A) (k : A -> M T B) (w : world T) :
  bind c k w = k (fst (c w)) (snd (c w)).
Proof. unfold bind. destruct (c w). reflexivity. Qed.

Lemma readRegister_eq (a : Z) (w : world T) :
  readRegister a w =
  (match fst (transfer [u8 (Z.land (u8 a) 0x7F)] 1 (spi w)) with
   | r0 :: _ => u8 r0
   | [] => 0
   end,
   World (snd (transfer [u8 (Z.land (u8 a) 0x7F)] 1 (spi w))) (clock w)).
Proof.
  unfold readRegister, bind, on_spi, ret.
  destruct (transfer _ 1 (spi w)) as [[|r0 rest] t]; reflexivity.
Qed.

Lemma writeRegister_eq (a v : Z) (w : world T) :
  writeRegister a v w =
  (tt, World (snd (transfer [u8 (Z.lor (u8 a) 0x80); u8 v] 0 (spi w))) (clock w)).
Proof.
  unfold writeRegister, bind, on_spi, ret.
  destruct (transfer _ 0%nat (spi w)) as [resp t]; reflexivity.
Qed.

Lemma readVersionRegister_eq (w : world T) :
  readVersionRegister w =
  (match fst (transfer [0x42] 1 (spi w)) with
   | r0 :: _ => u8 r0
   | [] => 0
   end,
   World (snd (transfer [0x42] 1 (spi w))) (clock w)).
Proof.
  unfold readVersionRegister, bind, on_spi, ret.
  destruct (transfer _ 1 (spi w)) as [[|r0 rest] t]; reflexivity.
Qed.

Lemma readRegister_range (a : Z) (w : world T) : 0 <= fst (readRegister a w) < 256.
Proof.
  rewrite readRegister_eq. simpl.
  destruct (fst (transfer _ 1 (spi w))) as [|r0 rest]; [lia | apply u8_range].
Qed.

Lemma readRegister_clock a w : clock (snd (readRegister a w)) = clock w.
Proof. rewrite readRegister_eq. reflexivity. Qed.

Lemma writeRegister_clock a v w : clock (snd (writeRegister a v w)) = clock w.
Proof. rewrite writeRegister_eq. reflexivity. Qed.

(** C10: a register read whose transfer comes back empty yields 0, the
    same value as a read that succeeds on a register holding 0; and a
    register write returns nothing and leaves behind only the transport
    as the transfer left it, whatever the transfer answered. *)
Theorem register_access_hides_transfer_failure (a v : Z) (w1 w2 : world T) (rest : list Z) :
  fst (transfer [u8 (Z.land (u8 a) 0x7F)] 1 (spi w1)) = [] ->
  fst (transfer [u8 (Z.land (u8 a) 0x7F)] 1 (spi w2)) = 0 :: rest ->
  fst (readRegister a w1) = 0
  /\ fst (readRegister a w1) = fst (readRegister a w2)
  /\ (forall w : world T,
        writeRegister a v w =
        (tt, World (snd (transfer [u8 (Z.lor (u8 a) 0x80); u8 v] 0 (spi w))) (clock w))).
Proof.
  intros Hfail Hzero.
  rewrite !readRegister_eq. simpl. rewrite Hfail, Hzero.
  repeat split. apply writeRegister_eq.
Qed.

(** The result of [begin] is decided by [open] and by the read of the
    version register alone. *)
Lemma begin_result (w : world T) :
  fst (begin w) =
  fst (open (spi w))
  && (fst (readVersionRegister
             (snd (sleepMode (World (snd (open (spi w))) (clock w))))) =? 0x12).
Proof.
  unfold begin. unfold bind at 1. unfold on_spi at 1.
  destruct (open (spi w)) as [opened t]. simpl.
  destruct opened; simpl; [|reflexivity].
  unfold bind at 1. destruct (sleepMode _) as [u w1]. simpl.
  unfold bind at 1. unfold sleep_for at 1, ret at 1.
  unfold bind at 1. destruct (readVersionRegister w1) as [version w2]. simpl.
  destruct (version =? 18); simpl; [|reflexivity].
  unfold bind, sleep_for, ret, standbyMode.
  repeat match goal with
  | |- context [writeRegister ?a ?v ?x] => destruct (writeRegister a v x)
  end.
  reflexivity.
Qed.

(** C3, as amended: [begin] returns true exactly when [open] succeeds
    and the version register, read after the chip was put to sleep,
    yields [0x12]; a failed read yields 0 and so counts as a mismatch.
    No other transfer of the initialisation bears on the result. *)
Theorem begin_true_iff (w : world T) :
  fst (begin w) = true <->
  fst (open (spi w)) = true
  /\ fst (readVersionRegister
            (snd (sleepMode (World (snd (open (spi w))) (clock w))))) = 0x12.
Proof.
  rewrite begin_result, andb_true_iff, Z.eqb_eq. reflexivity.
Qed.

End DriverFacts.

Lemma register_access_hides_transfer_failure_witness :
  fst (RFM95.readRegister RFM95.REG_PA_CONFIG Fixtures.closed_bridge) = 0
  /\ fst (RFM95.readRegister RFM95.REG_PA_CONFIG Fixtures.closed_bridge)
     = fst (RFM95.readRegister RFM95.REG_PA_CONFIG Fixtures.bridge_reading_zero)
  /\ (forall w : world CH341SPI.state,
        RFM95.writeRegister RFM95.REG_PA_CONFIG 0x8F w =
        (tt, World (snd (transfer [u8 (Z.lor (u8 RFM95.REG_PA_CONFIG) 0x80); u8 0x8F] 0 (spi w)))
                   (clock w))).
Proof.
  apply (register_access_hides_transfer_failure
           RFM95.REG_PA_CONFIG 0x8F Fixtures.closed_bridge Fixtures.bridge_reading_zero []);
    vm_compute; reflexivity.
Defined.

Lemma begin_true_iff_witness :
  fst (RFM95.begin Fixtures.bridge_dies_after_version) = true.
Proof.
  apply (proj2 (begin_true_iff Fixtures.bridge_dies_after_version)).
  vm_compute. split; reflexivity.
Defined.

(** C3, the claim as stated fails: on a bridge whose first register read
    fails at the chip-select command (the transfer returns nothing where
    one byte was asked for) [begin] still returns true; and so it does
    when the bridge stops answering after the version register was read,
    so that none of the register writes that follow reaches the chip. *)
Lemma begin_reports_success_despite_failed_transfers :
  (let (opened, s) := open (spi Fixtures.bridge_first_read_fails) in
   opened = true
   /\ fst (transfer [RFM95.REG_OP_MODE] 1 s) = []
   /\ fst (RFM95.begin Fixtures.bridge_first_read_fails) = true)
  /\ (fst (RFM95.begin Fixtures.bridge_dies_after_version) = true
      /\ CH341SPI.replies (CH341SPI.usb (spi (snd (RFM95.begin Fixtures.bridge_dies_after_version)))) = []
      /\ length (CH341SPI.wire (CH341SPI.usb (spi (snd (RFM95.begin Fixtures.bridge_dies_after_version)))))
         = 31%nat).
Proof. vm_compute. repeat split; reflexivity. Qed.

(** ** Bytes by exhaustion *)

Lemma forall_below (P : Z -> bool) (n : nat) :
  forallb P (map Z.of_nat (seq 0 n)) = true ->
  forall z, 0 <= z < Z.of_nat n -> P z = true.
Proof.
  intros Hall z Hz. rewrite forallb_forall in Hall. apply Hall.
  apply in_map_iff. exists (Z.to_nat z). split; [lia|].
  apply in_seq. lia.
Qed.

Lemma address_bits (a : Z) :
  0 <= a < 128 ->
  Z.land (Z.lor a 0x80) 0x7F = a /\ tst (Z.lor a 0x80) 0x80 = true
  /\ Z.land a 0x7F = a /\ tst a 0x80 = false
  /\ u8 (Z.lor (u8 a) 0x80) = Z.lor a 0x80 /\ u8 (Z.land (u8 a) 0x7F) = a.
Proof.
  intros Ha.
  pose proof (forall_below
    (fun a => (Z.land (Z.lor a 0x80) 0x7F =? a) && tst (Z.lor a 0x80) 0x80
              && (Z.land a 0x7F =? a) && negb (tst a 0x80)
              && (u8 (Z.lor (u8 a) 0x80) =? Z.lor a 0x80)
              && (u8 (Z.land (u8 a) 0x7F) =? a))
    128 eq_refl a Ha) as Hb.
  simpl in Hb. rewrite !andb_true_iff, !Z.eqb_eq, negb_true_iff in Hb.
  tauto.
Qed.

Lemma read_address_range (a : Z) : 0 <= u8 (Z.land (u8 a) 0x7F) < 128.
Proof.
  pose proof (u8_range a) as Ha.
  pose proof (forall_below (fun x => (0 <=? u8 (Z.land x 0x7F)) && (u8 (Z.land x 0x7F) <? 128))
                256 eq_refl (u8 a) Ha) as Hb.
  simpl in Hb. apply andb_true_iff in Hb. lia.
Qed.

(** ** The simulated chip keeps registers *)

Lemma chip_reg_write (t : Chip) (a v a' : Z) :
  0 <= a < 128 -> 0 <= v < 256 ->
  chip_reg (snd (chip_transfer [Z.lor a 0x80; v] 0 t)) a' = if a' =? a then v else chip_reg t a'.
Proof.
  intros Ha _. destruct (address_bits a Ha) as (Hland & Htst & _).
  unfold chip_transfer. rewrite Htst, Hland. simpl.
  unfold chip_reg. simpl.
  destruct (Z.eqb_spec a' a) as [->|Hne].
  - rewrite lookup_insert_eq. reflexivity.
  - rewrite lookup_insert_ne by congruence. reflexivity.
Qed.

Lemma chip_reg_read_frame (t : Chip) (a a' : Z) :
  0 <= a < 128 -> chip_reg (snd (chip_transfer [a] 1 t)) a' = chip_reg t a'.
Proof.
  intros Ha. destruct (address_bits a Ha) as (_ & _ & Hland & Htst & _).
  unfold chip_transfer. rewrite Htst, Hland.
  destruct (a =? 18); [|reflexivity].
  destruct (irq_script t); reflexivity.
Qed.

#[export] Instance Chip_registers : RegisterStore Chip := {|
  reg := chip_reg;
  reg_write := chip_reg_write;
  reg_read_frame := chip_reg_read_frame
|}.

Lemma chip_reads_back (a : Z) : 0 <= a < 128 -> a <> 0x12 -> reads_back (T := Chip) a.
Proof.
  intros Ha Hne t. destruct (address_bits a Ha) as (_ & _ & Hland & Htst & _).
  simpl. unfold chip_transfer. rewrite Htst, Hland.
  destruct (Z.eqb_spec a 18) as [->|_]; [congruence|]. reflexivity.
Qed.

(** ** Register access over a transport that keeps registers *)

Section RegisterFacts.
Context {T : Type} `{RegisterStore T}.
Import RFM95.

Lemma writeRegister_reg (a v a' : Z) (w : world T) :
  0 <= a < 128 ->
  reg (spi (snd (writeRegister a v w))) a' = if a' =? a then u8 v else reg (spi w) a'.
Proof.
  intros Ha. rewrite writeRegister_eq. simpl.
  destruct (address_bits a Ha) as (_ & _ & _ & _ & Hhdr & _). rewrite Hhdr.
  apply reg_write; [exact Ha | apply u8_range].
Qed.

Lemma readRegister_reg (a a' : Z) (w : world T) :
  reg (spi (snd (readRegister a w))) a' = reg (spi w) a'.
Proof.
  rewrite readRegister_eq. simpl. apply reg_read_frame, read_address_range.
Qed.

Lemma readRegister_back (a : Z) (w : world T) :
  0 <= a < 128 -> reads_back a -> fst (readRegister a w) = u8 (reg (spi w) a).
Proof.
  intros Ha Hback. rewrite readRegister_eq. simpl.
  destruct (address_bits a Ha) as (_ & _ & _ & _ & _ & Hhdr). rewrite Hhdr.
  rewrite Hback. reflexivity.
Qed.

(** What [getTxPower] gives after [setTxPower], for every level. *)
Lemma getTxPower_after_setTxPower (level : Z) (use_pa_boost : bool) (w : world T) :
  reads_back REG_PA_CONFIG ->
  fst (getTxPower (snd (setTxPower level use_pa_boost w))) =
  if use_pa_boost then
    let l := Z.max 2 (Z.min level 20) in if l <=? 17 then l else l - 16
  else Z.max 0 (Z.min level 15).
Proof.
  intros Hback. unfold getTxPower, bind.
  pose proof (readRegister_back REG_PA_CONFIG (snd (setTxPower level use_pa_boost w))
                ltac:(unfold REG_PA_CONFIG; lia) Hback) as Hread.
  destruct (readRegister REG_PA_CONFIG _) as [pa w1]. simpl in Hread. subst pa.
  assert (Hreg : reg (spi (snd (setTxPower level use_pa_boost w))) REG_PA_CONFIG
                 = if use_pa_boost then u8 (Z.lor PA_BOOST (Z.max 2 (Z.min level 20) - 2))
                   else u8 (Z.max 0 (Z.min level 15))).
  { unfold setTxPower. destruct use_pa_boost;
      rewrite writeRegister_reg by (unfold REG_PA_CONFIG; lia);
      rewrite Z.eqb_refl; reflexivity. }
  rewrite Hreg. clear Hreg Hback.
  destruct use_pa_boost.
  - set (l := Z.max 2 (Z.min level 20)).
    assert (Hl : 0 <= l - 2 < 19) by (unfold l; lia).
    pose proof (forall_below
      (fun d => let pa := u8 (u8 (Z.lor PA_BOOST d)) in
                (if tst pa PA_BOOST then Z.land pa 0x0F + 2 else Z.land pa 0x0F)
                =? (if d + 2 <=? 17 then d + 2 else d + 2 - 16))
      19 eq_refl (l - 2) Hl) as Hb.
    simpl in Hb. apply Z.eqb_eq in Hb.
    replace (l - 2 + 2) with l in Hb by lia.
    destruct (tst _ _); simpl; exact Hb.
  - set (l := Z.max 0 (Z.min level 15)).
    assert (Hl : 0 <= l < 16) by (unfold l; lia).
    pose proof (forall_below
      (fun l => let pa := u8 (u8 l) in
                (if tst pa PA_BOOST then Z.land pa 0x0F + 2 else Z.land pa 0x0F) =? l)
      16 eq_refl l Hl) as Hb.
    simpl in Hb. apply Z.eqb_eq in Hb.
    destruct (tst _ _); simpl; exact Hb.
Qed.

End RegisterFacts.

(** C4 (the code departs from the claim): with the boost amplifier the
    setter clamps the level to [2,20] and stores [level - 2], but only
    four bits of the register are read back: 18, 19 and 20 come back as
    2, 3 and 4.  Levels up to 17, and every level without boost, come
    back as the claim says. *)
Theorem getTxPower_loses_boost_levels_above_17 :
  let w := Fixtures.chip_world [] 1000000 in
  fst (RFM95.getTxPower (snd (RFM95.setTxPower 20 true w))) = 4
  /\ fst (RFM95.getTxPower (snd (RFM95.setTxPower 19 true w))) = 3
  /\ fst (RFM95.getTxPower (snd (RFM95.setTxPower 18 true w))) = 2
  /\ fst (RFM95.getTxPower (snd (RFM95.setTxPower 17 true w))) = 17
  /\ reg (spi (snd (RFM95.setTxPower 20 true w))) RFM95.REG_PA_CONFIG = 0x92
  /\ (forall level use_pa_boost,
        fst (RFM95.getTxPower (snd (RFM95.setTxPower level use_pa_boost w))) =
        if use_pa_boost then
          let l := Z.max 2 (Z.min level 20) in if l <=? 17 then l else l - 16
        else Z.max 0 (Z.min level 15)).
Proof.
  repeat split; try (vm_compute; reflexivity).
  intros level use_pa_boost.
  apply getTxPower_after_setTxPower.
  apply chip_reads_back; unfold RFM95.REG_PA_CONFIG; lia.
Qed.

(** ** Bandwidth *)

Lemma forall_below2 (P : Z -> Z -> bool) (n m : nat) :
  forallb (fun x => forallb (P x) (map Z.of_nat (seq 0 m))) (map Z.of_nat (seq 0 n)) = true ->
  forall x y, 0 <= x < Z.of_nat n -> 0 <= y < Z.of_nat m -> P x y = true.
Proof.
  intros Hall x y Hx Hy.
  apply (forall_below (P x) m); [|exact Hy].
  exact (forall_below (fun x => forallb (P x) (map Z.of_nat (seq 0 m))) n Hall x Hx).
Qed.

Lemma low_nibble_u8 (r : Z) : Z.land (u8 r) 0x0F = Z.land r 0x0F.
Proof.
  unfold u8. change 256 with (2 ^ 8).
  rewrite <- Z.land_ones by lia. rewrite <- Z.land_assoc. reflexivity.
Qed.

Lemma nibbles (x i : Z) :
  0 <= x < 256 -> 0 <= i < 16 ->
  let r := u8 (u8 (Z.lor (Z.land x 0x0F) (Z.shiftl i 4))) in
  Z.shiftr r 4 = i /\ Z.land r 0x0F = Z.land x 0x0F.
Proof.
  intros Hx Hi.
  pose proof (forall_below2
    (fun x i => let r := u8 (u8 (Z.lor (Z.land x 0x0F) (Z.shiftl i 4))) in
                (Z.shiftr r 4 =? i) && (Z.land r 0x0F =? Z.land x 0x0F))
    256 16 eq_refl x i Hx Hi) as Hb.
  simpl in Hb. apply andb_true_iff in Hb. rewrite !Z.eqb_eq in Hb. exact Hb.
Qed.

(** The scan stops at the first entry at or above the request and yields
    its index; with no such entry it yields the default. *)
Lemma bw_scan_first (bw_khz : float) (table : list float) :
  forall (i d : Z), 0 <= i -> i + Z.of_nat (length table) <= 256 ->
  (exists (j : nat) (b : float),
      table !! j = Some b /\ fle bw_khz b = true
      /\ (forall (j' : nat) (b' : float), (j' < j)%nat -> table !! j' = Some b' -> fle bw_khz b' = false)
      /\ RFM95.bw_scan bw_khz i table d = i + Z.of_nat j)
  \/ ((forall (j : nat) (b : float), table !! j = Some b -> fle bw_khz b = false)
      /\ RFM95.bw_scan bw_khz i table d = d).
Proof.
  induction table as [|b0 rest IH]; intros i d Hi Hlen; simpl.
  - right. split; [|reflexivity]. intros j b Hj. destruct j; discriminate.
  - destruct (fle bw_khz b0) eqn:Hb0.
    + left. exists 0%nat, b0. repeat split; try assumption.
      * intros j' b' Hlt. lia.
      * rewrite u8_small; simpl in Hlen; lia.
    + simpl in Hlen.
      destruct (IH (i + 1) d ltac:(lia) ltac:(lia)) as [(j & b & Hj & Hle & Hmin & Hres)|[Hnone Hres]].
      * left. exists (S j), b. repeat split; try assumption.
        -- intros [|j'] b' Hlt Hj'; simpl in Hj'.
           ++ congruence.
           ++ apply (Hmin j' b'); [lia | exact Hj'].
        -- rewrite Hres. lia.
      * right. split; [|exact Hres].
        intros [|j] b Hj; simpl in Hj; [congruence | eauto].
Qed.

(** The table is strictly ascending. *)
Lemma bws_ascending (j : nat) (b b' : float) :
  RFM95.bws !! j = Some b -> RFM95.bws !! S j = Some b' ->
  fle b b' = true /\ fle b' b = false.
Proof.
  do 10 (destruct j as [|j]; [simpl; intros [= <-] [= <-]; vm_compute; split; reflexivity|]).
  simpl. discriminate.
Qed.

(** Its entries are the single precision numbers nearest to the decimal
    values: each is within half a unit of its last place. *)
Lemma bws_values :
  Forall2 (fun (b : float) (d : Q) =>
             match b with
             | FFin m e => (Qabs (F2Q m e - d) <= F2Q 1 (e - 1))%Q /\ 2 ^ 23 <= m < 2 ^ 24
             | _ => False
             end)
    RFM95.bws
    [78 # 10; 104 # 10; 156 # 10; 208 # 10; 3125 # 100;
     417 # 10; 625 # 10; 125 # 1; 250 # 1; 500 # 1]%Q.
Proof.
  unfold RFM95.bws.
  repeat (constructor; [split; [vm_compute; discriminate | lia]|]).
  constructor.
Qed.

Section BandwidthFacts.
Context {T : Type} `{RegisterStore T}.
Import RFM95.

(** C7: [setBandwidth] picks the smallest index of the table whose entry
    is at or above the request, and index 9 (500 kHz) when there is none:
    100 kHz gives entry 7 (125), 500 gives entry 9, 600 gives entry 9.
    The index goes to the high nibble of the modem configuration
    register, whose low nibble and all other registers stay as they
    were. *)
Theorem setBandwidth_selects_entry_at_or_above (bw_khz : float) (w : world T) :
  reads_back REG_MODEM_CONFIG_1 ->
  let i := bw_scan bw_khz 0 bws 9 in
  let r := reg (spi w) REG_MODEM_CONFIG_1 in
  let r' := reg (spi (snd (setBandwidth bw_khz w))) REG_MODEM_CONFIG_1 in
  0 <= i <= 9
  /\ (forall (j : nat) (b : float), Z.of_nat j < i -> bws !! j = Some b -> fle bw_khz b = false)
  /\ ((exists (j : nat) (b : float), bws !! j = Some b /\ fle bw_khz b = true) ->
      exists b : float, bws !! Z.to_nat i = Some b /\ fle bw_khz b = true)
  /\ ((forall (j : nat) (b : float), bws !! j = Some b -> fle bw_khz b = false) -> i = 9)
  /\ (bw_scan (FFin 100 0) 0 bws 9 = 7 /\ bws !! 7%nat = Some (FFin (125 * 2 ^ 17) (-17)))
  /\ (bw_scan (FFin 500 0) 0 bws 9 = 9 /\ bws !! 9%nat = Some (FFin (500 * 2 ^ 15) (-15)))
  /\ bw_scan (FFin 600 0) 0 bws 9 = 9
  /\ Z.shiftr r' 4 = i
  /\ Z.land r' 0x0F = Z.land r 0x0F
  /\ (forall a' : Z, a' <> REG_MODEM_CONFIG_1 ->
        reg (spi (snd (setBandwidth bw_khz w))) a' = reg (spi w) a').
Proof.
  intros Hback i r r'.
  assert (Hsel :
    0 <= i <= 9
    /\ (forall (j : nat) (b : float), Z.of_nat j < i -> bws !! j = Some b -> fle bw_khz b = false)
    /\ ((exists (j : nat) (b : float), bws !! j = Some b /\ fle bw_khz b = true) ->
        exists b : float, bws !! Z.to_nat i = Some b /\ fle bw_khz b = true)
    /\ ((forall (j : nat) (b : float), bws !! j = Some b -> fle bw_khz b = false) -> i = 9)).
  { destruct (bw_scan_first bw_khz bws 0 9 ltac:(lia) ltac:(simpl; lia))
      as [(j & b & Hj & Hle & Hmin & Hres)|[Hnone Hres]]; fold i in Hres.
    - assert (Hjlt : (j < 10)%nat) by (apply lookup_lt_Some in Hj; exact Hj).
      repeat split.
      + lia.
      + lia.
      + intros j' b' Hlt Hj'. apply (Hmin j' b'); [lia | exact Hj'].
      + intros _. exists b. rewrite Hres.
        replace (Z.to_nat (0 + Z.of_nat j)) with j by lia. auto.
      + intros Hnone. rewrite (Hnone j b Hj) in Hle. discriminate.
    - repeat split.
      + lia.
      + lia.
      + intros j' b' _ Hj'. eauto.
      + intros (j & b & Hj & Hle). rewrite (Hnone j b Hj) in Hle. discriminate.
      + intros _. exact Hres. }
  destruct Hsel as (Hrange & Hbelow & Hfound & Hnone).
  assert (Hset : forall a',
    reg (spi (snd (setBandwidth bw_khz w))) a'
    = if a' =? REG_MODEM_CONFIG_1
      then u8 (u8 (Z.lor (Z.land (u8 r) 0x0F) (Z.shiftl i 4)))
      else reg (spi w) a').
  { intros a'. unfold setBandwidth, bind. fold i.
    pose proof (readRegister_back REG_MODEM_CONFIG_1 w
                  ltac:(unfold REG_MODEM_CONFIG_1; lia) Hback) as Hread.
    pose proof (readRegister_reg REG_MODEM_CONFIG_1 a' w) as Hframe.
    destruct (readRegister REG_MODEM_CONFIG_1 w) as [reg1 w1].
    simpl in Hread, Hframe. subst reg1.
    rewrite writeRegister_reg by (unfold REG_MODEM_CONFIG_1; lia).
    destruct (a' =? REG_MODEM_CONFIG_1); [reflexivity | exact Hframe]. }
  destruct (nibbles (u8 r) i (u8_range r) ltac:(lia)) as [Hhigh Hlow].
  split; [exact Hrange|]. split; [exact Hbelow|]. split; [exact Hfound|].
  split; [exact Hnone|].
  split; [split; reflexivity|]. split; [split; reflexivity|]. split; [reflexivity|].
  split; [|split].
  - unfold r'. rewrite Hset, Z.eqb_refl. exact Hhigh.
  - unfold r'. rewrite Hset, Z.eqb_refl. rewrite Hlow. apply low_nibble_u8.
  - intros a' Hne. rewrite Hset.
    destruct (Z.eqb_spec a' REG_MODEM_CONFIG_1); [contradiction | reflexivity].
Qed.

End BandwidthFacts.

Lemma setBandwidth_selects_entry_at_or_above_witness :
  let w := Fixtures.chip_world [] 1000000 in
  let w' := snd (RFM95.setBandwidth (FFin 100 0) (snd (RFM95.writeRegister RFM95.REG_MODEM_CONFIG_1 0x72 w))) in
  Z.shiftr (reg (spi w') RFM95.REG_MODEM_CONFIG_1) 4 = 7
  /\ Z.land (reg (spi w') RFM95.REG_MODEM_CONFIG_1) 0x0F = 2.
Proof.
  intros w w'.
  pose proof (setBandwidth_selects_entry_at_or_above (FFin 100 0)
                (snd (RFM95.writeRegister RFM95.REG_MODEM_CONFIG_1 0x72 w))
                (chip_reads_back RFM95.REG_MODEM_CONFIG_1
                   ltac:(unfold RFM95.REG_MODEM_CONFIG_1; lia)
                   ltac:(unfold RFM95.REG_MODEM_CONFIG_1; lia)))
    as (_ & _ & _ & _ & _ & _ & _ & Hhigh & Hlow & _).
  split; [exact Hhigh | exact Hlow].
Defined.

(** ** Transmission *)

Section FrameFacts.
Context {T : Type} `{RegisterStore T}.
Import RFM95.

Lemma keeps_ret {A} (a' : Z) (x : A) : keeps a' (ret (T := T) x).
Proof. intros w. reflexivity. Qed.

Lemma keeps_bind {A B} (a' : Z) (c : M T A) (k : A -> M T B) :
  keeps a' c -> (forall x, keeps a' (k x)) -> keeps a' (bind c k).
Proof.
  intros Hc Hk w. unfold bind. specialize (Hc w).
  destruct (c w) as [x w1]. simpl in Hc. rewrite Hk. exact Hc.
Qed.

Lemma keeps_read (a a' : Z) : keeps a' (readRegister a).
Proof. intros w. apply readRegister_reg. Qed.

Lemma keeps_write (a v a' : Z) : 0 <= a < 128 -> a' <> a -> keeps a' (writeRegister a v).
Proof.
  intros Ha Hne w. rewrite writeRegister_reg by exact Ha.
  destruct (Z.eqb_spec a' a); [contradiction | reflexivity].
Qed.

Lemma keeps_now (a' : Z) : keeps a' (now (T := T)).
Proof. intros w. reflexivity. Qed.

Lemma keeps_sleep (a' ms : Z) : keeps a' (sleep_for (T := T) ms).
Proof. intros w. reflexivity. Qed.

Lemma keeps_write_fifo (a' : Z) (data : list Z) : a' <> REG_FIFO -> keeps a' (write_fifo data).
Proof.
  intros Hne. induction data as [|b rest IH]; simpl.
  - apply keeps_ret.
  - apply keeps_bind; [apply keeps_write; [unfold REG_FIFO; lia | exact Hne] | intros _; exact IH].
Qed.

Lemma timeless_ret {A} (x : A) : timeless (ret (T := T) x).
Proof. intros w. reflexivity. Qed.

Lemma timeless_bind {A B} (c : M T A) (k : A -> M T B) :
  timeless c -> (forall x, timeless (k x)) -> timeless (bind c k).
Proof.
  intros Hc Hk w. unfold bind. specialize (Hc w).
  destruct (c w) as [x w1]. simpl in Hc. rewrite Hk. exact Hc.
Qed.

Lemma timeless_read (a : Z) : timeless (readRegister (T := T) a).
Proof. intros w. apply readRegister_clock. Qed.

Lemma timeless_write (a v : Z) : timeless (writeRegister (T := T) a v).
Proof. intros w. apply writeRegister_clock. Qed.

Lemma timeless_write_fifo (data : list Z) : timeless (write_fifo (T := T) data).
Proof.
  induction data as [|b rest IH]; simpl.
  - apply timeless_ret.
  - apply timeless_bind; [apply timeless_write | intros _; exact IH].
Qed.

End FrameFacts.

(** Side conditions on register addresses. *)
Ltac reg_lia :=
  unfold RFM95.REG_FIFO, RFM95.REG_OP_MODE, RFM95.REG_FIFO_ADDR_PTR,
    RFM95.REG_FIFO_RX_CURRENT_ADDR, RFM95.REG_IRQ_FLAGS_MASK, RFM95.REG_IRQ_FLAGS,
    RFM95.REG_RX_NB_BYTES, RFM95.REG_PAYLOAD_LENGTH, RFM95.REG_INVERTIQ,
    RFM95.REG_INVERTIQ2, RFM95.REG_DIO_MAPPING_1, RFM95.REG_DIO_MAPPING_2,
    RFM95.REG_FRF_MSB, RFM95.REG_FRF_MID, RFM95.REG_FRF_LSB in *;
  lia.

(** Frame conditions of straight-line driver code. *)
Ltac frames :=
  repeat first
    [ apply keeps_ret
    | apply keeps_now
    | apply keeps_sleep
    | apply keeps_read
    | apply keeps_write; [reg_lia | reg_lia]
    | apply keeps_write_fifo; reg_lia
    | apply keeps_bind; [|intros ?]
    | apply timeless_ret
    | apply timeless_read
    | apply timeless_write
    | apply timeless_write_fifo
    | apply timeless_bind; [|intros ?] ].

Section SendFacts.
Context {T : Type} `{RegisterStore T}.
Import RFM95.

Lemma setInvertIQ_false_normal (w : world T) : iq_normal (snd (setInvertIQ false w)).
Proof.
  unfold iq_normal, setInvertIQ, bind.
  destruct (writeRegister REG_INVERTIQ 39 w) as [u w1] eqn:E1.
  pose proof (writeRegister_reg REG_INVERTIQ 39 REG_INVERTIQ w ltac:(reg_lia)) as H1.
  rewrite E1 in H1. simpl in H1.
  rewrite !writeRegister_reg by reg_lia. simpl. rewrite H1. split; reflexivity.
Qed.

Lemma keeps_iq_normal {A} (c : M T A) (w : world T) :
  keeps REG_INVERTIQ c -> keeps REG_INVERTIQ2 c -> iq_normal w -> iq_normal (snd (c w)).
Proof. intros H1 H2 [Ha Hb]. split; [rewrite H1 | rewrite H2]; assumption. Qed.

Lemma bind_post {A B} (c : M T A) (k : A -> M T B) (P Q : world T -> Prop) (w : world T) :
  P (snd (c w)) -> (forall x w1, P w1 -> Q (snd (k x w1))) -> Q (snd (bind c k w)).
Proof.
  intros Hc Hk. unfold bind. destruct (c w) as [x w1]. apply Hk. exact Hc.
Qed.

(** The end of every return path of [send] and [receive]: normal IQ is
    restored if inversion was asked for. *)
Lemma restore_normal {A} (invert_iq : bool) (x : A) (w : world T) :
  (invert_iq = false -> iq_normal w) ->
  iq_normal (snd (bind (if invert_iq then setInvertIQ false else ret tt)
                       (fun _ => ret x) w)).
Proof.
  intros Hw.
  apply (bind_post _ _ iq_normal); [|auto].
  destruct invert_iq; [apply setInvertIQ_false_normal | simpl; auto].
Qed.

Lemma send_wait_normal (fuel : nat) (invert_iq : bool) (start : Z) :
  forall (w : world T) (b : bool) (w' : world T),
  (invert_iq = false -> iq_normal w) ->
  send_wait fuel invert_iq start w = Some (b, w') -> iq_normal w'.
Proof.
  induction fuel as [|fuel IH]; intros w b w' Hw Hrun; [discriminate|].
  cbn [send_wait] in Hrun.
  assert (Hpoll : invert_iq = false -> iq_normal (snd (readRegister REG_IRQ_FLAGS w))).
  { intros Hinv. apply keeps_iq_normal; [frames | frames | auto]. }
  destruct (readRegister REG_IRQ_FLAGS w) as [flags w1]. cbn [snd] in Hpoll.
  destruct (tst flags IRQ_TX_DONE_MASK).
  - injection Hrun as Hrun.
    replace w' with (snd (b, w')) by reflexivity. rewrite <- Hrun.
    apply (bind_post _ _ (fun w => invert_iq = false -> iq_normal w)).
    { intros Hinv. apply keeps_iq_normal; [frames | frames | auto]. }
    intros _ w2 Hw2.
    apply (bind_post _ _ (fun w => invert_iq = false -> iq_normal w)).
    { intros Hinv. unfold standbyMode.
      apply keeps_iq_normal;
        [apply keeps_write; reg_lia | apply keeps_write; reg_lia | auto]. }
    intros _ w3 Hw3. apply restore_normal. exact Hw3.
  - unfold now in Hrun.
    destruct (elapsed_ms start _ >? 2000).
    + injection Hrun as Hrun.
      replace w' with (snd (b, w')) by reflexivity. rewrite <- Hrun.
      apply restore_normal. intros Hinv.
      destruct (Hpoll Hinv) as [Ha Hb]. split; assumption.
    + unfold sleep_for, ret in Hrun. eapply IH; [|exact Hrun].
      intros Hinv. destruct (Hpoll Hinv) as [Ha Hb]. split; assumption.
Qed.

(** A round of the wait loop that sees no transmit-done before the time
    is up sleeps and polls again. *)
Lemma send_wait_pending (fuel : nat) (invert_iq : bool) (start : Z) (w : world T) :
  tst (fst (readRegister REG_IRQ_FLAGS w)) IRQ_TX_DONE_MASK = false ->
  (elapsed_ms start (readings (clock w) (taken (clock w))) >? 2000) = false ->
  send_wait (S fuel) invert_iq start w
  = send_wait fuel invert_iq start
      (World (spi (snd (readRegister REG_IRQ_FLAGS w)))
             {| readings := readings (clock w); taken := S (taken (clock w)) |}).
Proof.
  intros Hdone Hearly. cbn [send_wait].
  pose proof (readRegister_clock REG_IRQ_FLAGS w) as Hc.
  destruct (readRegister REG_IRQ_FLAGS w) as [flags w1]. cbn [fst snd] in *.
  rewrite Hdone. unfold now. rewrite Hc, Hearly. reflexivity.
Qed.

(** Every other round returns. *)
Lemma send_wait_last (fuel : nat) (invert_iq : bool) (start : Z) (w : world T) :
  tst (fst (readRegister REG_IRQ_FLAGS w)) IRQ_TX_DONE_MASK = true
  \/ 2000 < elapsed_ms start (readings (clock w) (taken (clock w))) ->
  exists r, send_wait (S fuel) invert_iq start w = Some r.
Proof.
  intros Hend. cbn [send_wait].
  pose proof (readRegister_clock REG_IRQ_FLAGS w) as Hc.
  destruct (readRegister REG_IRQ_FLAGS w) as [flags w1]. cbn [fst snd] in *.
  destruct (tst flags IRQ_TX_DONE_MASK); [eauto|].
  destruct Hend as [Hdone|Hlate]; [discriminate|].
  unfold now. rewrite Hc.
  destruct (Z.gtb_spec (elapsed_ms start (readings (clock w) (taken (clock w)))) 2000);
    [eauto | lia].
Qed.

(** Once a reading of the clock is more than 2000 ms after the start,
    the wait loop has returned. *)
Lemma send_wait_returns (invert_iq : bool) (start : Z) (k : nat) :
  forall w : world T,
  2000 < elapsed_ms start (readings (clock w) (taken (clock w) + k)) ->
  exists r, send_wait (S k) invert_iq start w = Some r.
Proof.
  induction k as [|k IH]; intros w Hlate.
  - apply send_wait_last. right. rewrite Nat.add_0_r in Hlate. exact Hlate.
  - destruct (tst (fst (readRegister REG_IRQ_FLAGS w)) IRQ_TX_DONE_MASK) eqn:Hdone;
      [apply send_wait_last; auto|].
    destruct (Z.gtb_spec (elapsed_ms start (readings (clock w) (taken (clock w)))) 2000)
      as [Hnow|Hnow]; [apply send_wait_last; right; lia|].
    rewrite send_wait_pending; [|exact Hdone|rewrite Z.gtb_ltb; apply Z.ltb_ge; lia].
    apply IH. simpl.
    replace (S (taken (clock w) + k))%nat with (taken (clock w) + S k)%nat by lia.
    exact Hlate.
Qed.

Lemma reads_clock_last_now : reads_clock_last (now (T := T)).
Proof. intros w. split; reflexivity. Qed.

Lemma reads_clock_last_bind {A} (c : M T A) (k : A -> M T Z) :
  timeless c -> (forall x, reads_clock_last (k x)) -> reads_clock_last (bind c k).
Proof.
  intros Hc Hk w. unfold bind. specialize (Hc w).
  destruct (c w) as [x w1]. simpl in Hc. rewrite <- Hc. apply Hk.
Qed.

(** The set-up of [send] reads the clock once, at its end, and leaves
    the IQ registers as [setInvertIQ] set them. *)
Lemma send_setup_spec (data : list Z) (invert_iq : bool) (w : world T) :
  fst (send_setup data invert_iq w) = readings (clock w) (taken (clock w))
  /\ clock (snd (send_setup data invert_iq w))
     = {| readings := readings (clock w); taken := S (taken (clock w)) |}
  /\ (invert_iq = false -> iq_normal (snd (send_setup data invert_iq w))).
Proof.
  assert (Hclock : reads_clock_last (send_setup data invert_iq)).
  { unfold send_setup, setDIOMapping, standbyMode, setInvertIQ.
    destruct invert_iq;
      repeat first [ apply reads_clock_last_now
                   | apply reads_clock_last_bind; [frames | intros ?] ]. }
  destruct (Hclock w) as [Hstart Htick].
  split; [exact Hstart|]. split; [exact Htick|].
  intros ->. unfold send_setup. unfold bind at 1.
  pose proof (setInvertIQ_false_normal w) as Hn.
  destruct (setInvertIQ false w) as [u w0]. simpl in Hn.
  apply keeps_iq_normal; [| |exact Hn];
    unfold setDIOMapping, standbyMode; frames.
Qed.

(** C9, as amended: a payload of more than 255 bytes makes [send] return
    false at once, with every register as it was; in all other cases the
    IQ registers hold the pair for normal operation when [send] returns,
    with or without inversion asked for and whatever they held before,
    and [send] does return once the clock shows that more than 2000 ms
    have passed. *)
Theorem send_leaves_iq_normal (data : list Z) (invert_iq : bool) (w : world T) :
  ((255 < length data)%nat ->
     forall fuel : nat, send fuel data invert_iq w = Some (false, w))
  /\ ((length data <= 255)%nat ->
      (forall (fuel : nat) (b : bool) (w' : world T),
         send fuel data invert_iq w = Some (b, w') -> iq_normal w')
      /\ (forall k : nat,
            2000 < elapsed_ms (readings (clock w) (taken (clock w)))
                              (readings (clock w) (taken (clock w) + 1 + k)) ->
            exists (b : bool) (w' : world T),
              send (S k) data invert_iq w = Some (b, w') /\ iq_normal w')).
Proof.
  split.
  - intros Hlong fuel. unfold send.
    destruct (Nat.ltb_spec 255 (length data)); [reflexivity | lia].
  - intros Hshort.
    assert (Hpartial : forall (fuel : nat) (b : bool) (w' : world T),
              send fuel data invert_iq w = Some (b, w') -> iq_normal w').
    { intros fuel b w' Hrun. unfold send in Hrun.
      destruct (Nat.ltb_spec 255 (length data)); [lia|].
      destruct (send_setup_spec data invert_iq w) as (_ & _ & Hiq).
      destruct (send_setup data invert_iq w) as [start w1].
      exact (send_wait_normal fuel invert_iq start w1 b w' Hiq Hrun). }
    split; [exact Hpartial|].
    intros k Hlate.
    assert (Hres : exists r, send (S k) data invert_iq w = Some r).
    { unfold send. destruct (Nat.ltb_spec 255 (length data)); [lia|].
      destruct (send_setup_spec data invert_iq w) as (Hstart & Htick & _).
      destruct (send_setup data invert_iq w) as [start w1].
      simpl in Hstart, Htick. apply send_wait_returns.
      rewrite Htick, Hstart. simpl.
      replace (S (taken (clock w) + k))%nat with (taken (clock w) + 1 + k)%nat by lia.
      exact Hlate. }
    destruct Hres as [[b w'] Hres]. exists b, w'. split; [exact Hres|].
    exact (Hpartial _ _ _ Hres).
Qed.

End SendFacts.

Lemma send_leaves_iq_normal_witness :
  (forall fuel : nat,
     RFM95.send fuel Fixtures.oversized true Fixtures.inverted_chip
     = Some (false, Fixtures.inverted_chip))
  /\ (exists (b : bool) (w' : world Chip),
        RFM95.send 2 [1; 2; 3] true (Fixtures.chip_world [0; 0] 1500000000) = Some (b, w')
        /\ iq_normal w').
Proof.
  split.
  - apply (proj1 (send_leaves_iq_normal Fixtures.oversized true Fixtures.inverted_chip)).
    vm_compute. reflexivity.
  - apply (proj2 (proj2 (send_leaves_iq_normal [1; 2; 3] true
                           (Fixtures.chip_world [0; 0] 1500000000))
                        ltac:(simpl; lia)) 1%nat).
    vm_compute. reflexivity.
Defined.

(** C9, the claim as stated fails: with the IQ registers holding the
    inverted pair before the call, [send] of 256 bytes returns false
    through its first [return], and the registers still hold the inverted
    pair. *)
Lemma send_oversized_leaves_iq_inverted :
  RFM95.send 1 Fixtures.oversized false Fixtures.inverted_chip
  = Some (false, Fixtures.inverted_chip)
  /\ reg (spi Fixtures.inverted_chip) RFM95.REG_INVERTIQ = 0x66
  /\ reg (spi Fixtures.inverted_chip) RFM95.REG_INVERTIQ2 = 0x19
  /\ ~ iq_normal Fixtures.inverted_chip.
Proof.
  split; [reflexivity|]. split; [reflexivity|]. split; [reflexivity|].
  intros [Hiq _]. vm_compute in Hiq. discriminate.
Qed.

(** ** Frequency *)

Lemma F2Q_nonneg m e : 0 <= m -> (0 <= F2Q m e)%Q.
Proof.
  intros Hm. unfold F2Q. destruct (0 <=? e) eqn:He.
  - change 0%Q with (inject_Z 0). rewrite <- Zle_Qle. apply Z.leb_le in He.
    apply Z.mul_nonneg_nonneg; [lia | apply Z.pow_nonneg; lia].
  - unfold Qle. simpl. lia.
Qed.

(** The cut of [m * 2^e * 2^14] to an integer is its floor. *)
Lemma scaled_floor (m e : Z) :
  0 <= m ->
  (if 0 <=? e + 19 - 5 then m * 1 * 2 ^ (e + 19 - 5) else Z.quot (m * 1) (2 ^ (- (e + 19 - 5))))
  = Qfloor (F2Q m e * (524288 # 32)).
Proof.
  intros Hm. rewrite Z.mul_1_r. unfold F2Q.
  destruct (Z.leb_spec 0 e) as [He|He].
  - destruct (Z.leb_spec 0 (e + 19 - 5)); [|lia].
    unfold Qfloor, Qmult, inject_Z. simpl Qnum. simpl Qden.
    replace (e + 19 - 5) with (e + 14) by lia.
    rewrite Z.pow_add_r by lia.
    change (Z.pos (1 * 32)) with 32. change (2 ^ 14) with 16384.
    replace (m * 2 ^ e * 524288) with (m * 2 ^ e * 16384 * 32) by lia.
    rewrite Z.div_mul by lia. lia.
  - assert (Hp : 0 < 2 ^ (- e)) by (apply Z.pow_pos_nonneg; lia).
    unfold Qfloor, Qmult. simpl Qnum. simpl Qden.
    rewrite Pos2Z.inj_mul, Z2Pos.id by exact Hp.
    change (Z.pos 32) with 32.
    replace (m * 524288) with (m * 16384 * 32) by lia.
    rewrite Z.div_mul_cancel_r by lia.
    destruct (Z.leb_spec 0 (e + 19 - 5)) as [Hs|Hs].
    + replace 16384 with (2 ^ (e + 19 - 5) * 2 ^ (- e)).
      * rewrite Z.mul_assoc, Z.div_mul by lia. reflexivity.
      * rewrite <- Z.pow_add_r by lia. replace (e + 19 - 5 + - e) with 14 by lia. reflexivity.
    + rewrite Z.quot_div_nonneg by (try apply Z.pow_pos_nonneg; lia).
      replace (2 ^ (- e)) with (16384 * 2 ^ (- (e + 19 - 5))).
      * rewrite (Z.mul_comm m 16384). rewrite Z.div_mul_cancel_l; [reflexivity| |lia].
        apply Z.pow_nonzero; lia.
      * change 16384 with (2 ^ 14). rewrite <- Z.pow_add_r by lia. f_equal. lia.
Qed.

Lemma frf_word_floor (m e : Z) :
  Z.abs m < 2 ^ 24 -> 0 <= m -> (F2Q m e < 1024)%Q ->
  let frf := Qfloor (F2Q m e * (524288 # 32)) in
  RFM95.frf_word (FFin m e) = Some frf /\ 0 <= frf < 2 ^ 24.
Proof.
  intros Hm Hpos Hlt frf.
  assert (Hrange : 0 <= frf < 2 ^ 24).
  { pose proof (F2Q_nonneg m e Hpos) as Hq.
    pose proof (Qfloor_le (F2Q m e * (524288 # 32))) as Hfl. fold frf in Hfl.
    split.
    - change 0 with (Qfloor 0). apply Qfloor_resp_le.
      apply Qmult_le_0_compat; [exact Hq | unfold Qle; simpl; lia].
    - rewrite Zlt_Qlt. eapply Qle_lt_trans; [exact Hfl|].
      change (inject_Z (2 ^ 24)) with (16777216 # 1)%Q. lra. }
  split; [|exact Hrange].
  unfold RFM95.frf_word, fmul, round_to.
  destruct (Z.ltb_spec (Z.abs (m * 1)) (2 ^ 53)) as [_|Hbig]; [|lia].
  unfold fdiv_pow2, to_uint32.
  rewrite (scaled_floor m e Hpos). fold frf.
  destruct (Z.leb_spec 0 frf); [|lia].
  destruct (Z.ltb_spec frf (2 ^ 32)); [reflexivity | lia].
Qed.

Lemma lor_shift_add (a b n : Z) :
  0 <= n -> 0 <= b < 2 ^ n -> Z.lor (a * 2 ^ n) b = a * 2 ^ n + b.
Proof.
  intros Hn Hb. symmetry. apply Z.add_nocarry_lor.
  apply Z.bits_inj'. intros k Hk. rewrite Z.land_spec, Z.bits_0.
  destruct (Z.lt_ge_cases k n) as [Hlt|Hge].
  - rewrite Z.mul_pow2_bits_low by lia. reflexivity.
  - destruct (Z.eq_dec b 0) as [->|Hnz].
    + rewrite Z.bits_0. apply andb_false_r.
    + rewrite (Z.bits_above_log2 b k); [apply andb_false_r | lia |].
      assert (Z.log2 b < n) by (apply Z.log2_lt_pow2; lia). lia.
Qed.

Lemma frf_split (frf : Z) :
  0 <= frf < 2 ^ 24 ->
  let '(msb, mid, lsb) := RFM95.frf_bytes frf in
  msb = frf / 2 ^ 16 /\ mid = (frf / 2 ^ 8) mod 2 ^ 8 /\ lsb = frf mod 2 ^ 8
  /\ 0 <= msb < 256 /\ 0 <= mid < 256 /\ 0 <= lsb < 256
  /\ Z.lor (Z.lor (Z.shiftl msb 16) (Z.shiftl mid 8)) lsb = frf.
Proof.
  intros Hfrf. unfold RFM95.frf_bytes.
  change 255 with (Z.ones 8). rewrite !Z.land_ones, !Z.shiftr_div_pow2 by lia.
  assert (Hmsb : 0 <= frf / 2 ^ 16 < 256).
  { split; [apply Z.div_pos; lia | apply Z.div_lt_upper_bound; lia]. }
  rewrite (Z.mod_small (frf / 2 ^ 16)) by exact Hmsb.
  pose proof (Z.mod_pos_bound (frf / 2 ^ 8) (2 ^ 8) ltac:(lia)) as Hmid.
  pose proof (Z.mod_pos_bound frf (2 ^ 8) ltac:(lia)) as Hlsb.
  repeat split; try lia.
  rewrite !Z.shiftl_mul_pow2 by lia.
  assert (Hdec : frf = frf / 2 ^ 16 * 2 ^ 16 + (frf / 2 ^ 8) mod 2 ^ 8 * 2 ^ 8 + frf mod 2 ^ 8).
  { pose proof (Z.div_mod frf (2 ^ 8) ltac:(lia)) as H1.
    pose proof (Z.div_mod (frf / 2 ^ 8) (2 ^ 8) ltac:(lia)) as H2.
    rewrite Z.div_div in H2 by lia. change (2 ^ 8 * 2 ^ 8) with (2 ^ 16) in H2. lia. }
  rewrite (lor_shift_add (frf / 2 ^ 16) ((frf / 2 ^ 8) mod 2 ^ 8 * 2 ^ 8) 16) by lia.
  replace (frf / 2 ^ 16 * 2 ^ 16 + (frf / 2 ^ 8) mod 2 ^ 8 * 2 ^ 8)
    with ((frf / 2 ^ 16 * 2 ^ 8 + (frf / 2 ^ 8) mod 2 ^ 8) * 2 ^ 8) by lia.
  rewrite lor_shift_add by lia. lia.
Qed.

Section FrequencyFacts.
Context {T : Type} `{RegisterStore T}.
Import RFM95.

(** C6, as amended: the frequency word is [frequency_MHz * 2^19 / 32]
    with the fraction dropped (not rounded), stored most significant byte
    first in the three frequency registers; [getFrequency] puts the word
    together again and scales it back; and for every frequency from 0 up
    to 1024 MHz the frequency read back is at most the one set and less
    than one synthesizer step (32 MHz / 2^19) below it. *)
Theorem frequency_round_trip (m e : Z) (w : world T) :
  reads_back REG_FRF_MSB -> reads_back REG_FRF_MID -> reads_back REG_FRF_LSB ->
  binary32 (FFin m e) -> 0 <= m -> (F2Q m e < 1024)%Q ->
  let frf := Qfloor (F2Q m e * (524288 # 32)) in
  exists w1 : world T,
    setFrequency (FFin m e) w = Some (tt, w1)
    /\ 0 <= frf < 2 ^ 24
    /\ reg (spi w1) REG_FRF_MSB = frf / 2 ^ 16
    /\ reg (spi w1) REG_FRF_MID = (frf / 2 ^ 8) mod 2 ^ 8
    /\ reg (spi w1) REG_FRF_LSB = frf mod 2 ^ 8
    /\ exists m' e' : Z,
         fst (getFrequency w1) = FFin m' e'
         /\ (F2Q m' e' == inject_Z frf * (32 # 524288))%Q
         /\ (0 <= F2Q m e - F2Q m' e' < 32 # 524288)%Q.
Proof.
  intros Hmsb Hmid Hlsb [Hm _] Hpos Hlt frf.
  destruct (frf_word_floor m e Hm Hpos Hlt) as [Hword Hrange]. fold frf in Hword, Hrange.
  pose proof (frf_split frf Hrange) as Hsplit. unfold frf_bytes in Hsplit.
  destruct Hsplit as (Emsb & Emid & Elsb & Rmsb & Rmid & Rlsb & Hjoin).
  unfold setFrequency. rewrite Hword.
  set (c := bind (writeRegister REG_FRF_MSB (Z.land (Z.shiftr frf 16) 255)) _).
  assert (Hregs : reg (spi (snd (c w))) REG_FRF_MSB = Z.land (Z.shiftr frf 16) 255
                  /\ reg (spi (snd (c w))) REG_FRF_MID = Z.land (Z.shiftr frf 8) 255
                  /\ reg (spi (snd (c w))) REG_FRF_LSB = Z.land frf 255).
  { unfold c. rewrite !bind_eq.
    rewrite !writeRegister_reg by reg_lia. simpl.
    rewrite !u8_small by assumption. auto. }
  destruct (c w) as [[] w1]. simpl in Hregs. destruct Hregs as (Gmsb & Gmid & Glsb).
  exists w1. split; [reflexivity|]. split; [exact Hrange|].
  split; [congruence|]. split; [congruence|]. split; [congruence|].
  assert (Hget : fst (getFrequency w1) = FFin (frf * 1) (0 + 5 - 19)).
  { unfold getFrequency. rewrite !bind_eq.
    rewrite !readRegister_back by (assumption || reg_lia).
    rewrite !readRegister_reg. rewrite Gmsb, Gmid, Glsb.
    rewrite !u8_small by assumption. rewrite Hjoin.
    unfold ret, fmul, round_to, fdiv_pow2. simpl fst.
    destruct (Z.ltb_spec (Z.abs frf) (2 ^ 53)); [|lia].
    destruct (Z.ltb_spec (Z.abs (frf * 1)) (2 ^ 53)); [|lia].
    destruct (Z.ltb_spec (Z.abs (frf * 1)) (2 ^ 24)); [reflexivity|lia]. }
  exists (frf * 1), (0 + 5 - 19). split; [exact Hget|].
  assert (Hval : (F2Q (frf * 1) (0 + 5 - 19) == inject_Z frf * (32 # 524288))%Q).
  { unfold F2Q, Qeq. simpl. lia. }
  split; [exact Hval|].
  rewrite Hval.
  pose proof (Qfloor_le (F2Q m e * (524288 # 32))) as Hfl.
  pose proof (Qlt_floor (F2Q m e * (524288 # 32))) as Hfu.
  fold frf in Hfl, Hfu. rewrite inject_Z_plus in Hfu.
  change (inject_Z 1) with 1%Q in Hfu.
  split; lra.
Qed.

End FrequencyFacts.

Lemma frequency_round_trip_witness :
  exists w1 : world Chip,
    RFM95.setFrequency (FFin 6945 (-3)) (Fixtures.chip_world [] 1000000) = Some (tt, w1)
    /\ reg (spi w1) RFM95.REG_FRF_MSB = 0xD9
    /\ reg (spi w1) RFM95.REG_FRF_MID = 0x08
    /\ reg (spi w1) RFM95.REG_FRF_LSB = 0x00.
Proof.
  destruct (frequency_round_trip 6945 (-3) (Fixtures.chip_world [] 1000000)
              (chip_reads_back RFM95.REG_FRF_MSB ltac:(reg_lia) ltac:(reg_lia))
              (chip_reads_back RFM95.REG_FRF_MID ltac:(reg_lia) ltac:(reg_lia))
              (chip_reads_back RFM95.REG_FRF_LSB ltac:(reg_lia) ltac:(reg_lia))
              ltac:(simpl; lia) ltac:(lia) ltac:(vm_compute; reflexivity))
    as (w1 & Hset & _ & Hmsb & Hmid & Hlsb & _).
  exists w1. repeat split; assumption.
Defined.

(** C6, the claim as stated fails: 150 + 3/65536 MHz is a single
    precision number; its frequency word is 2457600, while
    [frequency_MHz * 2^19 / 32] is 2457600.75, whose nearest integer is
    2457601. *)
Lemma frequency_word_is_cut_not_rounded :
  binary32 (FFin 9830403 (-16))
  /\ (F2Q 9830403 (-16) == 150 + (3 # 65536))%Q
  /\ (F2Q 9830403 (-16) * (524288 # 32) == 2457600 + (3 # 4))%Q
  /\ (Qabs (F2Q 9830403 (-16) * (524288 # 32) - 2457601) < 1 # 2)%Q
  /\ RFM95.frf_word (FFin 9830403 (-16)) = Some 2457600
  /\ (exists w1 : world Chip,
        RFM95.setFrequency (FFin 9830403 (-16)) (Fixtures.chip_world [] 1000000) = Some (tt, w1)
        /\ reg (spi w1) RFM95.REG_FRF_MSB = 0x25
        /\ reg (spi w1) RFM95.REG_FRF_MID = 0x80
        /\ reg (spi w1) RFM95.REG_FRF_LSB = 0x00).
Proof.
  split; [simpl; lia|].
  split; [reflexivity|]. split; [reflexivity|]. split; [reflexivity|].
  split; [reflexivity|].
  eexists. split; [vm_compute; reflexivity|]. repeat split; reflexivity.
Qed.

(** ** Reception *)

Section ReceiveFacts.
Context {T : Type} `{SPIInterface T}.
Import RFM95.

Lemma read_fifo_length (n : nat) :
  forall (data : list Z) (w : world T),
  length (fst (read_fifo n data w)) = (length data + n)%nat.
Proof.
  induction n as [|n IH]; intros data w; simpl.
  - unfold ret. simpl. lia.
  - rewrite bind_eq, IH, length_app. simpl. lia.
Qed.

(** The three ways a round of the wait loop can go on from the flags it
    polled. *)
Lemma receive_wait_crc_error (fuel : nat) (timeout : float) (invert_iq : bool)
    (start_time : Z) (w : world T) :
  tst (fst (readRegister REG_IRQ_FLAGS w)) IRQ_RX_DONE_MASK = true ->
  tst (fst (readRegister REG_IRQ_FLAGS w)) IRQ_PAYLOAD_CRC_ERROR_MASK = true ->
  receive_wait (S fuel) timeout invert_iq start_time w
  = receive_wait fuel timeout invert_iq start_time
      (snd (writeRegister REG_IRQ_FLAGS 0xFF (snd (readRegister REG_IRQ_FLAGS w)))).
Proof.
  intros Hdone Hcrc. cbn [receive_wait].
  destruct (readRegister REG_IRQ_FLAGS w) as [flags w1]. cbn [fst snd] in *.
  assert (Hnz : (flags =? 0) = false).
  { destruct (Z.eqb_spec flags 0) as [->|]; [discriminate Hdone | reflexivity]. }
  rewrite Hnz, Hdone, Hcrc. simpl.
  destruct (writeRegister REG_IRQ_FLAGS 255 w1). reflexivity.
Qed.

Lemma receive_wait_no_packet (fuel : nat) (timeout : float) (invert_iq : bool)
    (start_time : Z) (w : world T) :
  tst (fst (readRegister REG_IRQ_FLAGS w)) IRQ_RX_DONE_MASK = false ->
  receive_wait (S fuel) timeout invert_iq start_time w
  = rx_check_timeout (receive_wait fuel timeout invert_iq start_time)
      timeout invert_iq start_time (snd (readRegister REG_IRQ_FLAGS w)).
Proof.
  intros Hdone. cbn [receive_wait].
  destruct (readRegister REG_IRQ_FLAGS w) as [flags w1]. cbn [fst snd] in *.
  rewrite Hdone, andb_false_r. reflexivity.
Qed.

Lemma receive_wait_clean (fuel : nat) (timeout : float) (invert_iq : bool)
    (start_time : Z) (w : world T) :
  tst (fst (readRegister REG_IRQ_FLAGS w)) IRQ_RX_DONE_MASK = true ->
  tst (fst (readRegister REG_IRQ_FLAGS w)) IRQ_PAYLOAD_CRC_ERROR_MASK = false ->
  let w1 := snd (readRegister REG_IRQ_FLAGS w) in
  let length := fst (readRegister REG_RX_NB_BYTES w1) in
  let w2 := snd (readRegister REG_RX_NB_BYTES w1) in
  receive_wait (S fuel) timeout invert_iq start_time w
  = if 0 <? length then
      Some (bind (readRegister REG_FIFO_RX_CURRENT_ADDR) (fun current_addr =>
            bind (writeRegister REG_FIFO_ADDR_PTR current_addr) (fun _ =>
            bind (read_fifo (Z.to_nat length) []) (fun data =>
            bind (writeRegister REG_IRQ_FLAGS 0xFF) (fun _ =>
            bind (if invert_iq then setInvertIQ false else ret tt) (fun _ =>
            ret (ReturnData data)))))) w2)
    else rx_check_timeout (receive_wait fuel timeout invert_iq start_time)
           timeout invert_iq start_time w2.
Proof.
  intros Hdone Hcrc. cbn [receive_wait].
  destruct (readRegister REG_IRQ_FLAGS w) as [flags w1]. cbn [fst snd] in *.
  assert (Hnz : (flags =? 0) = false).
  { destruct (Z.eqb_spec flags 0) as [->|]; [discriminate Hdone | reflexivity]. }
  rewrite Hnz, Hdone, Hcrc. simpl negb. cbn [andb].
  destruct (readRegister REG_RX_NB_BYTES w1) as [n w2]. reflexivity.
Qed.

(** A packet that the wait loop returns has between 1 and 255 bytes. *)
Lemma receive_wait_data (timeout : float) (invert_iq : bool) (start_time : Z) (fuel : nat) :
  forall (w : world T) (data : list Z) (w' : world T),
  receive_wait fuel timeout invert_iq start_time w = Some (ReturnData data, w') ->
  (0 < length data <= 255)%nat.
Proof.
  induction fuel as [|fuel IH]; intros w data w' Hrun; [discriminate|].
  assert (Hcheck : forall w2,
            rx_check_timeout (receive_wait fuel timeout invert_iq start_time)
              timeout invert_iq start_time w2 = Some (ReturnData data, w') ->
            (0 < length data <= 255)%nat).
  { intros w2 Hc. unfold rx_check_timeout, now in Hc.
    destruct (fgt _ _).
    - rewrite !bind_eq in Hc. unfold ret in Hc. discriminate.
    - unfold sleep_for, ret in Hc. eauto. }
  destruct (tst (fst (readRegister REG_IRQ_FLAGS w)) IRQ_RX_DONE_MASK) eqn:Hdone.
  - destruct (tst (fst (readRegister REG_IRQ_FLAGS w)) IRQ_PAYLOAD_CRC_ERROR_MASK) eqn:Hcrc.
    + rewrite receive_wait_crc_error in Hrun by assumption. eauto.
    + rewrite receive_wait_clean in Hrun by assumption.
      set (w1 := snd (readRegister REG_IRQ_FLAGS w)) in *.
      pose proof (readRegister_range REG_RX_NB_BYTES w1) as Hn.
      destruct (Z.ltb_spec 0 (fst (readRegister REG_RX_NB_BYTES w1))) as [Hpos|_]; [|eauto].
      rewrite !bind_eq in Hrun. unfold ret in Hrun.
      injection Hrun as Hdata _. rewrite <- Hdata, read_fifo_length. simpl. lia.
  - rewrite receive_wait_no_packet in Hrun by assumption. eauto.
Qed.

End ReceiveFacts.

Section MockFacts.
Import RFM95.

Lemma mock_read (a : Z) (w : world Mock) (r : list Z) (rest : list (list Z)) :
  script (spi w) = r :: rest ->
  fst (readRegister a w) = match r with r0 :: _ => u8 r0 | [] => 0 end
  /\ script (spi (snd (readRegister a w))) = rest
  /\ clock (snd (readRegister a w)) = clock w.
Proof.
  intros Hs. rewrite readRegister_eq. simpl. unfold mock_transfer. rewrite Hs.
  simpl. auto.
Qed.

Lemma consumes_ret {A} (x : A) : consumes 0 (ret x).
Proof. intros w. reflexivity. Qed.

Lemma consumes_bind {A B} (n m : nat) (c : M Mock A) (k : A -> M Mock B) :
  consumes n c -> (forall x, consumes m (k x)) -> consumes (n + m) (bind c k).
Proof.
  intros Hc Hk w. rewrite bind_eq, Hk, Hc, drop_drop. reflexivity.
Qed.

Lemma consumes_read (a : Z) : consumes 1 (readRegister a).
Proof.
  intros w. rewrite readRegister_eq. simpl. unfold mock_transfer.
  destruct (script (spi w)); reflexivity.
Qed.

Lemma consumes_write (a v : Z) : consumes 1 (writeRegister a v).
Proof.
  intros w. rewrite writeRegister_eq. simpl. unfold mock_transfer.
  destruct (script (spi w)); reflexivity.
Qed.

Lemma consumes_now : consumes 0 now.
Proof. intros w. reflexivity. Qed.

Lemma consumes_setInvertIQ (invert : bool) : consumes 2 (setInvertIQ invert).
Proof.
  unfold setInvertIQ. destruct invert;
    apply (consumes_bind 1 1); auto using consumes_write.
Qed.

Lemma consumes_receive_setup (invert_iq : bool) : consumes 10 (receive_setup invert_iq).
Proof.
  unfold receive_setup, setDIOMapping.
  apply (consumes_bind 2 8); [apply consumes_setInvertIQ | intros _].
  apply (consumes_bind 1 7); [apply consumes_write | intros _].
  apply (consumes_bind 6 1).
  { apply (consumes_bind 1 5); [apply consumes_read | intros ?].
    apply (consumes_bind 1 4); [apply consumes_write | intros _].
    apply (consumes_bind 1 3); [apply consumes_read | intros ?].
    apply (consumes_bind 1 2); [apply consumes_write | intros _].
    apply (consumes_bind 1 1); [apply consumes_write | intros _].
    apply consumes_write. }
  intros _. apply (consumes_bind 1 0); [apply consumes_write | intros _].
  apply consumes_now.
Qed.

Lemma reads_clock_last_receive_setup (invert_iq : bool) :
  reads_clock_last (receive_setup (T := Mock) invert_iq).
Proof.
  unfold receive_setup, setDIOMapping, setInvertIQ.
  destruct invert_iq;
    repeat first [ apply reads_clock_last_now
                 | apply reads_clock_last_bind; [frames | intros ?] ].
Qed.

(** The packet loop takes the bytes off the script one by one. *)
Lemma mock_read_fifo (pkt : list Z) (rest : list (list Z)) :
  Forall (fun b => 0 <= b < 256) pkt ->
  forall (data : list Z) (w : world Mock),
  script (spi w) = map (fun b => [b]) pkt ++ rest ->
  fst (read_fifo (length pkt) data w) = data ++ pkt
  /\ script (spi (snd (read_fifo (length pkt) data w))) = rest.
Proof.
  induction 1 as [|b pkt Hb Hpkt IH]; intros data w Hs; simpl.
  - unfold ret. simpl. rewrite app_nil_r. auto.
  - simpl in Hs. rewrite bind_eq.
    destruct (mock_read REG_FIFO w [b] _ Hs) as (Hv & Hrest & _).
    rewrite Hv, (u8_small b Hb).
    destruct (IH (data ++ [b]) _ Hrest) as [Hd Hr].
    rewrite Hd, Hr, <- app_assoc. auto.
Qed.

(** Polls that see no receive-done while the time is not up. *)
Lemma mock_quiet_polls_clock (timeout : float) (invert_iq : bool) (start_time : Z)
    (fuel : nat) (rest : list (list Z)) (quiet : list Z) :
  Forall (fun f => 0 <= f < 256 /\ tst f IRQ_RX_DONE_MASK = false) quiet ->
  forall w : world Mock,
  script (spi w) = map (fun f => [f]) quiet ++ rest ->
  (forall i : nat, (i < length quiet)%nat ->
     fgt (float_of_Z (elapsed_ms start_time (readings (clock w) (taken (clock w) + i))))
         (fmul 24 timeout (float_of_Z 1000)) = false) ->
  exists w' : world Mock,
    receive_wait (length quiet + fuel) timeout invert_iq start_time w
    = receive_wait fuel timeout invert_iq start_time w'
    /\ script (spi w') = rest
    /\ clock w' = {| readings := readings (clock w);
                     taken := (taken (clock w) + length quiet)%nat |}.
Proof.
  induction 1 as [|f quiet [Hf Hdone] Hquiet IH]; intros w Hs Htime.
  - exists w. simpl. rewrite Nat.add_0_r. destruct (clock w). auto.
  - simpl in Hs. destruct (mock_read REG_IRQ_FLAGS w [f] _ Hs) as (Hv & Hrest & Hclock).
    rewrite (u8_small f Hf) in Hv.
    change (length (f :: quiet) + fuel)%nat with (S (length quiet + fuel)).
    rewrite receive_wait_no_packet by (rewrite Hv; exact Hdone).
    unfold rx_check_timeout, now. rewrite Hclock.
    pose proof (Htime 0%nat ltac:(simpl; lia)) as H0. rewrite Nat.add_0_r in H0.
    rewrite H0. unfold sleep_for, ret.
    destruct (IH (World (spi (snd (readRegister REG_IRQ_FLAGS w)))
                        {| readings := readings (clock w); taken := S (taken (clock w)) |}))
      as (w' & Hrun & Hs' & Hc'); [exact Hrest| |].
    + intros i Hi. simpl. specialize (Htime (S i) ltac:(simpl; lia)).
      replace (taken (clock w) + S i)%nat with (S (taken (clock w) + i)) in Htime by lia.
      exact Htime.
    + exists w'. split; [exact Hrun|]. split; [exact Hs'|].
      rewrite Hc'. simpl. f_equal. lia.
Qed.

Lemma mock_quiet_polls (timeout : float) (invert_iq : bool) (start_time : Z)
    (fuel : nat) (rest : list (list Z)) (quiet : list Z) :
  Forall (fun f => 0 <= f < 256 /\ tst f IRQ_RX_DONE_MASK = false) quiet ->
  forall w : world Mock,
  script (spi w) = map (fun f => [f]) quiet ++ rest ->
  (forall i : nat, (i < length quiet)%nat ->
     fgt (float_of_Z (elapsed_ms start_time (readings (clock w) (taken (clock w) + i))))
         (fmul 24 timeout (float_of_Z 1000)) = false) ->
  exists w' : world Mock,
    receive_wait (length quiet + fuel) timeout invert_iq start_time w
    = receive_wait fuel timeout invert_iq start_time w'
    /\ script (spi w') = rest.
Proof.
  intros Hquiet w Hs Htime.
  destruct (mock_quiet_polls_clock timeout invert_iq start_time fuel rest quiet Hquiet w Hs Htime)
    as (w' & Hrun & Hs' & _).
  exists w'. auto.
Qed.

Lemma mock_write (a v : Z) (w : world Mock) :
  script (spi (snd (writeRegister a v w))) = drop 1 (script (spi w))
  /\ clock (snd (writeRegister a v w)) = clock w.
Proof. split; [apply consumes_write | apply writeRegister_clock]. Qed.

(** C2, as amended: [receive] returns the empty sequence exactly when it
    leaves through the timeout; every packet it returns has between 1 and
    255 bytes.  A clean receive-done whose byte count reads 0 returns
    nothing: the round ends with the time check like a round that saw no
    reception, so a packet of length zero shows in the result no
    differently from silence.  And when no poll sees receive-done,
    [receive] does return the empty sequence at the first time check
    that finds the timeout exceeded. *)
Theorem receive_empty_iff_timeout (timeout : float) (invert_iq : bool) :
  (forall (T : Type) (I : SPIInterface T)
          (fuel : nat) (w : world T) (r : rx_return) (w' : world T),
     receive_from fuel timeout invert_iq w = Some (r, w') ->
     receive fuel timeout invert_iq w = Some (returned r, w')
     /\ (returned r = [] <-> r = ReturnTimeout)
     /\ (forall data, r = ReturnData data -> (0 < length data <= 255)%nat))
  /\ (forall (T : Type) (I : SPIInterface T) (fuel : nat) (start_time : Z) (w : world T),
        tst (fst (readRegister REG_IRQ_FLAGS w)) IRQ_RX_DONE_MASK = true ->
        tst (fst (readRegister REG_IRQ_FLAGS w)) IRQ_PAYLOAD_CRC_ERROR_MASK = false ->
        fst (readRegister REG_RX_NB_BYTES (snd (readRegister REG_IRQ_FLAGS w))) = 0 ->
        receive_wait (S fuel) timeout invert_iq start_time w
        = rx_check_timeout (receive_wait fuel timeout invert_iq start_time)
            timeout invert_iq start_time
            (snd (readRegister REG_RX_NB_BYTES (snd (readRegister REG_IRQ_FLAGS w)))))
  /\ (forall (w : world Mock) (setup tail : list (list Z)) (quiet : list Z) (last : Z),
        length setup = 10%nat ->
        Forall (fun f => 0 <= f < 256 /\ tst f IRQ_RX_DONE_MASK = false) (quiet ++ [last]) ->
        script (spi w) = setup ++ map (fun f => [f]) (quiet ++ [last]) ++ tail ->
        (forall i : nat, (i < length quiet)%nat ->
           fgt (float_of_Z (elapsed_ms (readings (clock w) (taken (clock w)))
                                       (readings (clock w) (taken (clock w) + 1 + i))))
               (fmul 24 timeout (float_of_Z 1000)) = false) ->
        fgt (float_of_Z (elapsed_ms (readings (clock w) (taken (clock w)))
                                    (readings (clock w) (taken (clock w) + 1 + length quiet))))
            (fmul 24 timeout (float_of_Z 1000)) = true ->
        exists w' : world Mock,
          receive (length quiet + 1) timeout invert_iq w = Some ([], w')).
Proof.
  split; [|split].
  - intros T I fuel w r w' Hrun.
    assert (Hdata : forall data, r = ReturnData data -> (0 < length data <= 255)%nat).
    { intros data ->. unfold receive_from in Hrun.
      destruct (receive_setup invert_iq w) as [start_time w1].
      eapply receive_wait_data. exact Hrun. }
    split; [unfold receive; rewrite Hrun; reflexivity|].
    split; [|exact Hdata].
    destruct r as [data|]; simpl.
    + specialize (Hdata data eq_refl).
      split; [intros ->; simpl in Hdata; lia | discriminate].
    + split; reflexivity.
  - intros T I fuel start_time w Hdone Hcrc Hzero.
    rewrite receive_wait_clean by assumption. rewrite Hzero. reflexivity.
  - intros w setup tail quiet last Hsetup Hflags Hscript Htime Hlate.
    apply Forall_app in Hflags. destruct Hflags as [Hquiet Hlast].
    apply Forall_inv in Hlast. destruct Hlast as [Hl Hldone].
    unfold receive, receive_from.
    pose proof (consumes_receive_setup invert_iq w) as Hs1.
    destruct (reads_clock_last_receive_setup invert_iq w) as [Hstart Htick].
    destruct (receive_setup invert_iq w) as [start_time w1].
    cbn [fst snd] in Hs1, Hstart, Htick.
    rewrite Hscript, <- Hsetup, drop_app_length, map_app, <- app_assoc in Hs1.
    destruct (mock_quiet_polls_clock timeout invert_iq start_time 1 _ quiet Hquiet w1 Hs1)
      as (w2 & Hrun & Hs2 & Hc2).
    { intros i Hi. rewrite Htick, Hstart. simpl.
      specialize (Htime i Hi).
      replace (taken (clock w) + 1 + i)%nat with (S (taken (clock w) + i)) in Htime by lia.
      exact Htime. }
    rewrite Hrun. simpl in Hs2.
    destruct (mock_read REG_IRQ_FLAGS w2 [last] _ Hs2) as (Hv & _ & Hc3).
    rewrite (u8_small last Hl) in Hv.
    rewrite receive_wait_no_packet by (rewrite Hv; exact Hldone).
    unfold rx_check_timeout, now. rewrite Hc3, Hc2, Htick, Hstart. simpl.
    replace (taken (clock w) + 1 + length quiet)%nat
      with (S (taken (clock w) + length quiet)) in Hlate by lia.
    rewrite Hlate. rewrite !bind_eq. unfold ret. simpl.
    eexists. reflexivity.
Qed.

(** C8: a poll that sees receive-done together with the CRC error flag
    writes [0xFF] to the IRQ flags register and goes on to the next poll,
    without a return and without a time check.  So when the chip reports
    a garbled reception first and, after any number of polls without
    receive-done that are in time, a clean reception of a packet of 1 to
    255 bytes, [receive] returns that packet. *)
Theorem receive_skips_crc_error_and_returns_clean_packet
    (timeout : float) (invert_iq : bool) :
  (forall (T : Type) (I : SPIInterface T) (fuel : nat) (start_time : Z) (w : world T),
     tst (fst (readRegister REG_IRQ_FLAGS w)) IRQ_RX_DONE_MASK = true ->
     tst (fst (readRegister REG_IRQ_FLAGS w)) IRQ_PAYLOAD_CRC_ERROR_MASK = true ->
     receive_wait (S fuel) timeout invert_iq start_time w
     = receive_wait fuel timeout invert_iq start_time
         (snd (writeRegister REG_IRQ_FLAGS 0xFF (snd (readRegister REG_IRQ_FLAGS w)))))
  /\ (forall (w : world Mock) (setup tail : list (list Z))
            (garbled clean addr : Z) (quiet pkt : list Z),
        length setup = 10%nat ->
        0 <= garbled < 256 ->
        tst garbled IRQ_RX_DONE_MASK = true ->
        tst garbled IRQ_PAYLOAD_CRC_ERROR_MASK = true ->
        Forall (fun f => 0 <= f < 256 /\ tst f IRQ_RX_DONE_MASK = false) quiet ->
        (forall i : nat, (i < length quiet)%nat ->
           fgt (float_of_Z (elapsed_ms (readings (clock w) (taken (clock w)))
                                       (readings (clock w) (taken (clock w) + 1 + i))))
               (fmul 24 timeout (float_of_Z 1000)) = false) ->
        0 <= clean < 256 ->
        tst clean IRQ_RX_DONE_MASK = true ->
        tst clean IRQ_PAYLOAD_CRC_ERROR_MASK = false ->
        pkt <> [] -> (length pkt <= 255)%nat -> Forall (fun b => 0 <= b < 256) pkt ->
        script (spi w) =
          setup ++ [[garbled]; []] ++ map (fun f => [f]) quiet
          ++ [[clean]; [Z.of_nat (length pkt)]; [addr]; []]
          ++ map (fun b => [b]) pkt ++ tail ->
        exists w' : world Mock,
          receive (length quiet + 2) timeout invert_iq w = Some (pkt, w')).
Proof.
  split.
  { intros T I fuel start_time w. apply receive_wait_crc_error. }
  intros w setup tail garbled clean addr quiet pkt
         Hsetup Hg Hgdone Hgcrc Hquiet Htime Hc Hcdone Hccrc Hne Hlen Hbytes Hscript.
  unfold receive, receive_from.
  pose proof (consumes_receive_setup invert_iq w) as Hs1.
  destruct (reads_clock_last_receive_setup invert_iq w) as [Hstart Htick].
  destruct (receive_setup invert_iq w) as [start_time w1]. cbn [fst snd] in Hs1, Hstart, Htick.
  rewrite Hscript, <- Hsetup, drop_app_length in Hs1.
  replace (length quiet + 2)%nat with (S (length quiet + 1)) by lia.
  (* the garbled reception *)
  destruct (mock_read REG_IRQ_FLAGS w1 [garbled] _ Hs1) as (Hv1 & Hs2 & Hc2).
  rewrite (u8_small garbled Hg) in Hv1.
  rewrite receive_wait_crc_error by (rewrite Hv1; assumption).
  destruct (mock_write REG_IRQ_FLAGS 255 (snd (readRegister REG_IRQ_FLAGS w1))) as [Hs3 Hc3].
  rewrite Hs2 in Hs3. simpl in Hs3. rewrite Hc2 in Hc3.
  set (w3 := snd (writeRegister REG_IRQ_FLAGS 255 (snd (readRegister REG_IRQ_FLAGS w1)))) in *.
  (* the polls in between *)
  destruct (mock_quiet_polls timeout invert_iq start_time 1 _ quiet Hquiet w3 Hs3)
    as (w4 & Hrun & Hs4).
  { intros i Hi. rewrite Hc3, Htick, Hstart. simpl.
    specialize (Htime i Hi).
    replace (taken (clock w) + 1 + i)%nat with (S (taken (clock w) + i)) in Htime by lia.
    exact Htime. }
  rewrite Hrun.
  (* the clean reception *)
  destruct (mock_read REG_IRQ_FLAGS w4 [clean] _ Hs4) as (Hv4 & Hs5 & _).
  rewrite (u8_small clean Hc) in Hv4.
  rewrite receive_wait_clean by (rewrite Hv4; assumption).
  set (w5 := snd (readRegister REG_IRQ_FLAGS w4)) in *.
  destruct (mock_read REG_RX_NB_BYTES w5 [Z.of_nat (length pkt)] _ Hs5) as (Hv5 & Hs6 & _).
  rewrite (u8_small (Z.of_nat (length pkt)) ltac:(lia)) in Hv5.
  rewrite Hv5.
  destruct (Z.ltb_spec 0 (Z.of_nat (length pkt))) as [_|Hz];
    [|destruct pkt; [contradiction | simpl in Hz; lia]].
  set (w6 := snd (readRegister REG_RX_NB_BYTES w5)) in *.
  rewrite Nat2Z.id.
  destruct (mock_read REG_FIFO_RX_CURRENT_ADDR w6 [addr] _ Hs6) as (_ & Hs7 & _).
  set (w7 := snd (readRegister REG_FIFO_RX_CURRENT_ADDR w6)) in *.
  destruct (mock_write REG_FIFO_ADDR_PTR (fst (readRegister REG_FIFO_RX_CURRENT_ADDR w6)) w7)
    as [Hs8 _].
  rewrite Hs7 in Hs8. simpl in Hs8.
  destruct (mock_read_fifo pkt tail Hbytes [] _ Hs8) as [Hdata _].
  rewrite !bind_eq. fold w7. rewrite Hdata. unfold ret. simpl.
  eexists. reflexivity.
Qed.

End MockFacts.

Lemma receive_empty_iff_timeout_witness :
  exists w' : world Mock,
    RFM95.receive 2 Fixtures.tenth false Fixtures.empty_packet_on_air = Some ([], w').
Proof.
  eexists.
  refine (proj1 (proj1 (receive_empty_iff_timeout Fixtures.tenth false)
                   Mock _ 2%nat Fixtures.empty_packet_on_air RFM95.ReturnTimeout _ _)).
  vm_compute. reflexivity.
Defined.

Lemma receive_skips_crc_error_and_returns_clean_packet_witness :
  exists w' : world Mock,
    RFM95.receive 3 (FFin 5 0) true Fixtures.garbled_then_clean
    = Some ([0xCA; 0xFE; 0x01], w').
Proof.
  apply (proj2 (receive_skips_crc_error_and_returns_clean_packet (FFin 5 0) true)
           Fixtures.garbled_then_clean Fixtures.rx_setup_replies []
           0x60 0x40 0x10 [0x10] [0xCA; 0xFE; 0x01]).
  - reflexivity.
  - lia.
  - reflexivity.
  - reflexivity.
  - repeat constructor; lia.
  - intros [|i] Hi; [vm_compute; reflexivity | simpl in Hi; lia].
  - lia.
  - reflexivity.
  - reflexivity.
  - discriminate.
  - simpl. lia.
  - repeat constructor; lia.
  - reflexivity.
Defined.

(** C2, the claim as stated fails: with a timeout of 0.1 s, [receive]
    returns the empty sequence both when no reception is ever signalled
    and when a clean reception with a byte count of 0 was signalled at the
    first poll.  The caller gets the same result in both cases. *)
Lemma receive_timeout_same_as_empty_packet :
  (exists wa : world Mock,
     RFM95.receive 2 Fixtures.tenth false Fixtures.silent_air = Some ([], wa))
  /\ (exists wb : world Mock,
        RFM95.receive 2 Fixtures.tenth false Fixtures.empty_packet_on_air = Some ([], wb))
  /\ (let w1 := snd (RFM95.receive_setup false Fixtures.silent_air) in
      fst (RFM95.readRegister RFM95.REG_IRQ_FLAGS w1) = 0)
  /\ (let w1 := snd (RFM95.receive_setup false Fixtures.empty_packet_on_air) in
      let w2 := snd (RFM95.readRegister RFM95.REG_IRQ_FLAGS w1) in
      fst (RFM95.readRegister RFM95.REG_IRQ_FLAGS w1) = RFM95.IRQ_RX_DONE_MASK
      /\ fst (RFM95.readRegister RFM95.REG_RX_NB_BYTES w2) = 0)
  /\ option_map fst (RFM95.receive 2 Fixtures.tenth false Fixtures.silent_air)
     = option_map fst (RFM95.receive 2 Fixtures.tenth false Fixtures.empty_packet_on_air).
Proof.
  split; [eexists; vm_compute; reflexivity|].
  split; [eexists; vm_compute; reflexivity|].
  vm_compute. repeat split; reflexivity.
Qed.

(** * Further properties of the bridge transport *)

Section BridgeMore.
Import CH341Config CH341SPI.

(** [swapBits] reverses the eight bits of a byte and undoes itself. *)
(** X1: [swapBits] maps a byte to a byte with its eight bits in reverse
    order, and applying it twice gives the byte back. *)
Theorem swapBits_reverses (b : Z) :
  0 <= b < 256 ->
  0 <= swapBits b < 256
  /\ swapBits (swapBits b) = b
  /\ (forall i, 0 <= i < 8 -> Z.testbit (swapBits b) i = Z.testbit b (7 - i)).
Proof.
  intros Hb.
  pose proof (forall_below2
    (fun b i => (0 <=? swapBits b) && (swapBits b <? 256) && (swapBits (swapBits b) =? b)
                && Bool.eqb (Z.testbit (swapBits b) i) (Z.testbit b (7 - i)))
    256 8 eq_refl b) as Hall.
  pose proof (Hall 0 Hb ltac:(lia)) as H0. simpl in H0.
  rewrite !andb_true_iff in H0. destruct H0 as [[[H1 H2] H3] _].
  split; [lia|]. split; [apply Z.eqb_eq; exact H3|].
  intros i Hi. specialize (Hall i Hb Hi). simpl in Hall.
  rewrite !andb_true_iff in Hall. destruct Hall as [_ H4].
  apply eqb_prop. exact H4.
Qed.

Lemma bulk_pop (ep : Z) (data : list Z) (s : state) (r : bulk_reply) (rs : list bulk_reply) :
  replies (usb s) = r :: rs ->
  bulk ep data s = (r, set_usb (with_bulk (usb s) rs (wire (usb s) ++ [(ep, data)])) s).
Proof.
  intros Hr. unfold bulk, libusb_bulk_transfer. rewrite Hr. reflexivity.
Qed.

Ltac pop H :=
  erewrite bulk_pop by (first [exact H | simpl; reflexivity]).

Lemma set_usb_wire (s : state) (rs : list bulk_reply) (a b : list (Z * list Z)) :
  set_usb (with_bulk (usb s) rs ((wire (usb s) ++ a) ++ b)) s
  = set_usb (with_bulk (usb s) rs (wire (usb s) ++ a ++ b)) s.
Proof. rewrite <- app_assoc. reflexivity. Qed.

(** The byte put on the wire for [b], and the byte handed back for a
    delivered [b]. *)
Lemma write_phase_ok (write_data : list Z) :
  forall (wr : list (bulk_reply * bulk_reply)) (s : state) (rest : list bulk_reply),
  length wr = length write_data ->
  Forall (fun p => ret (fst p) = 0 /\ ret (snd p) = 0) wr ->
  replies (usb s) = flat_map (fun p => [fst p; snd p]) wr ++ rest ->
  write_phase write_data s
  = (true,
     set_usb (with_bulk (usb s) rest
                (wire (usb s)
                 ++ flat_map (fun b => [(BULK_WRITE_EP,
                                         [CMD_SPI_STREAM; if lsb_first s then swapBits b else b]);
                                        (BULK_READ_EP, [])]) write_data)) s).
Proof.
  induction write_data as [|b write_data IH]; intros wr s rest Hlen Hok Hrep.
  - destruct wr; [|discriminate]. simpl in *. rewrite app_nil_r.
    destruct s as [? ? ? ? ? ? ? ? ? h]. destruct h. simpl in *. subst. reflexivity.
  - destruct wr as [|[r1 r2] wr]; [discriminate|].
    apply Forall_cons in Hok. destruct Hok as [[H1 H2] Hok]. simpl in H1, H2.
    simpl in Hrep. cbn [write_phase].
    pop Hrep. rewrite H1. cbn [Z.eqb negb].
    pop Hrep. rewrite H2. cbn [Z.eqb negb].
    erewrite (IH wr _ rest ltac:(simpl in Hlen; lia) Hok) by (simpl; reflexivity).
    simpl. rewrite <- !app_assoc. reflexivity.
Qed.

Lemma read_phase_ok (rd : list (bulk_reply * bulk_reply)) :
  forall (result : list Z) (s : state) (rest : list bulk_reply),
  Forall (fun p => ret (fst p) = 0 /\ ret (snd p) = 0) rd ->
  replies (usb s) = flat_map (fun p => [fst p; snd p]) rd ++ rest ->
  read_phase (length rd) result s
  = (true,
     result ++ map (fun p => if lsb_first s then swapBits (u8 (rx (snd p))) else u8 (rx (snd p))) rd,
     set_usb (with_bulk (usb s) rest
                (wire (usb s)
                 ++ flat_map (fun _ => [(BULK_WRITE_EP, [CMD_SPI_STREAM; 0xFF]);
                                        (BULK_READ_EP, [])]) rd)) s).
Proof.
  induction rd as [|[r1 r2] rd IH]; intros result s rest Hok Hrep.
  - simpl in *. rewrite !app_nil_r.
    destruct s as [? ? ? ? ? ? ? ? ? h]. destruct h. simpl in *. subst. reflexivity.
  - apply Forall_cons in Hok. destruct Hok as [[H1 H2] Hok]. simpl in H1, H2.
    simpl in Hrep. cbn [read_phase length].
    pop Hrep. rewrite H1. cbn [Z.eqb negb].
    pop Hrep. rewrite H2. cbn [Z.eqb negb].
    erewrite (IH _ _ rest Hok) by (simpl; reflexivity).
    simpl. rewrite <- !app_assoc. reflexivity.
Qed.

(** X2: when every bulk transfer up to the closing chip-select command
    succeeds, [transfer] puts on the wire chip-select low, one SPI stream
    command per written byte and one with the dummy [0xFF] per requested
    byte, each followed by a one byte read, and chip-select high; it
    returns the bytes delivered for the dummy commands, as many as
    requested, and with LSB first both the written and the returned bytes
    are bit-reversed.  The result of the closing chip-select command is
    not looked at. *)
Theorem transfer_frames_exchange (write_data : list Z) (s : state)
    (c0 c1 : bulk_reply) (wr rd : list (bulk_reply * bulk_reply)) (rest : list bulk_reply) :
  device s <> None ->
  ret c0 = 0 ->
  length wr = length write_data ->
  Forall (fun p => ret (fst p) = 0 /\ ret (snd p) = 0) wr ->
  Forall (fun p => ret (fst p) = 0 /\ ret (snd p) = 0) rd ->
  replies (usb s)
  = c0 :: flat_map (fun p => [fst p; snd p]) wr
       ++ flat_map (fun p => [fst p; snd p]) rd ++ c1 :: rest ->
  let (result, s') := transfer write_data (length rd) s in
  result = map (fun p => if lsb_first s then swapBits (u8 (rx (snd p))) else u8 (rx (snd p))) rd
  /\ replies (usb s') = rest
  /\ wire (usb s')
     = wire (usb s)
       ++ [(BULK_WRITE_EP, [0xAB; 0xB6; 0x20])]
       ++ flat_map (fun b => [(BULK_WRITE_EP, [0xA8; if lsb_first s then swapBits b else b]);
                              (BULK_READ_EP, [])]) write_data
       ++ flat_map (fun _ => [(BULK_WRITE_EP, [0xA8; 0xFF]); (BULK_READ_EP, [])]) rd
       ++ [(BULK_WRITE_EP, [0xAB; 0xB7; 0x20])].
Proof.
  intros Hdev H0 Hlen Hwr Hrd Hrep. unfold transfer.
  destruct (device s) as [d|] eqn:Hd; [|congruence].
  pop Hrep. rewrite H0. cbn [Z.eqb negb].
  erewrite (write_phase_ok write_data wr _ _ Hlen Hwr) by (simpl; reflexivity). cbn [negb].
  erewrite (read_phase_ok rd [] _ _ Hrd) by (simpl; reflexivity). cbn [negb].
  pop Hrep.
  simpl. rewrite <- !app_assoc. auto.
Qed.


Lemma bulk_wire (ep : Z) (data : list Z) (s : state) :
  wire (usb (snd (bulk ep data s))) = wire (usb s) ++ [(ep, data)]
  /\ device (snd (bulk ep data s)) = device s
  /\ _gpio_output (snd (bulk ep data s)) = _gpio_output s
  /\ _gpio_direction (snd (bulk ep data s)) = _gpio_direction s.
Proof.
  unfold bulk, libusb_bulk_transfer. destruct (replies (usb s)); simpl; auto.
Qed.




Lemma u8_testbit (x i : Z) : 0 <= i < 8 -> Z.testbit (u8 x) i = Z.testbit x i.
Proof. intros Hi. unfold u8. change 256 with (2 ^ 8). apply Z.mod_pow2_bits_low. lia. Qed.

Lemma digitalWrite_cache (pin : Z) (value : bool) (s : state) :
  device s <> None ->
  let s' := snd (digitalWrite pin value s) in
  (forall i, 0 <= i < 8 ->
     Z.testbit (_gpio_output s') i
     = (if Z.testbit pin i then value else Z.testbit (_gpio_output s) i)
     /\ Z.testbit (_gpio_direction s') i
        = (Z.testbit (_gpio_direction s) i || Z.testbit pin i))
  /\ last (wire (usb s'))
     = Some (BULK_WRITE_EP,
             [0xAB; u8 (Z.lor 0x80 (_gpio_output s')); u8 (Z.lor 0x40 (_gpio_direction s')); 0x20])
  /\ device s' = device s.
Proof.
  intros Hdev s'. subst s'. unfold digitalWrite.
  destruct (device s) as [d|] eqn:Hd; [|congruence].
  match goal with |- context [bulk ?ep ?c ?s1] =>
    destruct (bulk_wire ep c s1) as (Hw & Hdv & Ho & Hdir); destruct (bulk ep c s1) as [r s2] end.
  cbn [snd] in *. simpl in Ho, Hdir, Hdv.
  split; [|split].
  - intros i Hi. rewrite Ho, Hdir. split.
    + destruct value; rewrite u8_testbit by exact Hi.
      * rewrite Z.lor_spec, u8_testbit by exact Hi.
        destruct (Z.testbit pin i); [apply orb_true_r | apply orb_false_r].
      * rewrite Z.land_spec, Z.lnot_spec, u8_testbit by lia.
        destruct (Z.testbit pin i); [apply andb_false_r | apply andb_true_r].
    + rewrite u8_testbit, Z.lor_spec, u8_testbit by exact Hi. reflexivity.
  - rewrite Hw, last_snoc, Ho, Hdir. reflexivity.
  - rewrite Hdv. exact Hd.
Qed.

(** X4: on an open session [digitalWrite] sets the bits of [pin] in the
    cached output byte to [value] and in the cached direction byte to
    output, leaves all other bits of both bytes as they were, and sends
    both bytes in one command; the cached bytes change in this way also
    when the bulk transfer fails. *)
Theorem digitalWrite_changes_only_its_pin (pin : Z) (value : bool) (s : state) :
  device s <> None ->
  let s' := snd (digitalWrite pin value s) in
  (forall i, 0 <= i < 8 ->
     Z.testbit (_gpio_output s') i
     = (if Z.testbit pin i then value else Z.testbit (_gpio_output s) i)
     /\ Z.testbit (_gpio_direction s') i
        = (Z.testbit (_gpio_direction s) i || Z.testbit pin i))
  /\ last (wire (usb s'))
     = Some (BULK_WRITE_EP,
             [0xAB; u8 (Z.lor 0x80 (_gpio_output s')); u8 (Z.lor 0x40 (_gpio_direction s')); 0x20]).
Proof.
  intros Hdev s'. destruct (digitalWrite_cache pin value s Hdev) as (Hbits & Hwire & _).
  split; assumption.
Qed.

(** X5: [digitalRead] turns the bits of [pin] in the cached direction
    byte to input and [pinMode] sets them to output exactly for mode
    [OUTPUT]; neither changes the cached output byte or the direction of
    other pins.  So reading a pin that was written before leaves it an
    input, with its output bit still cached. *)
Theorem digitalRead_and_pinMode_set_direction (pin : Z) (s : state) :
  device s <> None ->
  (let s' := snd (digitalRead pin s) in
   _gpio_output s' = _gpio_output s
   /\ forall i, 0 <= i < 8 ->
        Z.testbit (_gpio_direction s') i
        = (Z.testbit (_gpio_direction s) i && negb (Z.testbit pin i)))
  /\ (forall mode : Z,
        let s' := snd (pinMode pin mode s) in
        _gpio_output s' = _gpio_output s
        /\ forall i, 0 <= i < 8 ->
             Z.testbit (_gpio_direction s') i
             = (if Z.testbit pin i then u8 mode =? 1 else Z.testbit (_gpio_direction s) i))
  /\ (forall value : bool,
        let s' := snd (digitalRead pin (snd (digitalWrite pin value s))) in
        forall i, 0 <= i < 8 -> Z.testbit pin i = true ->
          Z.testbit (_gpio_direction s') i = false
          /\ Z.testbit (_gpio_output s') i = value).
Proof.
  intros Hdev.
  assert (Hread : forall s0 : state, device s0 <> None ->
            _gpio_output (snd (digitalRead pin s0)) = _gpio_output s0
            /\ forall i, 0 <= i < 8 ->
                 Z.testbit (_gpio_direction (snd (digitalRead pin s0))) i
                 = (Z.testbit (_gpio_direction s0) i && negb (Z.testbit pin i))).
  { intros s0 Hdev0. unfold digitalRead.
    destruct (device s0) as [d|]; [|congruence].
    set (s1 := set_gpio _ _ s0).
    assert (Hbits : forall i, 0 <= i < 8 ->
              Z.testbit (_gpio_direction s1) i
              = (Z.testbit (_gpio_direction s0) i && negb (Z.testbit pin i))).
    { intros i Hi. unfold s1. simpl.
      rewrite u8_testbit, Z.land_spec, Z.lnot_spec, u8_testbit by lia. reflexivity. }
    assert (Hout : _gpio_output s1 = _gpio_output s0) by reflexivity.
    clearbody s1.
    match goal with |- context [bulk ?ep ?c s1] =>
      destruct (bulk_wire ep c s1) as (_ & _ & Ho1 & Hd1); destruct (bulk ep c s1) as [r1 s2] end.
    cbn [snd] in Ho1, Hd1.
    destruct (negb (ret r1 =? 0)); cbn [snd];
      [split; [congruence | intros i Hi; rewrite Hd1; auto]|].
    match goal with |- context [bulk ?ep ?c s2] =>
      destruct (bulk_wire ep c s2) as (_ & _ & Ho2 & Hd2); destruct (bulk ep c s2) as [r2 s3] end.
    cbn [snd] in Ho2, Hd2.
    destruct (negb (ret r2 =? 0)); cbn [snd];
      [split; [congruence | intros i Hi; rewrite Hd2, Hd1; auto]|].
    match goal with |- context [bulk ?ep ?c s3] =>
      destruct (bulk_wire ep c s3) as (_ & _ & Ho3 & Hd3); destruct (bulk ep c s3) as [r3 s4] end.
    cbn [snd] in Ho3, Hd3.
    destruct (_ || _); cbn [snd];
      (split; [congruence | intros i Hi; rewrite Hd3, Hd2, Hd1; auto]). }
  split; [exact (Hread s Hdev)|]. split.
  - intros mode s'. subst s'. unfold pinMode.
    destruct (device s) as [d|]; [|congruence].
    match goal with |- context [bulk ?ep ?c ?s1] =>
      destruct (bulk_wire ep c s1) as (_ & _ & Ho & Hd); destruct (bulk ep c s1) as [r s2] end.
    cbn [snd] in *. simpl in Ho, Hd. split; [exact Ho|].
    intros i Hi. rewrite Hd. unfold OUTPUT.
    destruct (u8 mode =? 1); rewrite u8_testbit by exact Hi.
    + rewrite Z.lor_spec, u8_testbit by exact Hi.
      destruct (Z.testbit pin i); [apply orb_true_r | apply orb_false_r].
    + rewrite Z.land_spec, Z.lnot_spec, u8_testbit by lia.
      destruct (Z.testbit pin i); [apply andb_false_r | apply andb_true_r].
  - intros value s' i Hi Hpin. subst s'.
    destruct (digitalWrite_cache pin value s Hdev) as (Hbits & _ & Hdv).
    destruct (Hread (snd (digitalWrite pin value s)) ltac:(rewrite Hdv; exact Hdev))
      as [Hout Hdir].
    rewrite Hout, (Hdir i Hi), Hpin, andb_false_r.
    destruct (Hbits i Hi) as [Ho _]. rewrite Ho, Hpin. auto.
Qed.




Lemma enablePins_effect (enable : bool) (s : state) :
  device (snd (enablePins enable s)) = device s
  /\ (device s <> None ->
      wire (usb (snd (enablePins enable s)))
      = wire (usb s)
        ++ [(BULK_WRITE_EP, [0xAB; 0xB7; 0xB7; 0xB7; if enable then 0x7F else 0x40; 0x20])]).
Proof.
  unfold enablePins. destruct (device s) as [d|] eqn:Hd; [|split; [auto|congruence]].
  match goal with |- context [bulk ?ep ?c s] =>
    destruct (bulk_wire ep c s) as (Hw & Hdv & _); destruct (bulk ep c s) as [r s1] end.
  cbn [snd] in *.
  destruct (_ || _); cbn [snd]; (split; [congruence|]); intros _; rewrite Hw;
    destruct enable; reflexivity.
Qed.

Lemma close_device (s : state) : device (close s) = None.
Proof. unfold close. destruct (device s) eqn:Hd; [reflexivity | exact Hd]. Qed.


(** X7: after [close] there is no device handle; a second [close] does
    nothing, [transfer] returns the empty sequence and [digitalWrite]
    false without touching the session; closing an open session sends one
    command, which sets all pins to input. *)
Theorem close_releases_the_session (s : state) :
  device (close s) = None
  /\ close (close s) = close s
  /\ (forall (write_data : list Z) (read_length : nat),
        transfer write_data read_length (close s) = ([], close s))
  /\ (forall (pin : Z) (value : bool), digitalWrite pin value (close s) = (false, close s))
  /\ wire (usb (close s))
     = wire (usb s)
       ++ match device s with
          | Some _ => [(BULK_WRITE_EP, [0xAB; 0xB7; 0xB7; 0xB7; 0x40; 0x20])]
          | None => []
          end.
Proof.
  pose proof (close_device s) as Hd.
  split; [exact Hd|].
  split; [unfold close at 1; rewrite Hd; reflexivity|].
  split; [intros; apply transfer_without_device; exact Hd|].
  split; [intros; unfold digitalWrite; rewrite Hd; reflexivity|].
  unfold close. destruct (device s) as [d|] eqn:Hdev; [|rewrite app_nil_r; reflexivity].
  destruct (enablePins_effect false s) as [_ Hw]. simpl.
  apply Hw. congruence.
Qed.

End BridgeMore.

Lemma swapBits_reverses_witness :
  CH341SPI.swapBits (CH341SPI.swapBits 0x03) = 0x03.
Proof. exact (proj1 (proj2 (swapBits_reverses 0x03 ltac:(lia)))). Defined.

Lemma transfer_frames_exchange_witness :
  fst (CH341SPI.transfer [0x03] 1 Fixtures.lsb_bridge) = [0x01].
Proof.
  pose proof (transfer_frames_exchange [0x03] Fixtures.lsb_bridge
                (CH341SPI.bulk_sent 3) (CH341SPI.bulk_sent 3)
                [(CH341SPI.bulk_sent 2, CH341SPI.bulk_ok 0)]
                [(CH341SPI.bulk_sent 2, CH341SPI.bulk_ok 0x80)] []
                ltac:(vm_compute; discriminate) eq_refl eq_refl
                ltac:(repeat constructor) ltac:(repeat constructor)
                ltac:(vm_compute; reflexivity)) as Hx.
  simpl length in Hx.
  destruct (CH341SPI.transfer [0x03] 1 Fixtures.lsb_bridge) as [result s'].
  destruct Hx as [Hx _]. simpl. rewrite Hx. vm_compute. reflexivity.
Defined.


Lemma digitalWrite_changes_only_its_pin_witness :
  Z.testbit (CH341SPI._gpio_output
               (snd (CH341SPI.digitalWrite 0x01 true Fixtures.open_bridge))) 0 = true.
Proof.
  exact (proj1 (proj1 (digitalWrite_changes_only_its_pin 0x01 true Fixtures.open_bridge
                         ltac:(vm_compute; discriminate)) 0 ltac:(lia))).
Defined.

Lemma digitalRead_and_pinMode_set_direction_witness :
  Z.testbit (CH341SPI._gpio_direction
               (snd (CH341SPI.digitalRead 0x01
                       (snd (CH341SPI.digitalWrite 0x01 true Fixtures.open_bridge))))) 0 = false.
Proof.
  exact (proj1 (proj2 (proj2 (digitalRead_and_pinMode_set_direction 0x01 Fixtures.open_bridge
                                ltac:(vm_compute; discriminate)))
                 true 0 ltac:(lia) eq_refl)).
Defined.

Local Open Scope drv_scope.

(** * Further properties of the radio driver *)

(** Side conditions on register addresses, for all registers. *)
Ltac reg_all :=
  unfold RFM95.REG_FIFO, RFM95.REG_OP_MODE, RFM95.REG_FRF_MSB, RFM95.REG_FRF_MID,
    RFM95.REG_FRF_LSB, RFM95.REG_PA_CONFIG, RFM95.REG_LNA, RFM95.REG_FIFO_ADDR_PTR,
    RFM95.REG_FIFO_TX_BASE_ADDR, RFM95.REG_FIFO_RX_BASE_ADDR,
    RFM95.REG_FIFO_RX_CURRENT_ADDR, RFM95.REG_IRQ_FLAGS_MASK, RFM95.REG_IRQ_FLAGS,
    RFM95.REG_RX_NB_BYTES, RFM95.REG_PKT_SNR_VALUE, RFM95.REG_PKT_RSSI_VALUE,
    RFM95.REG_MODEM_CONFIG_1, RFM95.REG_MODEM_CONFIG_2, RFM95.REG_PREAMBLE_MSB,
    RFM95.REG_PREAMBLE_LSB, RFM95.REG_PAYLOAD_LENGTH, RFM95.REG_MODEM_CONFIG_3,
    RFM95.REG_DETECTION_OPTIMIZE, RFM95.REG_INVERTIQ, RFM95.REG_DETECTION_THRESHOLD,
    RFM95.REG_SYNC_WORD, RFM95.REG_INVERTIQ2, RFM95.REG_DIO_MAPPING_1,
    RFM95.REG_DIO_MAPPING_2, RFM95.REG_VERSION, RFM95.REG_PA_DAC in *;
  lia.

(** Running straight-line register code on a transport that keeps
    registers. *)
Ltac run_regs :=
  repeat first
    [ rewrite bind_eq
    | rewrite writeRegister_reg by reg_all
    | rewrite readRegister_reg
    | rewrite readRegister_back by (first [assumption | reg_all]) ].

Section ModemFacts.
Context {T : Type} `{RegisterStore T}.
Import RFM95.

Lemma sf_bits (x c : Z) :
  0 <= x < 256 -> 0 <= c < 16 ->
  let r := u8 (Z.lor (Z.land x 0x0F) (Z.land (Z.shiftl c 4) 0xF0)) in
  Z.land (Z.shiftr r 4) 0x0F = c /\ Z.land r 0x0F = Z.land x 0x0F.
Proof.
  intros Hx Hc.
  pose proof (forall_below2
    (fun x c => let r := u8 (Z.lor (Z.land x 0x0F) (Z.land (Z.shiftl c 4) 0xF0)) in
                (Z.land (Z.shiftr r 4) 0x0F =? c) && (Z.land r 0x0F =? Z.land x 0x0F))
    256 16 eq_refl x c Hx Hc) as Hb.
  simpl in Hb. apply andb_true_iff in Hb. rewrite !Z.eqb_eq in Hb. exact Hb.
Qed.

(** X8: [setSpreadingFactor] clamps the factor to 6..12, and
    [getSpreadingFactor] then reads the clamped factor back.  The low
    four bits of modem configuration 2 stay as they were, and the
    detection registers get the pair of values for factor 6 or the pair
    for all other factors. *)
Theorem spreading_factor_round_trip (sf : Z) (w : world T) :
  reads_back REG_MODEM_CONFIG_2 ->
  let c := Z.max 6 (Z.min sf 12) in
  let w' := snd (setSpreadingFactor sf w) in
  fst (getSpreadingFactor w') = c
  /\ Z.land (reg (spi w') REG_MODEM_CONFIG_2) 0x0F = Z.land (reg (spi w) REG_MODEM_CONFIG_2) 0x0F
  /\ reg (spi w') REG_DETECTION_OPTIMIZE = (if c =? 6 then 0xC5 else 0xC3)
  /\ reg (spi w') REG_DETECTION_THRESHOLD = (if c =? 6 then 0x0C else 0x0A).
Proof.
  intros Hback c w'.
  assert (Hc : 0 <= c < 16) by (unfold c; lia).
  assert (Hregs : forall a',
    reg (spi w') a'
    = if a' =? REG_MODEM_CONFIG_2
      then u8 (u8 (Z.lor (Z.land (u8 (reg (spi w) REG_MODEM_CONFIG_2)) 0x0F)
                         (Z.land (Z.shiftl c 4) 0xF0)))
      else if a' =? REG_DETECTION_THRESHOLD then (if c =? 6 then 0x0C else 0x0A)
      else if a' =? REG_DETECTION_OPTIMIZE then (if c =? 6 then 0xC5 else 0xC3)
      else reg (spi w) a').
  { intros a'. unfold w', setSpreadingFactor. fold c.
    destruct (c =? 6); run_regs; simpl; reflexivity. }
  pose proof (sf_bits (u8 (reg (spi w) REG_MODEM_CONFIG_2)) c (u8_range _) Hc) as [Hhi Hlo].
  split; [|split; [|split]].
  - unfold getSpreadingFactor. run_regs. unfold ret. simpl.
    rewrite Hregs, Z.eqb_refl, !u8_idem. exact Hhi.
  - rewrite Hregs, Z.eqb_refl, !u8_idem, Hlo. apply low_nibble_u8.
  - rewrite Hregs. reflexivity.
  - rewrite Hregs. reflexivity.
Qed.


Lemma land_u8 (r m : Z) : 0 <= m < 256 -> Z.land (u8 r) m = Z.land r m.
Proof.
  intros Hm. unfold u8. change 256 with (2 ^ 8).
  rewrite <- Z.land_ones by lia. rewrite <- Z.land_assoc. f_equal.
  rewrite Z.land_comm, Z.land_ones by lia. apply Z.mod_small. lia.
Qed.

Lemma bw_scan_range (bw_khz : float) : 0 <= bw_scan bw_khz 0 bws 9 <= 9.
Proof.
  destruct (bw_scan_first bw_khz bws 0 9 ltac:(lia) ltac:(simpl; lia))
    as [(j & b & Hj & _ & _ & Hres)|[_ Hres]]; rewrite Hres; [|lia].
  apply lookup_lt_Some in Hj. simpl in Hj. lia.
Qed.

Lemma cr_bits (x d : Z) :
  0 <= x < 256 -> 0 <= d < 4 ->
  let r := u8 (Z.lor (Z.land x 0xF1) (Z.shiftl (u8 (d + 5 - 4)) 1)) in
  u8 (Z.land (Z.shiftr r 1) 0x07) + 4 = d + 5
  /\ Z.land r 0xF1 = Z.land x 0xF1
  /\ Z.land (Z.shiftr r 4) 0x0F = Z.land (Z.shiftr x 4) 0x0F.
Proof.
  intros Hx Hd.
  pose proof (forall_below2
    (fun x d => let r := u8 (Z.lor (Z.land x 0xF1) (Z.shiftl (u8 (d + 5 - 4)) 1)) in
                (u8 (Z.land (Z.shiftr r 1) 0x07) + 4 =? d + 5)
                && (Z.land r 0xF1 =? Z.land x 0xF1)
                && (Z.land (Z.shiftr r 4) 0x0F =? Z.land (Z.shiftr x 4) 0x0F))
    256 4 eq_refl x d Hx Hd) as Hb.
  cbv beta zeta in Hb |- *. rewrite !andb_true_iff, !Z.eqb_eq in Hb. tauto.
Qed.

Lemma bw_keeps_cr_bits (x i : Z) :
  0 <= x < 256 -> 0 <= i < 10 ->
  let r := u8 (Z.lor (Z.land x 0x0F) (Z.shiftl i 4)) in
  u8 (Z.land (Z.shiftr r 1) 0x07) = u8 (Z.land (Z.shiftr x 1) 0x07)
  /\ u8 (Z.land (Z.shiftr r 4) 0x0F) = i.
Proof.
  intros Hx Hi.
  pose proof (forall_below2
    (fun x i => let r := u8 (Z.lor (Z.land x 0x0F) (Z.shiftl i 4)) in
                (u8 (Z.land (Z.shiftr r 1) 0x07) =? u8 (Z.land (Z.shiftr x 1) 0x07))
                && (u8 (Z.land (Z.shiftr r 4) 0x0F) =? i))
    256 10 eq_refl x i Hx Hi) as Hb.
  cbv beta zeta in Hb |- *. rewrite !andb_true_iff, !Z.eqb_eq in Hb. tauto.
Qed.

Lemma setCodingRate_regs (denominator : Z) (w : world T) (a' : Z) :
  reads_back REG_MODEM_CONFIG_1 ->
  reg (spi (snd (setCodingRate denominator w))) a'
  = if a' =? REG_MODEM_CONFIG_1
    then u8 (u8 (Z.lor (Z.land (u8 (reg (spi w) REG_MODEM_CONFIG_1)) 0xF1)
                       (Z.shiftl (u8 (Z.max 5 (Z.min denominator 8) - 4)) 1)))
    else reg (spi w) a'.
Proof. intros Hback. unfold setCodingRate. run_regs. reflexivity. Qed.

Lemma setBandwidth_regs (bw_khz : float) (w : world T) (a' : Z) :
  reads_back REG_MODEM_CONFIG_1 ->
  reg (spi (snd (setBandwidth bw_khz w))) a'
  = if a' =? REG_MODEM_CONFIG_1
    then u8 (u8 (Z.lor (Z.land (u8 (reg (spi w) REG_MODEM_CONFIG_1)) 0x0F)
                       (Z.shiftl (bw_scan bw_khz 0 bws 9) 4)))
    else reg (spi w) a'.
Proof. intros Hback. unfold setBandwidth. run_regs. reflexivity. Qed.

Lemma getCodingRate_eq (w : world T) :
  reads_back REG_MODEM_CONFIG_1 ->
  fst (getCodingRate w)
  = u8 (Z.land (Z.shiftr (u8 (reg (spi w) REG_MODEM_CONFIG_1)) 1) 0x07) + 4.
Proof. intros Hback. unfold getCodingRate. run_regs. reflexivity. Qed.

Lemma getBandwidth_eq (w : world T) :
  reads_back REG_MODEM_CONFIG_1 ->
  fst (getBandwidth w)
  = let v := u8 (Z.land (Z.shiftr (u8 (reg (spi w) REG_MODEM_CONFIG_1)) 4) 0x0F) in
    nth (Z.to_nat (if v <? 10 then v else 9)) bws FNaN.
Proof. intros Hback. unfold getBandwidth. run_regs. reflexivity. Qed.

(** X9: [setCodingRate] clamps the denominator to 5..8, and
    [getCodingRate] then reads the clamped denominator back.  Only bits
    1..3 of modem configuration 1 change, so the bandwidth read by
    [getBandwidth] is the same as before; and [setBandwidth] in turn
    leaves the coding rate as it was. *)
Theorem coding_rate_round_trip (denominator : Z) (w : world T) :
  reads_back REG_MODEM_CONFIG_1 ->
  let c := Z.max 5 (Z.min denominator 8) in
  let w' := snd (setCodingRate denominator w) in
  fst (getCodingRate w') = c
  /\ Z.land (reg (spi w') REG_MODEM_CONFIG_1) 0xF1
     = Z.land (reg (spi w) REG_MODEM_CONFIG_1) 0xF1
  /\ fst (getBandwidth w') = fst (getBandwidth w)
  /\ (forall bw_khz : float,
        fst (getCodingRate (snd (setBandwidth bw_khz w))) = fst (getCodingRate w)).
Proof.
  intros Hback c w'.
  set (x := u8 (reg (spi w) REG_MODEM_CONFIG_1)).
  assert (Hx : 0 <= x < 256) by apply u8_range.
  destruct (cr_bits x (c - 5) Hx ltac:(unfold c; lia)) as (Hcr & Hrest & Hbw).
  replace (c - 5 + 5) with c in Hcr, Hrest, Hbw by lia.
  assert (Hreg : u8 (reg (spi w') REG_MODEM_CONFIG_1)
                 = u8 (Z.lor (Z.land x 0xF1) (Z.shiftl (u8 (c - 4)) 1))).
  { unfold w'. rewrite setCodingRate_regs by exact Hback.
    rewrite Z.eqb_refl, !u8_idem. reflexivity. }
  split; [|split; [|split]].
  - rewrite getCodingRate_eq by exact Hback. rewrite Hreg. exact Hcr.
  - rewrite <- (land_u8 (reg (spi w') _)) by lia. rewrite Hreg, Hrest.
    apply land_u8. lia.
  - rewrite !getBandwidth_eq by exact Hback. cbv zeta. rewrite Hreg, Hbw. reflexivity.
  - intros bw_khz. rewrite !getCodingRate_eq by exact Hback.
    rewrite setBandwidth_regs by exact Hback. rewrite Z.eqb_refl, !u8_idem.
    pose proof (bw_scan_range bw_khz) as Hi.
    destruct (bw_keeps_cr_bits x (bw_scan bw_khz 0 bws 9) Hx ltac:(lia)) as [Hkeep _].
    fold x. rewrite Hkeep. reflexivity.
Qed.

(** Every entry of the table is at or below the entries that follow it. *)
Lemma bws_sorted (j k : nat) (b b' : float) :
  (j <= k)%nat -> bws !! j = Some b -> bws !! k = Some b' -> fle b b' = true.
Proof.
  intros Hjk Hj Hk.
  assert (Hk10 : (k < 10)%nat) by (apply lookup_lt_Some in Hk; exact Hk).
  pose proof (forall_below2
    (fun j k => (k <? j) || fle (nth (Z.to_nat j) bws FNaN) (nth (Z.to_nat k) bws FNaN))
    10 10 eq_refl (Z.of_nat j) (Z.of_nat k) ltac:(lia) ltac:(lia)) as Hb.
  cbv beta in Hb. rewrite !Nat2Z.id in Hb.
  destruct (Z.ltb_spec (Z.of_nat k) (Z.of_nat j)); [lia|]. cbn [orb] in Hb.
  rewrite (nth_lookup_Some _ _ FNaN _ Hj), (nth_lookup_Some _ _ FNaN _ Hk) in Hb. exact Hb.
Qed.

(** X10: after [setBandwidth], [getBandwidth] yields an entry of the
    table of bandwidths: the smallest entry at or above the bandwidth
    asked for if there is one, and the largest entry, 500 kHz, if the
    bandwidth asked for is above all entries (or is not a number).
    Whatever modem configuration 1 holds, [getBandwidth] yields an entry
    of the table. *)
Theorem bandwidth_round_trip (bw_khz : float) (w : world T) :
  reads_back REG_MODEM_CONFIG_1 ->
  let b := fst (getBandwidth (snd (setBandwidth bw_khz w))) in
  In b bws
  /\ ((exists b' : float, In b' bws /\ fle bw_khz b' = true) ->
      fle bw_khz b = true
      /\ forall b' : float, In b' bws -> fle bw_khz b' = true -> fle b b' = true)
  /\ ((forall b' : float, In b' bws -> fle bw_khz b' = false) -> b = FFin (500 * 2 ^ 15) (-15))
  /\ (forall w0 : world T, In (fst (getBandwidth w0)) bws).
Proof.
  intros Hback b.
  assert (Htotal : forall w0 : world T, In (fst (getBandwidth w0)) bws).
  { intros w0. rewrite getBandwidth_eq by exact Hback. cbv zeta.
    set (v := u8 _). pose proof (u8_range (Z.land (Z.shiftr (u8 (reg (spi w0) REG_MODEM_CONFIG_1)) 4) 15)) as Hv.
    fold v in Hv. apply nth_In. simpl.
    destruct (Z.ltb_spec v 10); lia. }
  assert (Hb : b = nth (Z.to_nat (bw_scan bw_khz 0 bws 9)) bws FNaN).
  { unfold b. rewrite getBandwidth_eq by exact Hback. cbv zeta.
    rewrite setBandwidth_regs by exact Hback. rewrite Z.eqb_refl, !u8_idem.
    pose proof (bw_scan_range bw_khz) as Hi.
    destruct (bw_keeps_cr_bits (u8 (reg (spi w) REG_MODEM_CONFIG_1)) (bw_scan bw_khz 0 bws 9)
                (u8_range _) ltac:(lia)) as [_ Hidx].
    rewrite Hidx. destruct (Z.ltb_spec (bw_scan bw_khz 0 bws 9) 10); [reflexivity | lia]. }
  assert (Hinb : In b bws) by apply Htotal.
  clearbody b.
  split; [exact Hinb|]. split; [|split; [|exact Htotal]].
  - intros (b' & Hin & Hle).
    destruct (bw_scan_first bw_khz bws 0 9 ltac:(lia) ltac:(simpl; lia))
      as [(j & bj & Hj & Hlej & Hmin & Hres)|[Hnone _]].
    + rewrite Hres in Hb. replace (Z.to_nat (0 + Z.of_nat j)) with j in Hb by lia.
      rewrite (nth_lookup_Some _ _ FNaN _ Hj) in Hb. subst b.
      split; [exact Hlej|].
      intros b'' Hin'' Hle''. apply list_elem_of_In, list_elem_of_lookup in Hin''.
      destruct Hin'' as [k Hk].
      apply (bws_sorted j k); [|exact Hj|exact Hk].
      destruct (Nat.le_gt_cases j k) as [|Hlt]; [assumption|].
      rewrite (Hmin k b'' Hlt Hk) in Hle''. discriminate.
    + apply list_elem_of_In, list_elem_of_lookup in Hin. destruct Hin as [k Hk].
      rewrite (Hnone k b' Hk) in Hle. discriminate.
  - intros Hnone.
    destruct (bw_scan_first bw_khz bws 0 9 ltac:(lia) ltac:(simpl; lia))
      as [(j & bj & Hj & Hlej & _)|[_ Hres]].
    + rewrite (Hnone bj) in Hlej; [discriminate|].
      apply list_elem_of_In, list_elem_of_lookup. eauto.
    + rewrite Hb, Hres. reflexivity.
Qed.


(** X11: [getPreambleLength] after [setPreambleLength] yields the
    length reduced modulo 65536: the two registers hold its low 16 bits,
    also for a negative length or one above 65535. *)
Theorem preamble_length_round_trip (length : Z) (w : world T) :
  reads_back REG_PREAMBLE_MSB -> reads_back REG_PREAMBLE_LSB ->
  fst (getPreambleLength (snd (setPreambleLength length w))) = length mod 65536.
Proof.
  intros Hmsb Hlsb. unfold getPreambleLength, setPreambleLength. run_regs.
  unfold ret. simpl.
  change 255 with (Z.ones 8). rewrite !Z.land_ones, Z.shiftr_div_pow2 by lia.
  assert (Hm : 0 <= (length / 2 ^ 8) mod 2 ^ 8 < 256) by (apply Z.mod_pos_bound; lia).
  assert (Hl : 0 <= length mod 2 ^ 8 < 256) by (apply Z.mod_pos_bound; lia).
  rewrite !(u8_small _ Hm), !(u8_small _ Hl).
  unfold u16.
  rewrite (Z.mod_small ((length / 2 ^ 8) mod 2 ^ 8) 65536) by lia.
  rewrite (Z.mod_small (length mod 2 ^ 8) 65536) by lia.
  rewrite Z.shiftl_mul_pow2, lor_shift_add by lia.
  change 65536 with (2 ^ 8 * 2 ^ 8). rewrite Z.rem_mul_r by lia. lia.
Qed.

(** X12: [getInvertIQ] after [setInvertIQ] yields the mode that was
    set, and the two IQ registers hold the pair [0x66], [0x19] for
    inverted and [0x27], [0x1D] for normal operation. *)
Theorem invert_iq_round_trip (invert : bool) (w : world T) :
  reads_back REG_INVERTIQ ->
  fst (getInvertIQ (snd (setInvertIQ invert w))) = invert
  /\ reg (spi (snd (setInvertIQ invert w))) REG_INVERTIQ = (if invert then 0x66 else 0x27)
  /\ reg (spi (snd (setInvertIQ invert w))) REG_INVERTIQ2 = (if invert then 0x19 else 0x1D).
Proof.
  intros Hback. unfold getInvertIQ, setInvertIQ.
  destruct invert; run_regs; repeat split; reflexivity.
Qed.

Lemma agc_bits (x : Z) :
  0 <= x < 256 ->
  tst (u8 (u8 (Z.lor x 0x04))) 0x04 = true
  /\ tst (u8 (u8 (Z.land x (Z.lnot 0x04)))) 0x04 = false
  /\ Z.land (u8 (Z.lor x 0x04)) 0xFB = Z.land x 0xFB
  /\ Z.land (u8 (Z.land x (Z.lnot 0x04))) 0xFB = Z.land x 0xFB
  /\ Z.land (u8 (Z.lor x 0x03)) 0x03 = 3
  /\ Z.land (u8 (Z.land x 0xFC)) 0x03 = 0
  /\ Z.land (u8 (Z.lor x 0x03)) 0xFC = Z.land x 0xFC
  /\ Z.land (u8 (Z.land x 0xFC)) 0xFC = Z.land x 0xFC.
Proof.
  intros Hx.
  pose proof (forall_below
    (fun x => tst (u8 (u8 (Z.lor x 0x04))) 0x04
              && negb (tst (u8 (u8 (Z.land x (Z.lnot 0x04)))) 0x04)
              && (Z.land (u8 (Z.lor x 0x04)) 0xFB =? Z.land x 0xFB)
              && (Z.land (u8 (Z.land x (Z.lnot 0x04))) 0xFB =? Z.land x 0xFB)
              && (Z.land (u8 (Z.lor x 0x03)) 0x03 =? 3)
              && (Z.land (u8 (Z.land x 0xFC)) 0x03 =? 0)
              && (Z.land (u8 (Z.lor x 0x03)) 0xFC =? Z.land x 0xFC)
              && (Z.land (u8 (Z.land x 0xFC)) 0xFC =? Z.land x 0xFC))
    256 eq_refl x Hx) as Hb.
  cbv beta in Hb. rewrite !andb_true_iff, !Z.eqb_eq, negb_true_iff in Hb. tauto.
Qed.

(** X13: [setLNA] switches the automatic gain control on exactly when
    the gain is negative, and leaves the other bits of modem
    configuration 3 alone; in the LNA register it sets the two boost bits
    to 11 or 00 and leaves bits 2..7, the gain, as they were: the gain
    that is passed is not written.  [getAutoAGC] after [setAutoAGC]
    yields what was set. *)
Theorem setLNA_writes_boost_and_agc_only (lna_gain : Z) (lna_boost : bool) (w : world T) :
  reads_back REG_MODEM_CONFIG_3 -> reads_back REG_LNA ->
  let w' := snd (setLNA lna_gain lna_boost w) in
  fst (getAutoAGC w') = (lna_gain <? 0)
  /\ Z.land (reg (spi w') REG_MODEM_CONFIG_3) 0xFB = Z.land (reg (spi w) REG_MODEM_CONFIG_3) 0xFB
  /\ Z.land (reg (spi w') REG_LNA) 0x03 = (if lna_boost then 3 else 0)
  /\ Z.land (reg (spi w') REG_LNA) 0xFC = Z.land (reg (spi w) REG_LNA) 0xFC
  /\ (forall enable : bool, fst (getAutoAGC (snd (setAutoAGC enable w))) = enable).
Proof.
  intros Hagc Hlna w'.
  destruct (agc_bits (u8 (reg (spi w) REG_MODEM_CONFIG_3)) (u8_range _))
    as (A1 & A2 & A3 & A4 & _).
  destruct (agc_bits (u8 (reg (spi w) REG_LNA)) (u8_range _))
    as (_ & _ & _ & _ & L1 & L2 & L3 & L4).
  assert (Hset : forall (enable : bool) (a' : Z),
    reg (spi (snd (setAutoAGC enable w))) a'
    = if a' =? REG_MODEM_CONFIG_3
      then (if enable then u8 (Z.lor (u8 (reg (spi w) REG_MODEM_CONFIG_3)) 0x04)
            else u8 (Z.land (u8 (reg (spi w) REG_MODEM_CONFIG_3)) (Z.lnot 0x04)))
      else reg (spi w) a').
  { intros enable a'. unfold setAutoAGC. destruct enable; run_regs; reflexivity. }
  assert (Hget : forall w0 : world T,
    fst (getAutoAGC w0) = tst (u8 (reg (spi w0) REG_MODEM_CONFIG_3)) 0x04).
  { intros w0. unfold getAutoAGC. run_regs. reflexivity. }
  assert (Hregs : forall a',
    reg (spi w') a'
    = if a' =? REG_LNA
      then (if lna_boost then u8 (Z.lor (u8 (reg (spi w) REG_LNA)) 0x03)
            else u8 (Z.land (u8 (reg (spi w) REG_LNA)) 0xFC))
      else reg (spi (snd (setAutoAGC (negb (0 <=? lna_gain)) w))) a').
  { intros a'. unfold w', setLNA.
    destruct (0 <=? lna_gain), lna_boost; run_regs; rewrite ?Hset; simpl; reflexivity. }
  assert (Hneg : negb (0 <=? lna_gain) = (lna_gain <? 0)).
  { destruct (Z.leb_spec 0 lna_gain), (Z.ltb_spec lna_gain 0); simpl; lia || reflexivity. }
  split; [|split; [|split; [|split]]].
  - rewrite Hget, Hregs. simpl. rewrite Hset, Z.eqb_refl, Hneg.
    destruct (lna_gain <? 0); assumption.
  - rewrite Hregs. simpl. rewrite Hset, Z.eqb_refl.
    rewrite <- (land_u8 (reg (spi w) _) 0xFB) by lia.
    destruct (negb _); [rewrite A3 | rewrite A4]; reflexivity.
  - rewrite Hregs, Z.eqb_refl. destruct lna_boost; assumption.
  - rewrite Hregs, Z.eqb_refl.
    rewrite <- (land_u8 (reg (spi w) _) 0xFC) by lia.
    destruct lna_boost; assumption.
  - intros enable. rewrite Hget, Hset, Z.eqb_refl. destruct enable; assumption.
Qed.

(** X14: on a chip whose sync word register reads back,
    [testCommunication] yields true and leaves [0x42] in the sync word
    register: a sync word set before the test is lost. *)
Theorem testCommunication_overwrites_sync_word (w : world T) :
  reads_back REG_SYNC_WORD ->
  fst (testCommunication w) = true
  /\ reg (spi (snd (testCommunication w))) REG_SYNC_WORD = 0x42
  /\ forall sync_word : Z,
       fst (getSyncWord (snd (testCommunication (snd (setSyncWord sync_word w))))) = 0x42.
Proof.
  intros Hback. unfold testCommunication, getSyncWord, setSyncWord.
  run_regs. unfold ret. cbn [fst snd]. rewrite Z.eqb_refl.
  split; [reflexivity|]. split.
  - run_regs. rewrite Z.eqb_refl. reflexivity.
  - intros sync_word. run_regs. cbn [fst snd]. run_regs.
    rewrite !Z.eqb_refl. reflexivity.
Qed.



End ModemFacts.

Lemma spreading_factor_round_trip_witness :
  fst (RFM95.getSpreadingFactor
         (snd (RFM95.setSpreadingFactor 9 (Fixtures.chip_world [] 1000000)))) = 9.
Proof.
  refine (proj1 (spreading_factor_round_trip 9 (Fixtures.chip_world [] 1000000) _)).
  apply chip_reads_back; reg_all.
Defined.

Lemma coding_rate_round_trip_witness :
  fst (RFM95.getCodingRate
         (snd (RFM95.setCodingRate 7 (Fixtures.chip_world [] 1000000)))) = 7.
Proof.
  refine (proj1 (coding_rate_round_trip 7 (Fixtures.chip_world [] 1000000) _)).
  apply chip_reads_back; reg_all.
Defined.

Lemma bandwidth_round_trip_witness :
  In (fst (RFM95.getBandwidth
             (snd (RFM95.setBandwidth (FFin 125 0) (Fixtures.chip_world [] 1000000)))))
     RFM95.bws.
Proof.
  refine (proj1 (bandwidth_round_trip (FFin 125 0) (Fixtures.chip_world [] 1000000) _)).
  apply chip_reads_back; reg_all.
Defined.

Lemma preamble_length_round_trip_witness :
  fst (RFM95.getPreambleLength
         (snd (RFM95.setPreambleLength 70000 (Fixtures.chip_world [] 1000000)))) = 4464.
Proof.
  refine (preamble_length_round_trip 70000 (Fixtures.chip_world [] 1000000) _ _);
    apply chip_reads_back; reg_all.
Defined.

Lemma invert_iq_round_trip_witness :
  fst (RFM95.getInvertIQ
         (snd (RFM95.setInvertIQ true (Fixtures.chip_world [] 1000000)))) = true.
Proof.
  refine (proj1 (invert_iq_round_trip true (Fixtures.chip_world [] 1000000) _)).
  apply chip_reads_back; reg_all.
Defined.

Lemma setLNA_writes_boost_and_agc_only_witness :
  fst (RFM95.getAutoAGC
         (snd (RFM95.setLNA 3 true (Fixtures.chip_world [] 1000000)))) = false.
Proof.
  refine (proj1 (setLNA_writes_boost_and_agc_only 3 true (Fixtures.chip_world [] 1000000) _ _));
    apply chip_reads_back; reg_all.
Defined.

Lemma testCommunication_overwrites_sync_word_witness :
  fst (RFM95.getSyncWord
         (snd (RFM95.testCommunication
                 (snd (RFM95.setSyncWord 0x34 (Fixtures.chip_world [] 1000000)))))) = 0x42.
Proof.
  refine (proj2 (proj2 (testCommunication_overwrites_sync_word
                          (Fixtures.chip_world [] 1000000) _)) 0x34).
  apply chip_reads_back; reg_all.
Defined.


(** Comparisons of register addresses. *)
Ltac eval_eqb :=
  repeat match goal with
  | |- context [?a =? ?b] =>
      let r := eval vm_compute in (a =? b) in
      match r with
      | true => change (a =? b) with true
      | false => change (a =? b) with false
      end
  end;
  cbv iota.

(** [run_regs], with the payload loop and without the values that are
    written to registers the goal does not ask for. *)
Ltac run_regs' :=
  repeat first
    [ rewrite bind_eq
    | rewrite writeRegister_reg by reg_all
    | rewrite readRegister_reg
    | match goal with
      | |- context [reg (spi (snd (RFM95.write_fifo ?d ?w))) ?a] =>
          rewrite (keeps_write_fifo a d ltac:(reg_all) w)
      end
    | progress eval_eqb
    | progress (unfold ret; cbn [fst snd])
    | rewrite readRegister_back by (first [assumption | reg_all]) ].

Section ModeFacts.
Context {T : Type} `{RegisterStore T}.
Import RFM95.

Lemma dio_bits (x y : Z) :
  0 <= x < 256 -> 0 <= y < 256 ->
  let r := u8 (u8 (Z.lor (Z.land x 0x3F) (Z.land y 0xC0))) in
  Z.land r 0x3F = Z.land x 0x3F /\ Z.land r 0xC0 = Z.land y 0xC0
  /\ u8 (u8 (u8 (Z.land x 0x3F))) = Z.land x 0x3F
  /\ u8 (u8 (Z.lor (Z.land x 0x3F) 0)) = Z.land x 0x3F.
Proof.
  intros Hx Hy.
  pose proof (forall_below2
    (fun x y => let r := u8 (u8 (Z.lor (Z.land x 0x3F) (Z.land y 0xC0))) in
                (Z.land r 0x3F =? Z.land x 0x3F) && (Z.land r 0xC0 =? Z.land y 0xC0)
                && (u8 (u8 (u8 (Z.land x 0x3F))) =? Z.land x 0x3F)
                && (u8 (u8 (Z.lor (Z.land x 0x3F) 0)) =? Z.land x 0x3F))
    256 256 eq_refl x y Hx Hy) as Hb.
  cbv beta zeta in Hb |- *. rewrite !andb_true_iff, !Z.eqb_eq in Hb. tauto.
Qed.

(** X16: [setDIOMapping] replaces the two top bits of each of the two
    DIO mapping registers by the top bits of its arguments, keeps the low
    six bits of both registers, and unmasks all interrupts. *)
Theorem setDIOMapping_keeps_low_bits (_dio3 _dio4 : Z) (w : world T) :
  reads_back REG_DIO_MAPPING_1 -> reads_back REG_DIO_MAPPING_2 ->
  0 <= _dio3 < 256 -> 0 <= _dio4 < 256 ->
  let w' := snd (setDIOMapping _dio3 _dio4 w) in
  Z.land (reg (spi w') REG_DIO_MAPPING_1) 0x3F = Z.land (reg (spi w) REG_DIO_MAPPING_1) 0x3F
  /\ Z.land (reg (spi w') REG_DIO_MAPPING_1) 0xC0 = Z.land _dio3 0xC0
  /\ Z.land (reg (spi w') REG_DIO_MAPPING_2) 0x3F = Z.land (reg (spi w) REG_DIO_MAPPING_2) 0x3F
  /\ Z.land (reg (spi w') REG_DIO_MAPPING_2) 0xC0 = Z.land _dio4 0xC0
  /\ reg (spi w') REG_IRQ_FLAGS_MASK = 0.
Proof.
  intros H1 H2 H3 H4 w'.
  destruct (dio_bits (u8 (reg (spi w) REG_DIO_MAPPING_1)) _dio3 (u8_range _) H3)
    as (A1 & A2 & _).
  destruct (dio_bits (u8 (reg (spi w) REG_DIO_MAPPING_2)) _dio4 (u8_range _) H4)
    as (B1 & B2 & _).
  unfold w', setDIOMapping.
  repeat split; run_regs'; rewrite ?A1, ?A2, ?B1, ?B2; try reflexivity;
    apply land_u8; lia.
Qed.

(** X17: [setContinuousReceive] leaves [0x05] (continuous receive, LoRa
    bit clear) in the operating mode register, the FIFO pointer at the
    receive base address, and the two top bits of DIO mapping 1 cleared
    with the other six as they were. *)
Theorem setContinuousReceive_state (w : world T) :
  reads_back REG_OP_MODE -> reads_back REG_FIFO_RX_BASE_ADDR -> reads_back REG_DIO_MAPPING_1 ->
  let w' := snd (setContinuousReceive w) in
  reg (spi w') REG_OP_MODE = 0x05
  /\ reg (spi w') REG_FIFO_ADDR_PTR = u8 (reg (spi w) REG_FIFO_RX_BASE_ADDR)
  /\ reg (spi w') REG_DIO_MAPPING_1 = Z.land (u8 (reg (spi w) REG_DIO_MAPPING_1)) 0x3F.
Proof.
  intros H1 H2 H3 w'.
  destruct (dio_bits (u8 (reg (spi w) REG_DIO_MAPPING_1)) 0 (u8_range _) ltac:(lia))
    as (_ & _ & D1 & D2).
  unfold w', setContinuousReceive, standbyMode, clearIRQFlags, DIO0_RX_DONE.
  split; [|split]; run_regs'.
  - reflexivity.
  - apply u8_idem.
  - rewrite Z.lor_0_r, !u8_idem. rewrite !u8_idem in D1. exact D1.
Qed.

End ModeFacts.

Section BeaconFacts.
Context {T : Type} `{RegisterStore T}.
Import RFM95.

Lemma period_bytes (p : Z) :
  0 <= p < 65536 ->
  u8 (Z.land (Z.shiftr p 8) 0xFF) * 256 + u8 (Z.land p 0xFF) = p.
Proof.
  intros Hp. change 0xFF with (Z.ones 8).
  rewrite !Z.land_ones, Z.shiftr_div_pow2 by lia. change (2 ^ 8) with 256.
  unfold u8. rewrite !Z.mod_mod by lia.
  rewrite (Z.mod_small (p / 256) 256).
  - pose proof (Z.div_mod p 256 ltac:(lia)). lia.
  - split; [apply Z.div_pos; lia | apply Z.div_lt_upper_bound; lia].
Qed.

Lemma beacon_mode_bits (x : Z) :
  0 <= x < 256 ->
  u8 (u8 (Z.lor (Z.land (u8 (Z.lor (Z.land x 0x7F) 0x80)) 0xF8) 0x03))
  = Z.lor (Z.land x 0x78) 0x83.
Proof.
  intros Hx.
  exact (proj1 (Z.eqb_eq _ _)
    (forall_below
       (fun x => u8 (u8 (Z.lor (Z.land (u8 (Z.lor (Z.land x 0x7F) 0x80)) 0xF8) 0x03))
                 =? Z.lor (Z.land x 0x78) 0x83) 256 eq_refl x Hx)).
Qed.

(** X18: [setBeaconMode] with a payload of more than 255 bytes returns
    false and makes no transfer.  Otherwise it returns true; the two
    period registers hold the interval in whole seconds, cut toward
    zero and reduced modulo 65536; the payload length register holds the
    length of the payload; and the operating mode register holds its
    bits 3..6 as before, with the LoRa bit set and mode 3. *)
Theorem setBeaconMode_effect (interval_ms : Z) (payload : list Z) (w : world T) :
  reads_back REG_OP_MODE ->
  ((255 < length payload)%nat -> setBeaconMode interval_ms payload w = (false, w))
  /\ ((length payload <= 255)%nat ->
      let w' := snd (setBeaconMode interval_ms payload w) in
      fst (setBeaconMode interval_ms payload w) = true
      /\ reg (spi w') 0x24 * 256 + reg (spi w') 0x25 = Z.quot interval_ms 1000 mod 65536
      /\ reg (spi w') REG_PAYLOAD_LENGTH = Z.of_nat (length payload)
      /\ reg (spi w') REG_OP_MODE = Z.lor (Z.land (reg (spi w) REG_OP_MODE) 0x78) 0x83).
Proof.
  intros Hback. split.
  - intros Hlen. unfold setBeaconMode.
    destruct (Nat.ltb_spec 255 (length payload)); [reflexivity | lia].
  - intros Hlen w'. unfold w', setBeaconMode.
    destruct (Nat.ltb_spec 255 (length payload)) as [Hgt | _]; [lia|].
    unfold setDIOMapping. repeat split; run_regs'.
    + reflexivity.
    + apply period_bytes. unfold u16. apply Z.mod_pos_bound. lia.
    + unfold u8. apply Z.mod_small. lia.
    + rewrite beacon_mode_bits by apply u8_range.
      f_equal. apply land_u8. lia.
Qed.

End BeaconFacts.

Section SignalFacts.
Context {T : Type} `{SPIInterface T}.
Import RFM95.

Lemma float_of_small (z : Z) : Z.abs z < 2 ^ 24 -> float_of_Z z = FFin z 0.
Proof.
  intros Hz. unfold float_of_Z, round_to.
  destruct (Z.ltb_spec (Z.abs z) (2 ^ 24)); [reflexivity | lia].
Qed.

Lemma i8_range (z : Z) : -128 <= i8 z < 128.
Proof.
  unfold i8. pose proof (u8_range z). destruct (Z.ltb_spec (u8 z) 128); lia.
Qed.

(** X19: [getSNR] takes the byte read from the SNR register as a
    signed byte (128 and above count as the byte minus 256) and yields
    exactly a quarter of it; [getRSSI] yields the byte read from the
    RSSI register minus 137, exactly, a value from -137 to 118. *)
Theorem getSNR_getRSSI_decoding (w : world T) :
  let snr_raw := fst (readRegister REG_PKT_SNR_VALUE w) in
  let rssi_raw := fst (readRegister REG_PKT_RSSI_VALUE w) in
  let quarter_steps := if snr_raw <? 128 then snr_raw else snr_raw - 256 in
  (exists m e, fst (getSNR w) = FFin m e /\ (F2Q m e == quarter_steps # 4)%Q)
  /\ fst (getRSSI w) = FFin (rssi_raw - 137) 0
  /\ -137 <= rssi_raw - 137 <= 118.
Proof.
  intros snr_raw rssi_raw quarter_steps.
  pose proof (readRegister_range REG_PKT_SNR_VALUE w) as Hs.
  pose proof (readRegister_range REG_PKT_RSSI_VALUE w) as Hr.
  fold snr_raw in Hs. fold rssi_raw in Hr.
  split; [|split].
  - unfold getSNR. rewrite bind_eq. fold snr_raw. unfold ret. cbn [fst].
    pose proof (i8_range snr_raw) as Hi.
    rewrite float_of_small by (change (2 ^ 24) with 16777216; lia).
    unfold fmul, round_to.
    destruct (Z.ltb_spec (Z.abs (i8 snr_raw * 1)) (2 ^ 24)) as [_ | Hbig];
      [| change (2 ^ 24) with 16777216 in Hbig; lia].
    eexists _, _. split; [reflexivity|].
    unfold F2Q, i8, u8, quarter_steps.
    rewrite (Z.mod_small snr_raw 256) by lia.
    unfold Qeq. change (0 <=? 0 + -2) with false. cbv iota.
    change (Z.to_pos (2 ^ (- (0 + -2)))) with 4%positive. cbn [Qnum Qden].
    destruct (snr_raw <? 128); lia.
  - unfold getRSSI. rewrite bind_eq. fold rssi_raw. unfold ret. cbn [fst].
    rewrite float_of_small by (change (2 ^ 24) with 16777216; lia).
    f_equal. lia.
  - lia.
Qed.

End SignalFacts.

Section TemperatureFacts.
Context {T : Type} `{RegisterStore T}.
Import RFM95.

Lemma to_uint8_range (a : float) (t : Z) : to_uint8 a = Some t -> 0 <= t < 256.
Proof.
  destruct a as [| |m e]; try discriminate. unfold to_uint8.
  set (x := if 0 <=? e then _ else _).
  destruct (Z.leb_spec 0 x); destruct (Z.ltb_spec x (2 ^ 8)); try discriminate.
  intros [= <-]. change (2 ^ 8) with 256 in *. lia.
Qed.

Lemma calibrateTemperature_eq (a : float) (w : world T) :
  calibrateTemperature a w =
  match to_uint8 a with
  | None => None
  | Some cal_value =>
      Some (true,
            snd (writeRegister REG_OP_MODE (fst (readRegister REG_OP_MODE w))
                   (snd (writeRegister 0x3B cal_value
                           (snd (writeRegister REG_OP_MODE 0x00
                                   (snd (readRegister REG_OP_MODE w))))))))
  end.
Proof.
  unfold calibrateTemperature.
  rewrite (surjective_pairing (readRegister REG_OP_MODE w)).
  rewrite bind_eq. unfold sleep_for at 1. unfold ret at 1. cbn [fst snd].
  destruct (to_uint8 a); [|reflexivity].
  rewrite !bind_eq. unfold sleep_for, ret. cbn [fst snd]. reflexivity.
Qed.

(** X20: [calibrateTemperature] with a temperature that converts to a
    byte returns true and puts the operating mode register back to what
    it read at the start; a [readTemperature] that follows yields the
    content of register [0x3C] plus the temperature, cut to an integer,
    that was passed to the calibration, and again restores the operating
    mode.  (The conversion of a temperature below 0 or of 256 and above
    is undefined.) *)
Theorem calibrated_temperature_reading (actual_temp : float) (w : world T) :
  reads_back REG_OP_MODE -> reads_back 0x3B -> reads_back 0x3C ->
  match calibrateTemperature actual_temp w with
  | None => to_uint8 actual_temp = None
  | Some (ok, w1) =>
      ok = true
      /\ reg (spi w1) REG_OP_MODE = u8 (reg (spi w) REG_OP_MODE)
      /\ exists cal, to_uint8 actual_temp = Some cal
         /\ fst (readTemperature w1) = FFin (u8 (reg (spi w) 0x3C) + cal) 0
         /\ reg (spi (snd (readTemperature w1))) REG_OP_MODE = u8 (reg (spi w) REG_OP_MODE)
  end.
Proof.
  intros Hmode Hcal Hraw. rewrite calibrateTemperature_eq.
  destruct (to_uint8 actual_temp) as [cal|] eqn:Ecal; [|reflexivity].
  pose proof (to_uint8_range _ _ Ecal) as Hrange.
  split; [reflexivity|]. split.
  - run_regs'. apply u8_idem.
  - exists cal. split; [reflexivity|]. unfold readTemperature, sleep_for. split.
    + run_regs'. assert (Hc : u8 cal = cal) by (apply Z.mod_small; lia).
      rewrite !u8_idem, ?Hc.
      pose proof (u8_range (reg (spi w) 0x3C)).
      apply float_of_small. change (2 ^ 24) with 16777216. lia.
    + run_regs'. rewrite !u8_idem. reflexivity.
Qed.

End TemperatureFacts.

Section BeginFacts.
Context {T : Type} `{RegisterStore T}.
Import RFM95.

(** The world [begin] leaves when it reports success. *)
Lemma begin_world (w : world T) :
  fst (begin w) = true ->
  exists w0 : world T,
    snd (begin w) =
    snd ((writeRegister REG_OP_MODE 0x80;;
          sleep_for 10;;
          writeRegister REG_FIFO_TX_BASE_ADDR 0;;
          writeRegister REG_FIFO_RX_BASE_ADDR 0;;
          writeRegister REG_MODEM_CONFIG_1 0x72;;
          writeRegister REG_MODEM_CONFIG_2 0x70;;
          writeRegister REG_MODEM_CONFIG_3 0x04;;
          writeRegister REG_PA_CONFIG 0x8F;;
          writeRegister REG_PA_DAC 0x87;;
          writeRegister REG_LNA 0x23;;
          writeRegister REG_FIFO_ADDR_PTR 0;;
          standbyMode;;
          sleep_for 10;;
          ret true) w0).
Proof.
  unfold begin. rewrite bind_eq.
  destruct (fst (on_spi open w)); cbn [negb]; [|discriminate].
  rewrite !(bind_eq sleepMode), !(bind_eq (sleep_for 10)), !(bind_eq readVersionRegister).
  set (w0 := snd (readVersionRegister _)).
  destruct (fst (readVersionRegister _) =? 18); cbn [negb]; [|discriminate].
  intros _. exists w0. reflexivity.
Qed.

(** X21: when [begin] returns true, the getters read the settings it
    wrote: spreading factor 7, bandwidth 125 kHz, coding rate 4/5,
    transmit power 17, LNA register [0x23], automatic gain control on,
    and both FIFO base addresses 0. *)
Theorem begin_leaves_default_modem_settings (w : world T) :
  reads_back REG_MODEM_CONFIG_1 -> reads_back REG_MODEM_CONFIG_2 ->
  reads_back REG_PA_CONFIG -> reads_back REG_LNA -> reads_back REG_MODEM_CONFIG_3 ->
  fst (begin w) = true ->
  let w' := snd (begin w) in
  fst (getSpreadingFactor w') = 7
  /\ (exists m e, fst (getBandwidth w') = FFin m e /\ (F2Q m e == 125)%Q)
  /\ fst (getCodingRate w') = 5
  /\ fst (getTxPower w') = 17
  /\ fst (getLNA w') = 0x23
  /\ fst (getAutoAGC w') = true
  /\ reg (spi w') REG_FIFO_TX_BASE_ADDR = 0
  /\ reg (spi w') REG_FIFO_RX_BASE_ADDR = 0.
Proof.
  intros H1 H2 H3 H4 H5 Hok w'. destruct (begin_world w Hok) as [w0 Hw].
  unfold w'. rewrite Hw. unfold standbyMode, sleep_for.
  split; [|split; [|repeat split]].
  - unfold getSpreadingFactor. run_regs'. reflexivity.
  - rewrite getBandwidth_eq by assumption. run_regs'.
    exists 16384000, (-17). split; reflexivity.
  - rewrite getCodingRate_eq by assumption. run_regs'. reflexivity.
  - unfold getTxPower. run_regs'. reflexivity.
  - unfold getLNA. run_regs'. reflexivity.
  - unfold getAutoAGC. run_regs'. reflexivity.
  - run_regs'. reflexivity.
  - run_regs'. reflexivity.
Qed.

End BeginFacts.

Lemma setDIOMapping_keeps_low_bits_witness :
  Z.land (reg (spi (snd (RFM95.setDIOMapping 0x40 0xC0 (Fixtures.chip_world [] 1000000))))
              RFM95.REG_DIO_MAPPING_2) 0xC0 = 0xC0.
Proof.
  refine (proj1 (proj2 (proj2 (proj2
            (setDIOMapping_keeps_low_bits 0x40 0xC0 (Fixtures.chip_world [] 1000000) _ _ _ _)))));
    first [lia | apply chip_reads_back; reg_all].
Defined.

Lemma setContinuousReceive_state_witness :
  reg (spi (snd (RFM95.setContinuousReceive (Fixtures.chip_world [] 1000000))))
      RFM95.REG_OP_MODE = 0x05.
Proof.
  refine (proj1 (setContinuousReceive_state (Fixtures.chip_world [] 1000000) _ _ _));
    apply chip_reads_back; reg_all.
Defined.

Lemma setBeaconMode_effect_witness :
  RFM95.setBeaconMode 5000 Fixtures.oversized (Fixtures.chip_world [] 1000000)
  = (false, Fixtures.chip_world [] 1000000)
  /\ fst (RFM95.setBeaconMode 5000 [1; 2; 3] (Fixtures.chip_world [] 1000000)) = true.
Proof.
  split.
  - refine (proj1 (setBeaconMode_effect 5000 Fixtures.oversized
                     (Fixtures.chip_world [] 1000000) _) _).
    + apply chip_reads_back; reg_all.
    + vm_compute. reflexivity.
  - refine (proj1 (proj2 (setBeaconMode_effect 5000 [1; 2; 3]
                            (Fixtures.chip_world [] 1000000) _) _)).
    + apply chip_reads_back; reg_all.
    + simpl. lia.
Defined.

Lemma calibrated_temperature_reading_witness :
  exists w1 : world Chip,
    RFM95.calibrateTemperature (FFin 51 (-1)) (Fixtures.chip_world [] 1000000)
    = Some (true, w1)
    /\ fst (RFM95.readTemperature w1) = FFin 25 0.
Proof.
  pose proof (calibrated_temperature_reading (FFin 51 (-1)) (Fixtures.chip_world [] 1000000)
                (chip_reads_back RFM95.REG_OP_MODE ltac:(reg_all) ltac:(reg_all))
                (chip_reads_back 0x3B ltac:(lia) ltac:(lia))
                (chip_reads_back 0x3C ltac:(lia) ltac:(lia))) as Hx.
  destruct (RFM95.calibrateTemperature (FFin 51 (-1)) (Fixtures.chip_world [] 1000000))
    as [[ok w1]|] eqn:E.
  - destruct Hx as (Hok & _ & cal & Hcal & Hread & _). subst ok.
    exists w1. split; [reflexivity|].
    vm_compute in Hcal. injection Hcal as <-. exact Hread.
  - vm_compute in Hx. discriminate Hx.
Defined.

Lemma begin_leaves_default_modem_settings_witness :
  fst (RFM95.begin Fixtures.fresh_chip) = true
  /\ fst (RFM95.getTxPower (snd (RFM95.begin Fixtures.fresh_chip))) = 17.
Proof.
  split; [vm_compute; reflexivity|].
  refine (proj1 (proj2 (proj2 (proj2
            (begin_leaves_default_modem_settings Fixtures.fresh_chip _ _ _ _ _ _)))));
    first [apply chip_reads_back; reg_all | vm_compute; reflexivity].
Defined.

Section ReceiveIQ.
Context {T : Type} `{RegisterStore T}.
Import RFM95.

Lemma keeps_read_fifo (a' : Z) (n : nat) :
  forall data : list Z, keeps a' (read_fifo n data).
Proof.
  induction n as [|n IH]; intros data; simpl.
  - apply keeps_ret.
  - apply keeps_bind; [apply keeps_read | intros b; apply IH].
Qed.

Lemma rx_check_timeout_normal (next : world T -> option (rx_return * world T))
    (timeout : float) (invert_iq : bool) (start_time : Z) (w : world T)
    (r : rx_return) (w' : world T) :
  (forall w1 r w', (invert_iq = false -> iq_normal w1) -> next w1 = Some (r, w') -> iq_normal w') ->
  (invert_iq = false -> iq_normal w) ->
  rx_check_timeout next timeout invert_iq start_time w = Some (r, w') -> iq_normal w'.
Proof.
  intros Hnext Hw Hrun. unfold rx_check_timeout, now in Hrun.
  destruct (fgt _ _).
  - injection Hrun as Hrun. replace w' with (snd (r, w')) by reflexivity. rewrite <- Hrun.
    apply (bind_post _ _ (fun w => invert_iq = false -> iq_normal w)).
    { intros Hinv. apply keeps_iq_normal; [frames | frames |].
      destruct (Hw Hinv) as [Ha Hb]. split; assumption. }
    intros _ w2 Hw2. apply restore_normal. exact Hw2.
  - unfold sleep_for, ret in Hrun. eapply Hnext; [|exact Hrun].
    intros Hinv. destruct (Hw Hinv) as [Ha Hb]. split; assumption.
Qed.

Lemma receive_wait_normal (fuel : nat) (timeout : float) (invert_iq : bool) (start_time : Z) :
  forall (w : world T) (r : rx_return) (w' : world T),
  (invert_iq = false -> iq_normal w) ->
  receive_wait fuel timeout invert_iq start_time w = Some (r, w') -> iq_normal w'.
Proof.
  induction fuel as [|fuel IH]; intros w r w' Hw Hrun; [discriminate|].
  assert (Hpoll : invert_iq = false -> iq_normal (snd (readRegister REG_IRQ_FLAGS w))).
  { intros Hinv. apply keeps_iq_normal; [frames | frames | auto]. }
  destruct (tst (fst (readRegister REG_IRQ_FLAGS w)) IRQ_RX_DONE_MASK) eqn:Hdone.
  - destruct (tst (fst (readRegister REG_IRQ_FLAGS w)) IRQ_PAYLOAD_CRC_ERROR_MASK) eqn:Hcrc.
    + rewrite receive_wait_crc_error in Hrun by assumption.
      eapply IH; [|exact Hrun].
      intros Hinv. apply keeps_iq_normal; [frames | frames | auto].
    + rewrite receive_wait_clean in Hrun by assumption.
      set (w1 := snd (readRegister REG_IRQ_FLAGS w)) in *.
      assert (Hlen : invert_iq = false -> iq_normal (snd (readRegister REG_RX_NB_BYTES w1))).
      { intros Hinv. apply keeps_iq_normal; [frames | frames | auto]. }
      destruct (0 <? fst (readRegister REG_RX_NB_BYTES w1)).
      * injection Hrun as Hrun. replace w' with (snd (r, w')) by reflexivity.
        rewrite <- Hrun.
        do 4 (apply (bind_post _ _ (fun w => invert_iq = false -> iq_normal w));
                [ intros Hinv; apply keeps_iq_normal;
                  [ first [apply keeps_read_fifo | frames]
                  | first [apply keeps_read_fifo | frames] | auto ]
                | intros ? ? ? ]).
        apply (restore_normal invert_iq). assumption.
      * eapply rx_check_timeout_normal; [exact IH | exact Hlen | exact Hrun].
  - rewrite receive_wait_no_packet in Hrun by assumption.
    eapply rx_check_timeout_normal; [exact IH | exact Hpoll | exact Hrun].
Qed.

Lemma receive_setup_normal (invert_iq : bool) (w : world T) :
  invert_iq = false -> iq_normal (snd (receive_setup invert_iq w)).
Proof.
  intros ->. unfold receive_setup.
  apply (bind_post _ _ iq_normal); [apply setInvertIQ_false_normal|].
  intros _ w1 Hw1. unfold setDIOMapping.
  apply keeps_iq_normal; [frames | frames | exact Hw1].
Qed.

(** X22: whenever [receive] returns, with a packet or on timeout, with
    or without inversion asked for, the IQ registers hold the pair for
    normal operation. *)
Theorem receive_leaves_iq_normal (fuel : nat) (timeout : float) (invert_iq : bool)
    (w : world T) (data : list Z) (w' : world T) :
  receive fuel timeout invert_iq w = Some (data, w') -> iq_normal w'.
Proof.
  unfold receive, receive_from. intros Hrun.
  pose proof (receive_setup_normal invert_iq w) as Hsetup.
  destruct (receive_setup invert_iq w) as [start_time w1]. cbn [snd] in Hsetup.
  destruct (receive_wait fuel timeout invert_iq start_time w1) as [[r w2]|] eqn:Hwait;
    [|discriminate].
  injection Hrun as _ <-.
  exact (receive_wait_normal fuel timeout invert_iq start_time w1 r w2 Hsetup Hwait).
Qed.

End ReceiveIQ.

Lemma receive_leaves_iq_normal_witness :
  exists (data : list Z) (w' : world Chip),
    RFM95.receive 1 Fixtures.tenth true (Fixtures.chip_world [0] 200000000) = Some (data, w')
    /\ iq_normal w'.
Proof.
  eexists _, _. split; [vm_compute; reflexivity|].
  eapply (receive_leaves_iq_normal 1 Fixtures.tenth true (Fixtures.chip_world [0] 200000000)).
  vm_compute. reflexivity.
Defined.

Section SendOutcome.
Context {T : Type} `{RegisterStore T}.
Import RFM95.

Lemma restore_timeless {A} (invert_iq : bool) (x : A) :
  timeless (T := T) ((if invert_iq then setInvertIQ false else ret tt);; ret x).
Proof. destruct invert_iq; unfold setInvertIQ; frames. Qed.

Lemma restore_keeps {A} (a' : Z) (invert_iq : bool) (x : A) :
  a' <> REG_INVERTIQ -> a' <> REG_INVERTIQ2 ->
  keeps (T := T) a' ((if invert_iq then setInvertIQ false else ret tt);; ret x).
Proof.
  intros H1 H2. destruct invert_iq; unfold setInvertIQ; cbv iota;
    repeat first [ apply keeps_ret
                 | apply keeps_write; [reg_all | assumption]
                 | apply keeps_bind; [|intros ?] ].
Qed.

Lemma send_wait_outcome (fuel : nat) (invert_iq : bool) (start : Z) :
  forall (w : world T) (b : bool) (w' : world T),
  send_wait fuel invert_iq start w = Some (b, w') ->
  reg (spi w') REG_PAYLOAD_LENGTH = reg (spi w) REG_PAYLOAD_LENGTH
  /\ readings (clock w') = readings (clock w)
  /\ (b = true -> reg (spi w') REG_OP_MODE = MODE_STDBY)
  /\ (b = false ->
      reg (spi w') REG_OP_MODE = reg (spi w) REG_OP_MODE
      /\ (0 < taken (clock w'))%nat
      /\ 2000 < elapsed_ms start (readings (clock w') (taken (clock w') - 1))).
Proof.
  induction fuel as [|fuel IH]; intros w b w' Hrun; [discriminate|].
  cbn [send_wait] in Hrun.
  pose proof (readRegister_clock REG_IRQ_FLAGS w) as Hc.
  pose proof (readRegister_reg REG_IRQ_FLAGS REG_PAYLOAD_LENGTH w) as Hlen.
  pose proof (readRegister_reg REG_IRQ_FLAGS REG_OP_MODE w) as Hmode.
  destruct (readRegister REG_IRQ_FLAGS w) as [flags w1]. cbn [snd] in Hc, Hlen, Hmode.
  destruct (tst flags IRQ_TX_DONE_MASK).
  - injection Hrun as Hrun.
    pose proof (f_equal fst Hrun) as Hb. pose proof (f_equal snd Hrun) as Hw.
    cbn [fst snd] in Hb, Hw. clear Hrun. subst w'.
    rewrite !bind_eq in Hb. unfold ret in Hb. cbn [fst] in Hb. subst b.
    split; [|split; [|split]].
    + rewrite <- Hlen. unfold standbyMode.
      rewrite (keeps_bind REG_PAYLOAD_LENGTH (writeRegister REG_IRQ_FLAGS 255)); [reflexivity | |].
      * apply keeps_write; reg_all.
      * intros _. apply keeps_bind; [apply keeps_write; reg_all|].
        intros _. apply restore_keeps; reg_all.
    + rewrite <- Hc. f_equal. unfold standbyMode.
      apply (timeless_bind (writeRegister REG_IRQ_FLAGS 255)); [apply timeless_write|].
      intros _. apply timeless_bind; [apply timeless_write|].
      intros _. apply restore_timeless.
    + intros _. unfold standbyMode. rewrite bind_eq, bind_eq.
      rewrite (restore_keeps REG_OP_MODE invert_iq true) by reg_all.
      run_regs'. reflexivity.
    + discriminate.
  - unfold now in Hrun. rewrite Hc in Hrun.
    set (t := readings (clock w) (taken (clock w))) in *.
    destruct (Z.gtb_spec (elapsed_ms start t) 2000) as [Hlate|_].
    + injection Hrun as Hrun.
      pose proof (f_equal fst Hrun) as Hb. pose proof (f_equal snd Hrun) as Hw.
      cbn [fst snd] in Hb, Hw. clear Hrun. subst w'.
      rewrite !bind_eq in Hb. unfold ret in Hb. cbn [fst] in Hb. subst b.
      rewrite (restore_timeless invert_iq false).
      rewrite !(restore_keeps _ invert_iq false) by reg_all.
      cbn [spi clock readings taken].
      replace (S (taken (clock w)) - 1)%nat with (taken (clock w)) by lia.
      repeat split; try assumption; try discriminate; try lia.
    + unfold sleep_for, ret in Hrun.
      specialize (IH _ _ _ Hrun). cbn [spi clock readings] in IH.
      rewrite Hlen, Hmode in IH. exact IH.
Qed.

Lemma send_setup_regs (data : list Z) (invert_iq : bool) (w : world T) :
  reg (spi (snd (send_setup data invert_iq w))) REG_PAYLOAD_LENGTH = u8 (Z.of_nat (length data))
  /\ reg (spi (snd (send_setup data invert_iq w))) REG_OP_MODE = MODE_TX.
Proof.
  unfold send_setup, setDIOMapping, standbyMode, sleep_for.
  destruct invert_iq; unfold setInvertIQ; split; run_regs'; rewrite keeps_now;
    run_regs'; reflexivity.
Qed.

(** X23: when [send] returns for a payload of at most 255 bytes, the
    payload length register holds the length of the payload.  After a
    true result the operating mode register holds standby.  After a
    false result it still holds the transmit mode, and the last reading
    of the clock was more than 2000 ms after the reading at the start of
    the wait. *)
Theorem send_outcome (fuel : nat) (data : list Z) (invert_iq : bool) (w : world T)
    (b : bool) (w' : world T) :
  (length data <= 255)%nat ->
  send fuel data invert_iq w = Some (b, w') ->
  reg (spi w') REG_PAYLOAD_LENGTH = Z.of_nat (length data)
  /\ (b = true -> reg (spi w') REG_OP_MODE = MODE_STDBY)
  /\ (b = false ->
      reg (spi w') REG_OP_MODE = MODE_TX
      /\ (0 < taken (clock w'))%nat
      /\ 2000 < elapsed_ms (readings (clock w) (taken (clock w)))
                           (readings (clock w) (taken (clock w') - 1))).
Proof.
  intros Hshort Hrun. unfold send in Hrun.
  destruct (Nat.ltb_spec 255 (length data)); [lia|].
  destruct (send_setup_spec data invert_iq w) as (Hstart & Htick & _).
  destruct (send_setup_regs data invert_iq w) as (Hlen & Hmode).
  destruct (send_setup data invert_iq w) as [start w1]. cbn [fst snd] in *.
  destruct (send_wait_outcome fuel invert_iq start w1 b w' Hrun) as (A & B & C & D).
  rewrite Htick in B. cbn [readings] in B.
  split; [|split].
  - rewrite A, Hlen. apply Z.mod_small. lia.
  - exact C.
  - intros Hb. destruct (D Hb) as (D1 & D2 & D3).
    rewrite D1, Hmode, <- Hstart, <- B. auto.
Qed.

End SendOutcome.

Lemma send_outcome_witness :
  exists w' : world Chip,
    RFM95.send 1 [1; 2; 3] false (Fixtures.chip_world [8] 1000000) = Some (true, w')
    /\ reg (spi w') RFM95.REG_OP_MODE = RFM95.MODE_STDBY.
Proof.
  eexists. split; [vm_compute; reflexivity|].
  refine (proj1 (proj2 (send_outcome 1 [1; 2; 3] false (Fixtures.chip_world [8] 1000000)
                          true _ _ _)) eq_refl).
  - simpl. lia.
  - vm_compute. reflexivity.
Defined.

Section ReceiveLoop.
Context {T : Type} `{SPIInterface T}.
Import RFM95.
Variable garbled : T -> Prop.

(** X24: a poll of [receive] that sees receive-done with a CRC error
    clears the flags and polls again without a look at the clock.  So as
    long as every poll sees these two flags, [receive] does not return,
    whatever the timeout and however much time passes. *)
Theorem receive_keeps_polling_while_crc_errors_last (timeout : float) (invert_iq : bool)
    (w : world T) :
  (forall t, garbled t ->
     garbled (snd (transfer [REG_IRQ_FLAGS] 1 t))
     /\ exists f rest, fst (transfer [REG_IRQ_FLAGS] 1 t) = f :: rest
          /\ tst (u8 f) IRQ_RX_DONE_MASK = true
          /\ tst (u8 f) IRQ_PAYLOAD_CRC_ERROR_MASK = true) ->
  (forall t, garbled t -> garbled (snd (transfer [Z.lor REG_IRQ_FLAGS 0x80; 0xFF] 0 t))) ->
  garbled (spi (snd (receive_setup invert_iq w))) ->
  forall fuel : nat, receive fuel timeout invert_iq w = None.
Proof.
  intros Hpoll Hclear Hstart fuel. unfold receive, receive_from.
  destruct (receive_setup invert_iq w) as [start_time w1]. cbn [snd] in Hstart.
  enough (Hloop : receive_wait fuel timeout invert_iq start_time w1 = None)
    by (rewrite Hloop; reflexivity).
  revert w1 Hstart. induction fuel as [|fuel IH]; intros w1 Hstart; [reflexivity|].
  destruct (Hpoll _ Hstart) as (Hnext & f & rest & Hf & Hdone & Hcrc).
  assert (Hflags : fst (readRegister REG_IRQ_FLAGS w1) = u8 f).
  { rewrite readRegister_eq. cbn [fst].
    change (u8 (Z.land (u8 REG_IRQ_FLAGS) 127)) with REG_IRQ_FLAGS. rewrite Hf. reflexivity. }
  rewrite receive_wait_crc_error by (rewrite Hflags; assumption).
  apply IH. rewrite writeRegister_eq, readRegister_eq. cbn [fst snd spi].
  change (u8 (Z.land (u8 REG_IRQ_FLAGS) 127)) with REG_IRQ_FLAGS.
  change (u8 (Z.lor (u8 REG_IRQ_FLAGS) 128)) with (Z.lor REG_IRQ_FLAGS 0x80).
  change (u8 255) with 255. apply Hclear. exact Hnext.
Qed.

End ReceiveLoop.

Lemma chip_poll_stuck (t : Chip) :
  Fixtures.flags_stuck t -> chip_transfer [RFM95.REG_IRQ_FLAGS] 1 t = ([0xFF], t).
Proof.
  intros [Hs Hr]. unfold chip_transfer, RFM95.REG_IRQ_FLAGS in *. cbv zeta.
  change (tst 18 128) with false. change (Z.land 18 127 =? 18) with true. cbv iota.
  rewrite Hs. change (Z.land 18 127) with 18. rewrite Hr. reflexivity.
Qed.

Lemma chip_clear_stuck (t : Chip) :
  Fixtures.flags_stuck t ->
  Fixtures.flags_stuck (snd (chip_transfer [Z.lor RFM95.REG_IRQ_FLAGS 0x80; 0xFF] 0 t)).
Proof.
  intros [Hs Hr]. unfold chip_transfer, RFM95.REG_IRQ_FLAGS in *. cbv zeta.
  change (tst (Z.lor 18 128) 128) with true. cbv iota.
  change (Z.land (Z.lor 18 128) 127) with 18.
  split; [exact Hs|]. unfold chip_reg. cbn [snd cells].
  rewrite lookup_insert. reflexivity.
Qed.

Lemma receive_keeps_polling_while_crc_errors_last_witness :
  RFM95.receive 1000 Fixtures.tenth false (Fixtures.chip_world [] 1000000) = None.
Proof.
  refine (receive_keeps_polling_while_crc_errors_last Fixtures.flags_stuck
            Fixtures.tenth false (Fixtures.chip_world [] 1000000) _ _ _ 1000%nat).
  - intros t Ht. change (transfer [RFM95.REG_IRQ_FLAGS] 1 t)
      with (chip_transfer [RFM95.REG_IRQ_FLAGS] 1 t).
    rewrite (chip_poll_stuck t Ht). split; [exact Ht|].
    exists 0xFF, []. repeat split.
  - intros t Ht. exact (chip_clear_stuck t Ht).
  - split; vm_compute; reflexivity.
Defined.

Section MockTrace.
Import RFM95.

Lemma mock_read_sent (a : Z) (w : world Mock) :
  sent (spi (snd (readRegister a w)))
  = sent (spi w) ++ [([u8 (Z.land (u8 a) 0x7F)], 1%nat)].
Proof.
  rewrite readRegister_eq. simpl. unfold mock_transfer.
  destruct (script (spi w)); reflexivity.
Qed.

Lemma mock_write_sent (a v : Z) (w : world Mock) :
  sent (spi (snd (writeRegister a v w)))
  = sent (spi w) ++ [([u8 (Z.lor (u8 a) 0x80); u8 v], 0%nat)].
Proof.
  rewrite writeRegister_eq. simpl. unfold mock_transfer.
  destruct (script (spi w)); reflexivity.
Qed.

Lemma mock_read_fifo_sent (n : nat) :
  forall (data : list Z) (w : world Mock),
  sent (spi (snd (read_fifo n data w)))
  = sent (spi w) ++ replicate n ([REG_FIFO], 1%nat).
Proof.
  induction n as [|n IH]; intros data w; simpl.
  - rewrite app_nil_r. reflexivity.
  - rewrite bind_eq, IH, mock_read_sent, <- app_assoc. reflexivity.
Qed.

Lemma mock_write_fifo_sent (data : list Z) :
  forall w : world Mock,
  sent (spi (snd (write_fifo data w)))
  = sent (spi w) ++ map (fun b => ([Z.lor REG_FIFO 0x80; u8 b], 0%nat)) data.
Proof.
  induction data as [|b data IH]; intros w; simpl.
  - rewrite app_nil_r. reflexivity.
  - rewrite bind_eq, IH, mock_write_sent, <- app_assoc. reflexivity.
Qed.

(** X25: [readPayload] reads the byte count and the current receive
    address, points the FIFO at that address, and then reads the FIFO
    register once per byte: over a transport that answers with a count
    of [length pkt], an address and the bytes [pkt], it returns [pkt]
    and has made exactly these transfers, in this order. *)
Theorem readPayload_returns_fifo_bytes (pkt : list Z) (current_addr : Z)
    (ack : list Z) (rest : list (list Z)) (w : world Mock) :
  Forall (fun b => 0 <= b < 256) pkt ->
  (0 < length pkt <= 255)%nat ->
  0 <= current_addr < 256 ->
  script (spi w)
  = [Z.of_nat (length pkt)] :: [current_addr] :: ack :: map (fun b => [b]) pkt ++ rest ->
  fst (readPayload w) = pkt
  /\ script (spi (snd (readPayload w))) = rest
  /\ sent (spi (snd (readPayload w)))
     = sent (spi w)
       ++ [([REG_RX_NB_BYTES], 1%nat); ([REG_FIFO_RX_CURRENT_ADDR], 1%nat);
           ([Z.lor REG_FIFO_ADDR_PTR 0x80; current_addr], 0%nat)]
       ++ replicate (length pkt) ([REG_FIFO], 1%nat).
Proof.
  intros Hpkt Hlen Haddr Hs. unfold readPayload.
  destruct (mock_read REG_RX_NB_BYTES w _ _ Hs) as (Hn & Hs1 & _).
  pose proof (mock_read_sent REG_RX_NB_BYTES w) as Ht1.
  rewrite bind_eq, Hn.
  set (w1 := snd (readRegister REG_RX_NB_BYTES w)) in *.
  rewrite (u8_small (Z.of_nat (length pkt))) by lia.
  destruct (Z.ltb_spec 0 (Z.of_nat (length pkt))) as [_|]; [|lia].
  destruct (mock_read REG_FIFO_RX_CURRENT_ADDR w1 _ _ Hs1) as (Ha & Hs2 & _).
  pose proof (mock_read_sent REG_FIFO_RX_CURRENT_ADDR w1) as Ht2.
  rewrite bind_eq, Ha, (u8_small current_addr Haddr).
  set (w2 := snd (readRegister REG_FIFO_RX_CURRENT_ADDR w1)) in *.
  destruct (mock_write REG_FIFO_ADDR_PTR current_addr w2) as (Hs3 & _).
  pose proof (mock_write_sent REG_FIFO_ADDR_PTR current_addr w2) as Ht3.
  rewrite bind_eq.
  set (w3 := snd (writeRegister REG_FIFO_ADDR_PTR current_addr w2)) in *.
  rewrite Hs2 in Hs3. cbn [drop] in Hs3.
  rewrite Nat2Z.id. rewrite bind_eq. unfold ret. cbn [fst snd].
  destruct (mock_read_fifo pkt rest Hpkt [] w3 Hs3) as (Hd & Hr).
  rewrite Hd, Hr, mock_read_fifo_sent, Ht3, Ht2, Ht1.
  rewrite (u8_small current_addr Haddr).
  repeat split. rewrite <- !app_assoc. reflexivity.
Qed.

End MockTrace.

Section MockSend.
Import RFM95.

Ltac sent_log :=
  repeat first
    [ rewrite bind_eq
    | rewrite mock_write_sent
    | rewrite mock_read_sent
    | rewrite mock_write_fifo_sent
    | progress (unfold ret, now, sleep_for; cbn [fst snd spi]) ].

Lemma send_setup_sent (data : list Z) (invert_iq : bool) (w : world Mock) :
  (length data <= 255)%nat ->
  exists before : list (list Z * nat),
    length before = 13%nat
    /\ sent (spi (snd (send_setup data invert_iq w)))
       = sent (spi w) ++ before
         ++ map (fun b => ([Z.lor REG_FIFO 0x80; u8 b], 0%nat)) data
         ++ [([Z.lor REG_PAYLOAD_LENGTH 0x80; Z.of_nat (length data)], 0%nat);
             ([Z.lor REG_OP_MODE 0x80; MODE_TX], 0%nat)].
Proof.
  intros Hlen. unfold send_setup, setDIOMapping, standbyMode.
  destruct invert_iq; unfold setInvertIQ; sent_log;
    rewrite (u8_small (Z.of_nat (length data))) by lia;
    rewrite <- !app_assoc; cbn [app];
    change (u8 (Z.lor (u8 REG_PAYLOAD_LENGTH) 128)) with (Z.lor REG_PAYLOAD_LENGTH 128);
    change (u8 (Z.lor (u8 REG_OP_MODE) 128)) with (Z.lor REG_OP_MODE 128);
    change (u8 MODE_TX) with MODE_TX;
    (eexists (_ :: _ :: _ :: _ :: _ :: _ :: _ :: _ :: _ :: _ :: _ :: _ :: _ :: []);
     split; [reflexivity|]; cbn [app]; reflexivity).
Qed.

Lemma send_wait_sent (fuel : nat) (invert_iq : bool) (start : Z) :
  forall (w : world Mock) (b : bool) (w' : world Mock),
  send_wait fuel invert_iq start w = Some (b, w') ->
  exists after : list (list Z * nat), sent (spi w') = sent (spi w) ++ after.
Proof.
  induction fuel as [|fuel IH]; intros w b w' Hrun; [discriminate|].
  cbn [send_wait] in Hrun.
  pose proof (mock_read_sent REG_IRQ_FLAGS w) as Hpoll.
  destruct (readRegister REG_IRQ_FLAGS w) as [flags w1]. cbn [snd] in Hpoll.
  destruct (tst flags IRQ_TX_DONE_MASK).
  - injection Hrun as Hrun. pose proof (f_equal snd Hrun) as Hw. cbn [snd] in Hw.
    subst w'. unfold standbyMode.
    destruct invert_iq; unfold setInvertIQ; sent_log; rewrite Hpoll, <- !app_assoc; eauto.
  - unfold now in Hrun.
    destruct (elapsed_ms start _ >? 2000).
    + injection Hrun as Hrun. pose proof (f_equal snd Hrun) as Hw. cbn [snd] in Hw.
      subst w'.
      destruct invert_iq; unfold setInvertIQ; sent_log; rewrite Hpoll, <- ?app_assoc; eauto.
    + unfold sleep_for, ret in Hrun. destruct (IH _ _ _ Hrun) as [after Hafter].
      cbn [spi] in Hafter. rewrite Hafter, Hpoll, <- app_assoc. eauto.
Qed.

(** X26: over a scripted transport, [send] of at most 255 bytes makes
    thirteen transfers of set-up and then writes the payload to the FIFO
    register byte by byte, in order, followed by the payload length and
    by the transmit mode; whatever it sends after that comes later. *)
Theorem send_streams_payload_in_order (fuel : nat) (data : list Z) (invert_iq : bool)
    (w : world Mock) (b : bool) (w' : world Mock) :
  (length data <= 255)%nat ->
  send fuel data invert_iq w = Some (b, w') ->
  exists before after : list (list Z * nat),
    length before = 13%nat
    /\ sent (spi w')
       = sent (spi w) ++ before
         ++ map (fun byte => ([Z.lor REG_FIFO 0x80; u8 byte], 0%nat)) data
         ++ [([Z.lor REG_PAYLOAD_LENGTH 0x80; Z.of_nat (length data)], 0%nat);
             ([Z.lor REG_OP_MODE 0x80; MODE_TX], 0%nat)]
         ++ after.
Proof.
  intros Hlen Hrun. unfold send in Hrun.
  destruct (Nat.ltb_spec 255 (length data)); [lia|].
  destruct (send_setup_sent data invert_iq w Hlen) as (before & Hbefore & Hsetup).
  destruct (send_setup data invert_iq w) as [start w1]. cbn [snd] in Hsetup.
  destruct (send_wait_sent fuel invert_iq start w1 b w' Hrun) as [after Hafter].
  exists before, after. split; [exact Hbefore|].
  rewrite Hafter, Hsetup, <- !app_assoc. reflexivity.
Qed.

End MockSend.

Lemma send_streams_payload_in_order_witness :
  exists (w' : world Mock) (before after : list (list Z * nat)),
    RFM95.send 1 [0xCA; 0xFE] false (Fixtures.mock_world [] 3000000000) = Some (false, w')
    /\ length before = 13%nat
    /\ sent (spi w')
       = before ++ [([0x80; 0xCA], 0%nat); ([0x80; 0xFE], 0%nat);
                    ([0xA2; 2], 0%nat); ([0x81; 0x03], 0%nat)] ++ after.
Proof.
  eexists.
  destruct (send_streams_payload_in_order 1 [0xCA; 0xFE] false
              (Fixtures.mock_world [] 3000000000) false _
              ltac:(simpl; lia) ltac:(vm_compute; reflexivity))
    as (before & after & Hlen & Hsent).
  exists before, after. split; [vm_compute; reflexivity|]. split; [exact Hlen|].
  exact Hsent.
Defined.

Lemma readPayload_returns_fifo_bytes_witness :
  fst (RFM95.readPayload
         (Fixtures.mock_world [[3]; [0x10]; []; [0xCA]; [0xFE]; [0x01]] 1000000))
  = [0xCA; 0xFE; 0x01].
Proof.
  refine (proj1 (readPayload_returns_fifo_bytes [0xCA; 0xFE; 0x01] 0x10 [] []
                   (Fixtures.mock_world [[3]; [0x10]; []; [0xCA]; [0xFE]; [0x01]] 1000000)
                   _ _ _ _)).
  - repeat constructor; lia.
  - simpl. lia.
  - lia.
  - reflexivity.
Defined.
